(** * dLocal KYC console: request signing and ledger reconciliation

    A shallow embedding of [app.py].  Python values that travel through
    the routes as JSON are kept dynamically typed ([json]); attribute
    errors, conversions that fail and database faults are results of an
    error monad; the network and the database are oracles passed to the
    second half of each route. *)

From Stdlib Require Import ZArith List String Ascii Bool Lia DecimalString.
Import ListNotations.
Open Scope string_scope.
Open Scope list_scope.
Open Scope Z_scope.

Infix "+++" := String.append (right associativity, at level 60).

(** ** Bytes and text

    A [str] is held as its UTF-8 encoding, one [ascii] per byte, so
    [s.encode('utf-8')] reads the bytes off. *)

Definition bytes := list Z.

Definition encode_utf8 (s : string) : bytes :=
  map (fun c => Z.of_N (N_of_ascii c)) (list_ascii_of_string s).

Definition hex_alphabet : string := "0123456789abcdef".

Definition hex_digit (n : Z) : ascii :=
  nth (Z.to_nat (n mod 16)) (list_ascii_of_string hex_alphabet) "0"%char.

Definition hex_byte (b : Z) : list ascii := [hex_digit (b / 16); hex_digit b].

Definition hex_of_bytes (bs : bytes) : string :=
  string_of_list_ascii (flat_map hex_byte bs).


(** ** hashlib.sha256 (FIPS 180-4) on 32-bit words held in [Z] *)

Module SHA256.

Definition w32 (x : Z) : Z := x mod 2 ^ 32.
Definition add32 (a b : Z) : Z := w32 (a + b).
Definition rotr (n x : Z) : Z :=
  Z.lor (Z.shiftr x n) (w32 (Z.shiftl x (32 - n))).
Definition shr (n x : Z) : Z := Z.shiftr x n.
Definition not32 (x : Z) : Z := Z.lxor x (2 ^ 32 - 1).

Definition Ch (x y z : Z) := Z.lxor (Z.land x y) (Z.land (not32 x) z).
Definition Maj (x y z : Z) :=
  Z.lxor (Z.lxor (Z.land x y) (Z.land x z)) (Z.land y z).
Definition Sigma0 x := Z.lxor (Z.lxor (rotr 2 x) (rotr 13 x)) (rotr 22 x).
Definition Sigma1 x := Z.lxor (Z.lxor (rotr 6 x) (rotr 11 x)) (rotr 25 x).
Definition sigma0 x := Z.lxor (Z.lxor (rotr 7 x) (rotr 18 x)) (shr 3 x).
Definition sigma1 x := Z.lxor (Z.lxor (rotr 17 x) (rotr 19 x)) (shr 10 x).

(** The first 64 primes. *)
Definition is_prime (n : Z) : bool :=
  (2 <=? n)
  && forallb (fun d => negb (n mod Z.of_nat d =? 0))
             (seq 2 (Z.to_nat n - 2)).

Definition primes : list Z :=
  filter is_prime (map Z.of_nat (seq 2 310)).

(** Integer cube root below [2 ^ 35], one bit at a time. *)
Fixpoint cbrt_from (bit : nat) (acc n : Z) : Z :=
  match bit with
  | O => acc
  | S bit' =>
      let c := acc + 2 ^ Z.of_nat bit' in
      cbrt_from bit' (if c * c * c <=? n then c else acc) n
  end.

Definition frac32_cbrt (p : Z) : Z := w32 (cbrt_from 35 0 (p * 2 ^ 96)).
Definition frac32_sqrt (p : Z) : Z := w32 (Z.sqrt (p * 2 ^ 64)).

(** Round constants: the fractional parts of the cube roots of the
    primes, 32 bits each. *)
Definition K : list Z := Eval vm_compute in map frac32_cbrt primes.

Record state := mkState { sa : Z; sb : Z; sc : Z; sd : Z;
                          se : Z; sf : Z; sg : Z; sh : Z }.

(** Initial state: the fractional parts of the square roots of the
    first eight primes. *)
Definition H0 : state :=
  Eval vm_compute in
    match map frac32_sqrt primes with
    | a :: b :: c :: d :: e :: f :: g :: h :: _ => mkState a b c d e f g h
    | _ => mkState 0 0 0 0 0 0 0 0
    end.

Definition round (k w : Z) (s : state) : state :=
  let t1 := add32 (add32 (add32 (add32 (sh s) (Sigma1 (se s)))
                                (Ch (se s) (sf s) (sg s))) k) w in
  let t2 := add32 (Sigma0 (sa s)) (Maj (sa s) (sb s) (sc s)) in
  mkState (add32 t1 t2) (sa s) (sb s) (sc s)
          (add32 (sd s) t1) (se s) (sf s) (sg s).

(** The message schedule is a sliding window of sixteen words:
    W[t+16] = sigma1 W[t+14] + W[t+9] + sigma0 W[t+1] + W[t]. *)
Fixpoint rounds (ks : list Z) (win : list Z) (s : state) : state :=
  match ks with
  | [] => s
  | k :: ks' =>
      let w := nth 0 win 0 in
      let wnew := add32 (add32 (sigma1 (nth 14 win 0)) (nth 9 win 0))
                        (add32 (sigma0 (nth 1 win 0)) w) in
      rounds ks' (tl win ++ [wnew]) (round k w s)
  end.

Fixpoint words_of_bytes (n : nat) (bs : bytes) : list Z :=
  match n with
  | O => []
  | S n' =>
      (nth 0 bs 0 * 2 ^ 24 + nth 1 bs 0 * 2 ^ 16 + nth 2 bs 0 * 2 ^ 8
       + nth 3 bs 0) :: words_of_bytes n' (skipn 4 bs)
  end.

Definition compress (s : state) (block : bytes) : state :=
  let r := rounds K (words_of_bytes 16 block) s in
  mkState (add32 (sa s) (sa r)) (add32 (sb s) (sb r))
          (add32 (sc s) (sc r)) (add32 (sd s) (sd r))
          (add32 (se s) (se r)) (add32 (sf s) (sf r))
          (add32 (sg s) (sg r)) (add32 (sh s) (sh r)).

Fixpoint blocks (n : nat) (m : bytes) (s : state) : state :=
  match n with
  | O => s
  | S n' => blocks n' (skipn 64 m) (compress s (firstn 64 m))
  end.

Definition be_bytes (n : nat) (x : Z) : bytes :=
  map (fun i => (x / 2 ^ (8 * Z.of_nat i)) mod 256) (rev (seq 0 n)).

Definition pad (m : bytes) : bytes :=
  let len := Z.of_nat (List.length m) in
  let zeros := Z.to_nat ((55 - len) mod 64) in
  m ++ [0x80] ++ repeat 0 zeros ++ be_bytes 8 (8 * len).

Definition word_bytes (x : Z) : bytes :=
  [ (x / 2 ^ 24) mod 256; (x / 2 ^ 16) mod 256; (x / 2 ^ 8) mod 256;
    x mod 256 ].

Definition state_bytes (s : state) : bytes :=
  word_bytes (sa s) ++ word_bytes (sb s) ++ word_bytes (sc s)
  ++ word_bytes (sd s) ++ word_bytes (se s) ++ word_bytes (sf s)
  ++ word_bytes (sg s) ++ word_bytes (sh s).

Definition digest (m : bytes) : bytes :=
  let p := pad m in
  state_bytes (blocks (Nat.div (List.length p) 64) p H0).

End SHA256.

(** ** hmac.new(key, msg, hashlib.sha256) (RFC 2104, block size 64) *)

Module HMAC.

Definition block_size : nat := 64.

Definition block_key (key : bytes) : bytes :=
  let k := if (Nat.ltb block_size (List.length key)) then SHA256.digest key
           else key in
  k ++ repeat 0 (block_size - List.length k).

Definition xor_pad (p : Z) (k : bytes) : bytes := map (Z.lxor p) k.

Definition digest (key msg : bytes) : bytes :=
  let k := block_key key in
  SHA256.digest (xor_pad 0x5c k ++ SHA256.digest (xor_pad 0x36 k ++ msg)).

Definition hexdigest (key msg : bytes) : string :=
  hex_of_bytes (digest key msg).

End HMAC.

(** ** Python values

    What [request.get_json()] and [response.json()] hand over.  A float
    is held as its [repr]; a dict keeps insertion order. *)

#[local] Set Warnings "-register-all".

Inductive json : Type :=
| JNull
| JBool (b : bool)
| JInt (n : Z)
| JFloat (repr : string)
| JStr (s : string)
| JArr (items : list json)
| JObj (fields : list (string * json)).

Definition dict := list (string * json).

Definition truthy (v : json) : bool :=
  match v with
  | JNull => false
  | JBool b => b
  | JInt n => negb (n =? 0)
  | JFloat r => negb (String.eqb r "0.0" || String.eqb r "-0.0")
  | JStr s => negb (String.eqb s "")
  | JArr l => match l with [] => false | _ => true end
  | JObj d => match d with [] => false | _ => true end
  end.

(** [v == "literal"] *)
Definition is_str (v : json) (lit : string) : bool :=
  match v with JStr s => String.eqb s lit | _ => false end.

Fixpoint json_eqb (a b : json) : bool :=
  match a, b with
  | JNull, JNull => true
  | JBool x, JBool y => Bool.eqb x y
  | JInt x, JInt y => x =? y
  | JFloat x, JFloat y => String.eqb x y
  | JStr x, JStr y => String.eqb x y
  | JArr x, JArr y =>
      (fix all2 (l1 l2 : list json) : bool :=
         match l1, l2 with
         | [], [] => true
         | u :: l1', v :: l2' => json_eqb u v && all2 l1' l2'
         | _, _ => false
         end) x y
  | JObj x, JObj y =>
      (fix all2 (l1 l2 : list (string * json)) : bool :=
         match l1, l2 with
         | [], [] => true
         | (k, u) :: l1', (k', v) :: l2' =>
             String.eqb k k' && json_eqb u v && all2 l1' l2'
         | _, _ => false
         end) x y
  | _, _ => false
  end.

Fixpoint lookup (k : string) (d : dict) : option json :=
  match d with
  | [] => None
  | (k', v) :: d' => if String.eqb k k' then Some v else lookup k d'
  end.

(** [d.get(k, default)] on a dict *)
Definition dict_get (d : dict) (k : string) (default : json) : json :=
  match lookup k d with Some v => v | None => default end.

(** [d[k] = v]: an existing key keeps its place, a new one goes last. *)
Fixpoint dict_set (k : string) (v : json) (d : dict) : dict :=
  match d with
  | [] => [(k, v)]
  | (k', v') :: d' =>
      if String.eqb k k' then (k, v) :: d' else (k', v') :: dict_set k v d'
  end.

Definition has_key (k : string) (d : dict) : bool :=
  match lookup k d with Some _ => true | None => false end.

(** ** json.dumps (default separators, ensure_ascii) *)

Definition decimal (n : Z) : string := NilZero.string_of_int (Z.to_int n).

Definition hex4 (n : Z) : string :=
  string_of_list_ascii
    [hex_digit (n / 4096); hex_digit (n / 256); hex_digit (n / 16);
     hex_digit n].

Definition chr (n : Z) : string :=
  String (ascii_of_N (Z.to_N n)) EmptyString.

(** Code points of UTF-8 text. *)
Fixpoint code_points (bs : bytes) : list Z :=
  match bs with
  | [] => []
  | b :: r =>
      if b <? 0xC0 then b :: code_points r
      else if b <? 0xE0 then
        match r with
        | c1 :: r1 =>
            (Z.land b 0x1F * 64 + Z.land c1 0x3F) :: code_points r1
        | _ => [b]
        end
      else if b <? 0xF0 then
        match r with
        | c1 :: c2 :: r2 =>
            (Z.land b 0x0F * 4096 + Z.land c1 0x3F * 64 + Z.land c2 0x3F)
              :: code_points r2
        | _ => [b]
        end
      else
        match r with
        | c1 :: c2 :: c3 :: r3 =>
            (Z.land b 0x07 * 262144 + Z.land c1 0x3F * 4096
             + Z.land c2 0x3F * 64 + Z.land c3 0x3F) :: code_points r3
        | _ => [b]
        end
  end.

Definition escape_code_point (c : Z) : string :=
  if c =? 34 then "\" +++ chr 34
  else if c =? 92 then "\\"
  else if c =? 8 then "\b"
  else if c =? 12 then "\f"
  else if c =? 10 then "\n"
  else if c =? 13 then "\r"
  else if c =? 9 then "\t"
  else if (32 <=? c) && (c <=? 126) then chr c
  else if c <? 0x10000 then "\u" +++ hex4 c
  else
    let n := c - 0x10000 in
    "\u" +++ hex4 (Z.lor 0xD800 (Z.land (Z.shiftr n 10) 0x3FF))
    +++ "\u" +++ hex4 (Z.lor 0xDC00 (Z.land n 0x3FF)).

Definition dumps_str (s : string) : string :=
  chr 34 +++ String.concat "" (map escape_code_point
                                   (code_points (encode_utf8 s)))
  +++ chr 34.

Definition dumps_float (r : string) : string :=
  if String.eqb r "nan" then "NaN"
  else if String.eqb r "inf" then "Infinity"
  else if String.eqb r "-inf" then "-Infinity"
  else r.

Fixpoint json_dumps (v : json) : string :=
  match v with
  | JNull => "null"
  | JBool true => "true"
  | JBool false => "false"
  | JInt n => decimal n
  | JFloat r => dumps_float r
  | JStr s => dumps_str s
  | JArr l =>
      "[" +++ (fix items (l : list json) : string :=
                 match l with
                 | [] => ""
                 | x :: r =>
                     match r with
                     | [] => json_dumps x
                     | _ => json_dumps x +++ ", " +++ items r
                     end
                 end) l +++ "]"
  | JObj d =>
      "{" +++ (fix items (l : list (string * json)) : string :=
                 match l with
                 | [] => ""
                 | (k, x) :: r =>
                     match r with
                     | [] => dumps_str k +++ ": " +++ json_dumps x
                     | _ => dumps_str k +++ ": " +++ json_dumps x +++ ", "
                            +++ items r
                     end
                 end) d +++ "}"
  end.

(** ** Exceptions and the error monad *)

Inductive exn : Type :=
| AttributeError (v : json) (attr : string)
| TypeError (op : string) (v : json)
| ValueError (op : string) (v : json)
| OverflowError (op : string) (v : json)
| DatabaseError (msg : string).

Inductive res (A : Type) : Type :=
| Ok (a : A)
| Raise (e : exn).
Arguments Ok {A} a.
Arguments Raise {A} e.

Definition bind {A B : Type} (m : res A) (k : A -> res B) : res B :=
  match m with Ok a => k a | Raise e => Raise e end.

Notation "x <- m ;; k" := (bind m (fun x => k))
  (at level 100, m at next level, right associativity).

(** What the interpreter decides: how a value that is not a [str]
    prints in an f-string, which literals [float] and [int] accept, and
    the text of [str(e)] for its own exceptions. *)
Record runtime := mkRuntime {
  rt_str : json -> string;
  rt_float_of_str : string -> option string;
  rt_float_of_int : Z -> option string;
  rt_int_of_str : string -> option Z;
  rt_int_of_float : string -> res Z;
  rt_exn_str : exn -> string
}.

(** [v.get(k, default)]: only a dict has the method. *)
Definition py_get (v : json) (k : string) (default : json) : res json :=
  match v with
  | JObj d => Ok (dict_get d k default)
  | _ => Raise (AttributeError v "get")
  end.

(** [v.encode('utf-8')] *)
Definition py_encode (v : json) : res bytes :=
  match v with
  | JStr s => Ok (encode_utf8 s)
  | _ => Raise (AttributeError v "encode")
  end.

Definition remove_char (c : ascii) (s : string) : string :=
  string_of_list_ascii
    (filter (fun x => negb (Ascii.eqb x c)) (list_ascii_of_string s)).

(** [v.replace(c, "")] for a one-character [c] *)
Definition py_remove (v : json) (c : ascii) : res json :=
  match v with
  | JStr s => Ok (JStr (remove_char c s))
  | _ => Raise (AttributeError v "replace")
  end.

(** Split UTF-8 text into its characters. *)
Fixpoint chars_of (acc : list ascii) (l : list ascii) : list string :=
  match l with
  | [] => match acc with [] => [] | _ => [string_of_list_ascii (rev acc)] end
  | c :: l' =>
      let n := Z.of_N (N_of_ascii c) in
      if (0x80 <=? n) && (n <? 0xC0) then chars_of (c :: acc) l'
      else match acc with
           | [] => chars_of [c] l'
           | _ => string_of_list_ascii (rev acc) :: chars_of [c] l'
           end
  end.

(** [for item in v] *)
Definition py_iter (v : json) : res (list json) :=
  match v with
  | JArr l => Ok l
  | JObj d => Ok (map (fun kv => JStr (fst kv)) d)
  | JStr s => Ok (map JStr (chars_of [] (list_ascii_of_string s)))
  | _ => Raise (TypeError "iter" v)
  end.

Inductive route (A : Type) : Type :=
| Proceed (a : A)
| Respond400 (error : string)
| Abort (e : exn).
Arguments Proceed {A} a.
Arguments Respond400 {A} error.
Arguments Abort {A} e.

Definition bind_route {A B : Type} (m : route A) (k : A -> route B)
  : route B :=
  match m with
  | Proceed a => k a
  | Respond400 msg => Respond400 msg
  | Abort e => Abort e
  end.

Definition lift {A : Type} (m : res A) : route A :=
  match m with Ok a => Proceed a | Raise e => Abort e end.

Notation "x <~ m ;; k" := (bind_route (lift m) (fun x => k))
  (at level 100, m at next level, right associativity).

(** ** Clock *)

Record datetime := mkDatetime {
  year : Z; month : Z; day : Z;
  hour : Z; minute : Z; second : Z; microsecond : Z
}.

Definition zero_pad (width : nat) (n : Z) : string :=
  let s := decimal n in
  string_of_list_ascii (repeat "0"%char (width - String.length s)) +++ s.

Definition get_iso_date (now : datetime) : string :=
  zero_pad 4 (year now) +++ "-" +++ zero_pad 2 (month now) +++ "-"
  +++ zero_pad 2 (day now) +++ "T" +++ zero_pad 2 (hour now) +++ ":"
  +++ zero_pad 2 (minute now) +++ ":" +++ zero_pad 2 (second now) +++ "."
  +++ zero_pad 3 (microsecond now / 1000) +++ "Z".

(** ** Database models *)

Module Verification.
Record t := mk {
  id : Z;
  verification_id : json;
  user_id : json;
  client_type : json;
  first_name : json;
  last_name : json;
  document_number : json;
  external_reference : json;
  status : json;
  environment : json;
  created_at : datetime;
  raw_response : json
}.
Definition set_status (s : json) (v : t) : t :=
  mk (id v) (verification_id v) (user_id v) (client_type v) (first_name v)
     (last_name v) (document_number v) (external_reference v) s
     (environment v) (created_at v) (raw_response v).
Definition set_user_id (u : json) (v : t) : t :=
  mk (id v) (verification_id v) u (client_type v) (first_name v)
     (last_name v) (document_number v) (external_reference v) (status v)
     (environment v) (created_at v) (raw_response v).
Definition set_raw_response (r : json) (v : t) : t :=
  mk (id v) (verification_id v) (user_id v) (client_type v) (first_name v)
     (last_name v) (document_number v) (external_reference v) (status v)
     (environment v) (created_at v) r.
End Verification.

Module Document.
Record t := mk {
  id : Z;
  verification_id : json;
  document_id : json;
  document_type : json;
  status : json;
  created_at : datetime
}.
Definition set_status (s : json) (d : t) : t :=
  mk (id d) (verification_id d) (document_id d) (document_type d) s
     (created_at d).
Definition set_document_type (ty : json) (d : t) : t :=
  mk (id d) (verification_id d) (document_id d) ty (status d)
     (created_at d).
End Document.

Module Payment.
Record t := mk {
  id : Z;
  payment_id : json;
  order_id : json;
  amount : json;
  currency : json;
  country : json;
  payment_method_id : json;
  status : json;
  status_detail : json;
  status_code : json;
  remitter_user_id : json;
  beneficiary_user_id : json;
  environment : json;
  created_at : datetime;
  raw_response : json
}.
(** The four columns an update refreshes. *)
Definition refresh (s sd sc r : json) (p : t) : t :=
  mk (id p) (payment_id p) (order_id p) (amount p) (currency p)
     (country p) (payment_method_id p) s sd sc (remitter_user_id p)
     (beneficiary_user_id p) (environment p) (created_at p) r.
End Payment.

Module Payout.
Record t := mk {
  id : Z;
  external_id : json;
  payout_id : json;
  amount : json;
  currency : json;
  country : json;
  bank_account : json;
  status : json;
  status_detail : json;
  remitter_user_id : json;
  beneficiary_user_id : json;
  purpose : json;
  environment : json;
  created_at : datetime;
  raw_response : json
}.
Definition set_payout_id (x : json) (p : t) : t :=
  mk (id p) (external_id p) x (amount p) (currency p) (country p)
     (bank_account p) (status p) (status_detail p) (remitter_user_id p)
     (beneficiary_user_id p) (purpose p) (environment p) (created_at p)
     (raw_response p).
Definition refresh (s sd r : json) (p : t) : t :=
  mk (id p) (external_id p) (payout_id p) (amount p) (currency p)
     (country p) (bank_account p) s sd (remitter_user_id p)
     (beneficiary_user_id p) (purpose p) (environment p) (created_at p) r.
End Payout.

Record database := mkDatabase {
  verifications : list Verification.t;
  documents : list Document.t;
  payments : list Payment.t;
  payouts : list Payout.t
}.

Definition with_verifications (l : list Verification.t) (db : database) :=
  mkDatabase l (documents db) (payments db) (payouts db).
Definition with_documents (l : list Document.t) (db : database) :=
  mkDatabase (verifications db) l (payments db) (payouts db).
Definition with_payments (l : list Payment.t) (db : database) :=
  mkDatabase (verifications db) (documents db) l (payouts db).
Definition with_payouts (l : list Payout.t) (db : database) :=
  mkDatabase (verifications db) (documents db) (payments db) l.

(** The integer primary key of the next inserted row. *)
Definition next_id (ids : list Z) : Z := 1 + fold_right Z.max 0 ids.

(** The database may fail on a query or on the commit; the text is the
    [str] of the exception it raises. *)
Record db_fault := mkFault {
  at_query : option string;
  at_commit : option string
}.

Definition no_fault : db_fault := mkFault None None.

(** [.first()]: the first matching row and its place in the table. *)
Fixpoint find_row {A : Type} (p : A -> bool) (rows : list A)
  : option (nat * A) :=
  match rows with
  | [] => None
  | r :: rows' =>
      if p r then Some (O, r)
      else match find_row p rows' with
           | Some (i, x) => Some (S i, x)
           | None => None
           end
  end.

Definition first {A : Type} (f : db_fault) (p : A -> bool) (rows : list A)
  : res (option (nat * A)) :=
  match at_query f with
  | Some msg => Raise (DatabaseError msg)
  | None => Ok (find_row p rows)
  end.

Fixpoint set_row {A : Type} (i : nat) (new : A) (rows : list A) : list A :=
  match rows, i with
  | [], _ => []
  | _ :: t, O => new :: t
  | h :: t, S i' => h :: set_row i' new t
  end.

Definition commit (f : db_fault) : res unit :=
  match at_commit f with
  | Some msg => Raise (DatabaseError msg)
  | None => Ok tt
  end.

(** ** The provider's answer *)

Module Response.
Record t := mk {
  status_code : Z;
  text : string;
  json : option json;          (* [None]: [.json()] raises *)
  headers : list (string * string);
  request_headers : list (string * string)
}.
(** [requests]: [ok] is false exactly when [raise_for_status] raises,
    that is for 400 <= status < 600. *)
Definition ok (r : t) : bool :=
  negb ((400 <=? status_code r) && (status_code r <? 600)).
End Response.

Inductive net_result : Type :=
| NetResponse (response : Response.t)
| NetException (message : string).   (* a [RequestException], by its [str] *)

Definition headers_dict (h : list (string * string)) : json :=
  JObj (map (fun kv => (fst kv, JStr (snd kv))) h).

(** [response.json() if response.text else {}], else the raw text *)
Definition parse_body (response : Response.t) : json :=
  if String.eqb (Response.text response) "" then JObj []
  else match Response.json response with
       | Some j => j
       | None => JObj [("raw", JStr (Response.text response))]
       end.

Definition without_authorization (headers_sent : dict) : dict :=
  filter (fun kv => negb (String.eqb (fst kv) "Authorization")) headers_sent.

Definition handle_response (response : Response.t) (headers_sent : dict)
    (signature date_str : string) (body_sent : json) : dict :=
  [ ("success", JBool (Response.ok response));
    ("status_code", JInt (Response.status_code response));
    ("response", parse_body response);
    ("response_headers", headers_dict (Response.headers response));
    ("headers_sent", JObj (without_authorization headers_sent));
    ("signature", JStr signature);
    ("date", JStr date_str);
    ("body_sent", body_sent) ].

Definition handle_error (e : string) (headers_sent : dict)
    (signature date_str : string) (body_sent : json) : dict :=
  [ ("success", JBool false);
    ("error", JStr e);
    ("response_headers", JObj []);
    ("headers_sent", JObj (without_authorization headers_sent));
    ("signature", JStr signature);
    ("date", JStr date_str);
    ("body_sent", body_sent) ].

(** What a route holds when it calls the provider. *)
Record call := mkCall {
  url : string;
  headers : dict;
  signature : string;
  date_str : string;
  body_sent : json
}.

Inductive outcome : Type :=
| Rejected (error : string)                  (* HTTP 400, no call made *)
| Returned (result : dict) (db' : database)  (* jsonify(result) *)
| Raised (e : exn).                          (* uncaught, nothing committed *)

Definition finish (m : res (dict * database)) : outcome :=
  match m with
  | Ok (result, db') => Returned result db'
  | Raise e => Raised e
  end.

Definition DLOCAL_SANDBOX_URL : string := "https://sandbox.dlocal.com".
Definition DLOCAL_PRODUCTION_URL : string := "https://api.dlocal.com".
Definition DLOCAL_PAYOUTS_SANDBOX_URL : string := "https://sandbox.dlocal.com".
Definition DLOCAL_PAYOUTS_PRODUCTION_URL : string := "https://api.dlocal.com".

Definition get_base_url (use_sandbox : json) : string :=
  if truthy use_sandbox then DLOCAL_SANDBOX_URL else DLOCAL_PRODUCTION_URL.

Definition environment_of (use_sandbox : json) : json :=
  JStr (if truthy use_sandbox then "sandbox" else "production").

(** [a or b] *)
Definition py_or (a b : json) : json := if truthy a then a else b.

(** ** Helper functions *)

Section Routes.

Variable rt : runtime.

(** How a value prints inside an f-string. *)
Definition py_str (v : json) : string :=
  match v with JStr s => s | _ => rt_str rt v end.

(** [str(e)] *)
Definition exn_str (e : exn) : string :=
  match e with DatabaseError msg => msg | _ => rt_exn_str rt e end.

(** [float(v)] *)
Definition py_float (v : json) : res json :=
  match v with
  | JStr s => match rt_float_of_str rt s with
              | Some r => Ok (JFloat r)
              | None => Raise (ValueError "float" v)
              end
  | JInt n => match rt_float_of_int rt n with
              | Some r => Ok (JFloat r)
              | None => Raise (OverflowError "float" v)
              end
  | JBool b => Ok (JFloat (if b then "1.0" else "0.0"))
  | JFloat r => Ok (JFloat r)
  | _ => Raise (TypeError "float" v)
  end.

(** [int(v)] *)
Definition py_int (v : json) : res json :=
  match v with
  | JStr s => match rt_int_of_str rt s with
              | Some n => Ok (JInt n)
              | None => Raise (ValueError "int" v)
              end
  | JInt n => Ok (JInt n)
  | JBool b => Ok (JInt (if b then 1 else 0))
  | JFloat r => n <- rt_int_of_float rt r ;; Ok (JInt n)
  | _ => Raise (TypeError "int" v)
  end.

(** The bound method [v.get]. *)
Definition bound_get (v : json) : res (string -> json -> json) :=
  match v with
  | JObj d => Ok (dict_get d)
  | _ => Raise (AttributeError v "get")
  end.

Definition generate_signature (login secret_key : json)
    (date_str body_str : string) : res string :=
  key <- py_encode secret_key ;;
  let message := encode_utf8 (py_str login +++ date_str +++ body_str) in
  Ok (HMAC.hexdigest key message).

Definition make_headers (login transaction_key secret_key : json)
    (date_str body_str : string) : res dict :=
  signature <- generate_signature login secret_key date_str body_str ;;
  Ok [ ("X-Date", JStr date_str);
       ("X-Login", login);
       ("X-Trans-Key", transaction_key);
       ("Authorization", JStr ("V2-HMAC-SHA256, Signature: " +++ signature)) ].

(** ** KYC request body builders *)

Definition create_remitter_body (form_data : json) : res json :=
  get <- bound_get form_data ;;
  Ok (JObj
    [ ("type", JStr "REMITTANCE");
      ("notification_url", get "notification_url" (JStr ""));
      ("attributes", JObj
        [ ("external_reference", get "external_reference" (JStr ""));
          ("client", JObj
            [ ("type", JStr "REMITTER");
              ("first_name", get "first_name" (JStr ""));
              ("last_name", get "last_name" (JStr ""));
              ("document_type", get "document_type" (JStr "TAX_ID"));
              ("document_number", get "document_number" (JStr ""));
              ("document_country", get "document_country" (JStr ""));
              ("date_of_birth", get "date_of_birth" (JStr ""));
              ("place_of_birth", get "place_of_birth" (JStr ""));
              ("gender", get "gender" (JStr "MALE"));
              ("nationality", get "nationality" (JStr ""));
              ("marital_status", get "marital_status" (JStr ""));
              ("phone", get "phone" (JStr ""));
              ("email", get "email" (JStr ""));
              ("is_pep", get "is_pep" (JBool false));
              ("is_so", get "is_so" (JBool false));
              ("profession", get "profession" (JStr ""));
              ("source_of_funds", get "source_of_funds" (JStr ""));
              ("consent", JObj
                [ ("type", JStr "TERMS_AND_CONDITIONS");
                  ("accepted", get "consent_accepted" (JBool true)) ]);
              ("address", JObj
                [ ("country", get "address_country" (JStr ""));
                  ("city", get "address_city" (JStr ""));
                  ("zip_code", get "address_zip_code" (JStr ""));
                  ("state", get "address_state" (JStr ""));
                  ("street_name", get "address_street_name" (JStr ""));
                  ("street_number", get "address_street_number" (JStr ""))
                ]) ]) ]) ]).

(** [if d.get(src): target[key] = d.get(src)] *)
Definition set_if_present (get : string -> json -> json) (src key : string)
    (target : dict) : dict :=
  if truthy (get src JNull) then dict_set key (get src JNull) target
  else target.

Definition beneficiary_bank (get : string -> json -> json) : dict :=
  let bank := [("account_number", get "bank_account_number" (JStr ""))] in
  let bank := set_if_present get "bank_code" "code" bank in
  let bank := set_if_present get "bank_branch" "branch" bank in
  set_if_present get "bank_account_type" "account_type" bank.

Definition create_beneficiary_body (form_data : json) : res json :=
  get <- bound_get form_data ;;
  let bank := beneficiary_bank get in
  Ok (JObj
    [ ("type", JStr "REMITTANCE");
      ("notification_url", get "notification_url" (JStr ""));
      ("attributes", JObj
        [ ("external_reference", get "external_reference" (JStr ""));
          ("client", JObj
            [ ("type", JStr "BENEFICIARY");
              ("first_name", get "first_name" (JStr ""));
              ("last_name", get "last_name" (JStr ""));
              ("nationality", get "nationality" (JStr ""));
              ("document_type", get "document_type" (JStr "TAX_ID"));
              ("document_number", get "document_number" (JStr ""));
              ("document_country", get "document_country" (JStr ""));
              ("date_of_birth", get "date_of_birth" (JStr ""));
              ("place_of_birth", get "place_of_birth" (JStr ""));
              ("phone", get "phone" (JStr ""));
              ("email", get "email" (JStr ""));
              ("bank", JObj bank);
              ("address", JObj
                [ ("country", get "address_country" (JStr ""));
                  ("city", get "address_city" (JStr ""));
                  ("state", get "address_state" (JStr ""));
                  ("zip_code", get "address_zip_code" (JStr ""));
                  ("street_name", get "address_street_name" (JStr ""));
                  ("street_number", get "address_street_number" (JStr ""))
                ]) ]) ]) ]).

(** ** Payment and payout request bodies (built inside the routes) *)

(** [capture_value == "true" or capture_value is True] *)
Definition capture_flag (capture_value : json) : json :=
  JBool (is_str capture_value "true"
         || match capture_value with JBool true => true | _ => false end).

(** [int(x) if x else None] *)
Definition int_or_none (x : json) : res json :=
  if truthy x then py_int x else Ok JNull.

(** The [card] object of a payment body, from [payment_data["card"]]. *)
Definition create_payment_card (card_data : json) : res dict :=
  get <- bound_get card_data ;;
  if truthy (get "token" JNull) then
    let capture_value := get "capture" (JStr "true") in
    Ok [ ("token", get "token" JNull);
         ("capture", capture_flag capture_value) ]
  else
    let capture_value := get "capture" (JStr "true") in
    no_spaces <- py_remove (get "number" (JStr "")) " "%char ;;
    card_number <- py_remove no_spaces "-"%char ;;
    expiration_month <- int_or_none (get "expiration_month" JNull) ;;
    expiration_year <- int_or_none (get "expiration_year" JNull) ;;
    Ok [ ("holder_name", get "holder_name" (JStr ""));
         ("number", card_number);
         ("cvv", get "cvv" (JStr ""));
         ("expiration_month", expiration_month);
         ("expiration_year", expiration_year);
         ("capture", capture_flag capture_value) ].

Definition create_payment_payer (get : string -> json -> json) : dict :=
  let payer := [ ("name", get "payer_name" (JStr ""));
                 ("document", get "payer_document" (JStr "")) ] in
  let payer_email := get "payer_email" (JStr "") in
  if truthy payer_email then dict_set "email" payer_email payer else payer.

Definition create_payment_body (payment_data : json) : res dict :=
  get <- bound_get payment_data ;;
  let payment_method_id := get "payment_method_id" (JStr "IO") in
  let payer := create_payment_payer get in
  let body :=
    [ ("amount", get "amount" JNull);
      ("currency", get "currency" (JStr "ARS"));
      ("country", get "country" (JStr "AR"));
      ("payment_method_id", payment_method_id);
      ("payment_method_flow", JStr "DIRECT");
      ("payer", JObj payer);
      ("order_id", get "external_reference" (JStr ""));
      ("remitter_user_id", get "remitter_user_id" JNull);
      ("beneficiary_user_id", get "beneficiary_user_id" JNull);
      ("subpurpose", get "subpurpose" (JStr "EPREFA"));
      ("source_of_funds", get "source_of_funds" (JStr "SAVINGS")) ] in
  let body := set_if_present get "notification_url" "notification_url" body in
  body <- (if is_str payment_method_id "CARD" && truthy (get "card" JNull)
           then card <- create_payment_card (get "card" JNull) ;;
                Ok (dict_set "card" (JObj card) body)
           else Ok body) ;;
  let body := set_if_present get "description" "description" body in
  Ok (dict_set "signature" (JBool true) body).

(** Raw card data goes to [/secure_payments]. *)
Definition use_secure_endpoint (payment_data : json) : res bool :=
  get <- bound_get payment_data ;;
  if is_str (get "payment_method_id" (JStr "IO")) "CARD"
     && truthy (get "card" JNull)
  then cget <- bound_get (get "card" JNull) ;;
       Ok (truthy (cget "number" JNull) && negb (truthy (cget "token" JNull))
           && negb (truthy (cget "card_id" JNull)))
  else Ok false.

Definition create_payout_body (login transaction_key payout_data : json)
  : res dict :=
  get <- bound_get payout_data ;;
  let body :=
    [ ("login", login);
      ("pass", transaction_key);
      ("external_id", get "external_id" (JStr ""));
      ("country", get "country" (JStr "AR"));
      ("bank_code", get "bank_code" (JStr "0"));
      ("bank_name", get "bank_name" (JStr ""));
      ("bank_province", get "bank_province" (JStr ""));
      ("bank_account", get "bank_account" (JStr ""));
      ("account_type", get "account_type" (JStr "C"));
      ("amount", get "amount" (JStr "0.00"));
      ("currency", get "currency" (JStr "ARS"));
      ("purpose", get "purpose" (JStr "EPREMT"));
      ("remitter_user_id", get "remitter_user_id" (JStr ""));
      ("beneficiary_user_id", get "beneficiary_user_id" (JStr ""));
      ("subpurpose", get "subpurpose" (JStr "EPREFA"));
      ("source_of_funds", get "source_of_funds" (JStr "SAVINGS"));
      ("signature", JBool true) ] in
  let body := set_if_present get "notification_url" "notification_url" body in
  let body := set_if_present get "beneficiary_name" "beneficiary_name" body in
  let body :=
    set_if_present get "beneficiary_document" "beneficiary_document" body in
  Ok (set_if_present get "beneficiary_document_type"
                     "beneficiary_document_type" body).

(** ** Routes, first half: from the request to the outbound call *)

Notation "x <-- m ;; k" := (bind_route m (fun x => k))
  (at level 100, m at next level, right associativity).

Record credentials := mkCredentials {
  login : json;
  transaction_key : json;
  secret_key : json
}.

(** The three [credentials.get] and the [all([...])] check. *)
Definition read_credentials (creds : json) : route credentials :=
  login <~ py_get creds "login" JNull ;;
  transaction_key <~ py_get creds "transaction_key" JNull ;;
  secret_key <~ py_get creds "secret_key" JNull ;;
  if negb (truthy login && truthy transaction_key && truthy secret_key)
  then Respond400 "Missing required credentials"
  else Proceed (mkCredentials login transaction_key secret_key).

(** A route stopped at its call to the provider, with the locals it
    still needs. *)
Inductive pending : Type :=
| PCreateVerification (c : call) (form_data client_type use_sandbox : json)
| PGetVerification (c : call) (verification_id : string)
| PGetDocuments (c : call) (verification_id : string)
| PUploadDocument (c : call) (verification_id document_id : string)
| PUpdateVerificationState (c : call) (verification_id : string)
    (new_status : json)
| PCreatePayment (c : call) (payment_data payment_method_id use_sandbox : json)
    (secure : bool) (body_json message_for_signature : string)
| PGetPayment (c : call) (payment_id : string)
| PCreatePayout (c : call) (payout_data use_sandbox : json).

Definition create_verification_prepare (now : datetime) (data : json)
  : route pending :=
  if negb (truthy data) then Respond400 "No data provided" else
  creds <~ py_get data "credentials" (JObj []) ;;
  form_data <~ py_get data "form_data" (JObj []) ;;
  use_sandbox <~ py_get data "use_sandbox" (JBool true) ;;
  client_type <~ py_get data "client_type" (JStr "REMITTER") ;;
  cr <-- read_credentials creds ;;
  body <~ (if is_str client_type "BENEFICIARY"
           then create_beneficiary_body form_data
           else create_remitter_body form_data) ;;
  let date_str := get_iso_date now in
  let body_json := json_dumps body in
  signature <~ generate_signature (login cr) (secret_key cr) date_str
                                  body_json ;;
  let url := get_base_url use_sandbox +++ "/kyc/verifications" in
  headers <~ make_headers (login cr) (transaction_key cr) (secret_key cr)
                          date_str body_json ;;
  Proceed (PCreateVerification (mkCall url headers signature date_str body)
                               form_data client_type use_sandbox).

(** The bodiless GET routes share their first half up to the URL. *)
Definition prepare_get (now : datetime) (data : json)
    (path : string) (k : call -> pending) : route pending :=
  if negb (truthy data) then Respond400 "No data provided" else
  creds <~ py_get data "credentials" (JObj []) ;;
  use_sandbox <~ py_get data "use_sandbox" (JBool true) ;;
  cr <-- read_credentials creds ;;
  let date_str := get_iso_date now in
  signature <~ generate_signature (login cr) (secret_key cr) date_str "" ;;
  let url := get_base_url use_sandbox +++ path in
  headers <~ make_headers (login cr) (transaction_key cr) (secret_key cr)
                          date_str "" ;;
  Proceed (k (mkCall url headers signature date_str JNull)).

Definition get_verification_prepare (now : datetime) (data : json)
    (verification_id : string) : route pending :=
  prepare_get now data
    ("/kyc/verifications/" +++ verification_id +++ "?include=client_data")
    (fun c => PGetVerification c verification_id).

Definition get_documents_prepare (now : datetime) (data : json)
    (verification_id : string) : route pending :=
  prepare_get now data
    ("/kyc/verifications/" +++ verification_id +++ "/documents")
    (fun c => PGetDocuments c verification_id).

Definition get_payment_prepare (now : datetime) (data : json)
    (payment_id : string) : route pending :=
  prepare_get now data ("/payments/" +++ payment_id +++ "/details")
    (fun c => PGetPayment c payment_id).

(** [request.form.get(k)] *)
Definition form_get (form : list (string * string)) (k : string) : json :=
  match find (fun kv => String.eqb (fst kv) k) form with
  | Some kv => JStr (snd kv)
  | None => JNull
  end.

Definition upload_document_prepare (now : datetime)
    (form : list (string * string)) (file : option string)
    (verification_id document_id : string) : route pending :=
  let login := form_get form "login" in
  let transaction_key := form_get form "transaction_key" in
  let secret_key := form_get form "secret_key" in
  let use_sandbox :=
    JBool (is_str (match form_get form "use_sandbox" with
                   | JNull => JStr "true"
                   | v => v
                   end) "true") in
  if negb (truthy login && truthy transaction_key && truthy secret_key)
  then Respond400 "Missing required credentials" else
  match file with
  | None => Respond400 "No file provided"
  | Some filename =>
      if String.eqb filename "" then Respond400 "No file selected" else
      let date_str := get_iso_date now in
      signature <~ generate_signature login secret_key date_str "" ;;
      let url := get_base_url use_sandbox +++ "/kyc/verifications/"
                 +++ verification_id +++ "/documents/" +++ document_id in
      headers <~ make_headers login transaction_key secret_key date_str "" ;;
      Proceed (PUploadDocument
                 (mkCall url headers signature date_str
                         (JObj [("file", JStr filename)]))
                 verification_id document_id)
  end.

Definition update_verification_state_prepare (now : datetime) (data : json)
    (verification_id : string) : route pending :=
  if negb (truthy data) then Respond400 "No data provided" else
  creds <~ py_get data "credentials" (JObj []) ;;
  use_sandbox <~ py_get data "use_sandbox" (JBool true) ;;
  new_status <~ py_get data "status" JNull ;;
  status_detail <~ py_get data "status_detail" (JStr "") ;;
  cr <-- read_credentials creds ;;
  if negb (truthy new_status) then Respond400 "Status is required" else
  if negb (truthy status_detail) then Respond400 "Status detail is required"
  else
  if negb (truthy use_sandbox)
  then Respond400 "This endpoint only works in sandbox environment" else
  let body := JObj [("status", new_status); ("status_detail", status_detail)]
  in
  let date_str := get_iso_date now in
  let body_json := json_dumps body in
  signature <~ generate_signature (login cr) (secret_key cr) date_str
                                  body_json ;;
  let url := get_base_url use_sandbox +++ "/kyc/sanbox-tools/verifications/"
             +++ verification_id in
  headers <~ make_headers (login cr) (transaction_key cr) (secret_key cr)
                          date_str body_json ;;
  let headers := dict_set "Content-Type" (JStr "application/json") headers in
  Proceed (PUpdateVerificationState
             (mkCall url headers signature date_str body)
             verification_id new_status).

Definition create_payment_prepare (now : datetime) (data : json)
  : route pending :=
  if negb (truthy data) then Respond400 "No data provided" else
  creds <~ py_get data "credentials" (JObj []) ;;
  payment_data <~ py_get data "payment_data" (JObj []) ;;
  use_sandbox <~ py_get data "use_sandbox" (JBool true) ;;
  cr <-- read_credentials creds ;;
  payment_method_id <~ py_get payment_data "payment_method_id" (JStr "IO") ;;
  body <~ create_payment_body payment_data ;;
  let date_str := get_iso_date now in
  let body_json := json_dumps (JObj body) in
  signature <~ generate_signature (login cr) (secret_key cr) date_str
                                  body_json ;;
  let base := if truthy use_sandbox then "https://sandbox.dlocal.com"
              else "https://api.dlocal.com" in
  secure <~ use_secure_endpoint payment_data ;;
  let url := if secure : bool then base +++ "/secure_payments"
             else base +++ "/payments" in
  let headers :=
    [ ("X-Date", JStr date_str);
      ("X-Login", login cr);
      ("X-Trans-Key", transaction_key cr);
      ("Content-Type", JStr "application/json");
      ("Authorization", JStr ("V2-HMAC-SHA256, Signature: " +++ signature)) ]
  in
  let message_for_signature := py_str (login cr) +++ date_str +++ body_json in
  Proceed (PCreatePayment (mkCall url headers signature date_str (JObj body))
                          payment_data payment_method_id use_sandbox secure
                          body_json message_for_signature).

(** [timestamp] is what [formatdate(usegmt=True)] reads off the clock. *)
Definition create_payout_prepare (timestamp : string) (data : json)
  : route pending :=
  if negb (truthy data) then Respond400 "No data provided" else
  creds <~ py_get data "credentials" (JObj []) ;;
  payout_data <~ py_get data "payout_data" (JObj []) ;;
  use_sandbox <~ py_get data "use_sandbox" (JBool true) ;;
  cr <-- read_credentials creds ;;
  body <~ create_payout_body (login cr) (transaction_key cr) payout_data ;;
  let base_url := if truthy use_sandbox then DLOCAL_PAYOUTS_SANDBOX_URL
                  else DLOCAL_PAYOUTS_PRODUCTION_URL in
  let url := base_url +++ "/api_curl/cashout_api/request_cashout" in
  let body_json := json_dumps (JObj body) in
  key <~ py_encode (secret_key cr) ;;
  let payload_signature := HMAC.hexdigest key (encode_utf8 body_json) in
  let headers :=
    [ ("Content-Type", JStr "application/json");
      ("X-Date", JStr timestamp);
      ("X-Login", login cr);
      ("X-Trans-Key", transaction_key cr);
      ("payload-signature", JStr payload_signature) ] in
  Proceed (PCreatePayout
             (mkCall url headers payload_signature timestamp (JObj body))
             payout_data use_sandbox).

(** ** Routes, second half: the answer and the ledger *)

(** [api_response.get("attributes", {}).get("client", {})] *)
Definition client_data_of (api_response : json) : res json :=
  attributes <- py_get api_response "attributes" (JObj []) ;;
  py_get attributes "client" (JObj []).

Definition has_verification_id (key : json) (v : Verification.t) : bool :=
  json_eqb (Verification.verification_id v) key.

(** create_verification, the upsert under [if response.ok and ...]. *)
Definition save_verification (form_data client_type use_sandbox : json)
    (stored_at : datetime) (api_response : json) (result : dict)
    (f : db_fault) (db : database) : res (dict * database) :=
  verification_id <- py_get api_response "id" JNull ;;
  client_data <- client_data_of api_response ;;
  user_id <- py_get client_data "id" JNull ;;
  existing <- first f (has_verification_id verification_id)
                    (verifications db) ;;
  saved <-
    match existing with
    | Some (i, existing) =>
        status <- py_get api_response "status"
                         (Verification.status existing) ;;
        let existing := Verification.set_status status existing in
        let existing := if truthy user_id
                        then Verification.set_user_id user_id existing
                        else existing in
        let existing :=
          Verification.set_raw_response (JStr (json_dumps api_response))
                                        existing in
        Ok (existing, set_row i existing (verifications db))
    | None =>
        first_name <- py_get form_data "first_name" (JStr "") ;;
        last_name <- py_get form_data "last_name" (JStr "") ;;
        document_number <- py_get form_data "document_number" (JStr "") ;;
        external_reference <-
          py_get form_data "external_reference" (JStr "") ;;
        status <- py_get api_response "status" (JStr "CREATED") ;;
        let verification :=
          Verification.mk
            (next_id (map Verification.id (verifications db)))
            verification_id user_id client_type first_name last_name
            document_number external_reference status
            (environment_of use_sandbox) stored_at
            (JStr (json_dumps api_response)) in
        Ok (verification, verifications db ++ [verification])
    end ;;
  _ <- commit f ;;
  let result := dict_set "saved_locally" (JBool true) result in
  let result :=
    dict_set "local_id" (JInt (Verification.id (fst saved))) result in
  Ok (result, with_verifications (snd saved) db).

(** [response.ok and result.get("response", {}).get("id")] *)
Definition ok_with_id (response : Response.t) (result : dict) : res json :=
  if Response.ok response
  then py_get (dict_get result "response" (JObj [])) "id" JNull
  else Ok (JBool false).

Definition create_verification_respond (c : call)
    (form_data client_type use_sandbox : json) (stored_at : datetime)
    (net : net_result) (f : db_fault) (db : database) : outcome :=
  match net with
  | NetException e =>
      Returned (handle_error e (headers c) (signature c) (date_str c)
                             (body_sent c)) db
  | NetResponse response =>
      let result := handle_response response (headers c) (signature c)
                                    (date_str c) (body_sent c) in
      finish (
        saving <- ok_with_id response result ;;
        if truthy saving
        then save_verification form_data client_type use_sandbox stored_at
                               (dict_get result "response" JNull) result f db
        else Ok (result, db))
  end.

Definition get_verification_respond (c : call) (verification_id : string)
    (net : net_result) (f : db_fault) (db : database) : outcome :=
  match net with
  | NetException e =>
      Returned (handle_error e (headers c) (signature c) (date_str c) JNull)
               db
  | NetResponse response =>
      let result := handle_response response (headers c) (signature c)
                                    (date_str c) JNull in
      let result := dict_set "request_url" (JStr (url c)) result in
      finish (
        if Response.ok response then
          let api_response := dict_get result "response" (JObj []) in
          local_verification <-
            first f (has_verification_id (JStr verification_id))
                  (verifications db) ;;
          match local_verification with
          | Some (i, local_verification) =>
              status <- py_get api_response "status"
                               (Verification.status local_verification) ;;
              let local_verification :=
                Verification.set_status status local_verification in
              client_data <- client_data_of api_response ;;
              let result := dict_set "client_data_found" client_data result in
              client_id <- py_get client_data "id" JNull ;;
              let local_verification :=
                if truthy client_id
                then Verification.set_user_id client_id local_verification
                else local_verification in
              let result :=
                if truthy client_id
                then dict_set "user_id_saved" client_id result
                else result in
              let local_verification :=
                Verification.set_raw_response
                  (JStr (json_dumps api_response)) local_verification in
              _ <- commit f ;;
              Ok (result,
                  with_verifications
                    (set_row i local_verification (verifications db)) db)
          | None => Ok (result, db)
          end
        else Ok (result, db))
  end.

Definition is_document (verification_id doc_id : json) (d : Document.t)
  : bool :=
  json_eqb (Document.verification_id d) verification_id
  && json_eqb (Document.document_id d) doc_id.

(** get_documents, the loop over [items]. *)
Fixpoint save_documents (verification_id : string) (stored_at : datetime)
    (items : list json) (f : db_fault) (docs : list Document.t)
  : res (list Document.t) :=
  match items with
  | [] => Ok docs
  | item :: items' =>
      doc_id <- py_get item "id" JNull ;;
      docs' <-
        (if truthy doc_id then
           existing <- first f (is_document (JStr verification_id) doc_id)
                             docs ;;
           match existing with
           | None =>
               document_type <- py_get item "type" (JStr "Unknown") ;;
               status <- py_get item "status" (JStr "PENDING") ;;
               Ok (docs ++ [Document.mk (next_id (map Document.id docs))
                                        (JStr verification_id) doc_id
                                        document_type status stored_at])
           | Some (i, existing) =>
               status <- py_get item "status" (Document.status existing) ;;
               let existing := Document.set_status status existing in
               document_type <-
                 py_get item "type" (Document.document_type existing) ;;
               Ok (set_row i (Document.set_document_type document_type
                                                         existing) docs)
           end
         else Ok docs) ;;
      save_documents verification_id stored_at items' f docs'
  end.

Definition get_documents_respond (c : call) (verification_id : string)
    (stored_at : datetime) (net : net_result) (f : db_fault) (db : database)
  : outcome :=
  match net with
  | NetException e =>
      Returned (handle_error e (headers c) (signature c) (date_str c) JNull)
               db
  | NetResponse response =>
      let result := handle_response response (headers c) (signature c)
                                    (date_str c) JNull in
      finish (
        if Response.ok response then
          let api_response := dict_get result "response" (JObj []) in
          items <- py_get api_response "items" (JArr []) ;;
          items <- py_iter items ;;
          docs <- save_documents verification_id stored_at items f
                                 (documents db) ;;
          _ <- commit f ;;
          Ok (result, with_documents docs db)
        else Ok (result, db))
  end.

Definition upload_document_respond (c : call)
    (verification_id document_id : string)
    (net : net_result) (f : db_fault) (db : database) : outcome :=
  match net with
  | NetException e =>
      Returned (handle_error e (headers c) (signature c) (date_str c)
                             (body_sent c)) db
  | NetResponse response =>
      let result := handle_response response (headers c) (signature c)
                                    (date_str c) (body_sent c) in
      finish (
        if Response.ok response then
          doc <- first f (is_document (JStr verification_id)
                                      (JStr document_id)) (documents db) ;;
          match doc with
          | Some (i, doc) =>
              let api_response := dict_get result "response" (JObj []) in
              status <- py_get api_response "status" (JStr "UPLOADED") ;;
              _ <- commit f ;;
              Ok (result,
                  with_documents
                    (set_row i (Document.set_status status doc)
                             (documents db)) db)
          | None => Ok (result, db)
          end
        else Ok (result, db))
  end.

Definition update_verification_state_respond (c : call)
    (verification_id : string) (new_status : json)
    (net : net_result) (f : db_fault) (db : database) : outcome :=
  match net with
  | NetException e =>
      Returned (handle_error e (headers c) (signature c) (date_str c)
                             (body_sent c)) db
  | NetResponse response =>
      let result := handle_response response (headers c) (signature c)
                                    (date_str c) (body_sent c) in
      finish (
        if Response.ok response then
          let api_response := dict_get result "response" (JObj []) in
          local_verification <-
            first f (has_verification_id (JStr verification_id))
                  (verifications db) ;;
          match local_verification with
          | Some (i, local_verification) =>
              status <- py_get api_response "status" new_status ;;
              let local_verification :=
                Verification.set_raw_response
                  (JStr (json_dumps api_response))
                  (Verification.set_status status local_verification) in
              _ <- commit f ;;
              Ok (dict_set "local_status_updated" (JBool true) result,
                  with_verifications
                    (set_row i local_verification (verifications db)) db)
          | None => Ok (result, db)
          end
        else Ok (result, db))
  end.

Definition has_payment_id (key : json) (p : Payment.t) : bool :=
  json_eqb (Payment.payment_id p) key.

(** create_payment, the upsert under [if response.ok and ...]. *)
Definition save_payment (payment_data payment_method_id use_sandbox : json)
    (stored_at : datetime) (api_response : json) (result : dict)
    (f : db_fault) (db : database) : res (dict * database) :=
  payment_id <- py_get api_response "id" JNull ;;
  existing <- first f (has_payment_id payment_id) (payments db) ;;
  saved <-
    match existing with
    | Some (i, existing) =>
        status <- py_get api_response "status" (Payment.status existing) ;;
        status_detail <- py_get api_response "status_detail"
                                (Payment.status_detail existing) ;;
        status_code <- py_get api_response "status_code"
                              (Payment.status_code existing) ;;
        let existing :=
          Payment.refresh status status_detail status_code
                          (JStr (json_dumps api_response)) existing in
        Ok (existing, set_row i existing (payments db))
    | None =>
        get <- bound_get api_response ;;
        pget <- bound_get payment_data ;;
        let payment :=
          Payment.mk
            (next_id (map Payment.id (payments db)))
            payment_id
            (get "order_id" (pget "external_reference" JNull))
            (get "amount" (pget "amount" JNull))
            (get "currency" (pget "currency" JNull))
            (get "country" (pget "country" JNull))
            (get "payment_method_id" payment_method_id)
            (get "status" (JStr "CREATED"))
            (get "status_detail" (JStr ""))
            (get "status_code" (JStr ""))
            (pget "remitter_user_id" JNull)
            (pget "beneficiary_user_id" JNull)
            (environment_of use_sandbox) stored_at
            (JStr (json_dumps api_response)) in
        Ok (payment, payments db ++ [payment])
    end ;;
  _ <- commit f ;;
  let result := dict_set "saved_locally" (JBool true) result in
  let result := dict_set "local_id" (JInt (Payment.id (fst saved))) result in
  Ok (result, with_payments (snd saved) db).

(** [prepared.body[:500] if prepared.body else None] *)
Definition prepared_body (body_json : string) : json :=
  if String.eqb body_json "" then JNull
  else JStr (substring 0 500 body_json).

Definition payment_debug (c : call) (secure : bool)
    (body_json message_for_signature : string) (response : Response.t)
  : json :=
  JObj
    [ ("endpoint_type",
       JStr (if secure then "secure_payments (direct card)"
             else "payments (token/card_id)"));
      ("url", JStr (url c));
      ("message_for_signature", JStr message_for_signature);
      ("body_json", JStr body_json);
      ("headers_sent", JObj (headers c));
      ("prepared_headers", headers_dict (Response.request_headers response));
      ("prepared_body", prepared_body body_json);
      ("sent_as", JStr "json") ].

Definition create_payment_respond (c : call)
    (payment_data payment_method_id use_sandbox : json) (secure : bool)
    (body_json message_for_signature : string) (stored_at : datetime)
    (net : net_result) (f : db_fault) (db : database) : outcome :=
  match net with
  | NetException e =>
      Returned (handle_error e (headers c) (signature c) (date_str c)
                             (body_sent c)) db
  | NetResponse response =>
      let result := handle_response response (headers c) (signature c)
                                    (date_str c) (body_sent c) in
      finish (
        saving <- ok_with_id response result ;;
        saved <-
          (if truthy saving
           then save_payment payment_data payment_method_id use_sandbox
                             stored_at (dict_get result "response" JNull)
                             result f db
           else Ok (result, db)) ;;
        Ok (dict_set "debug"
                     (payment_debug c secure body_json message_for_signature
                                    response) (fst saved),
            snd saved))
  end.

Definition get_payment_respond (c : call) (payment_id : string)
    (net : net_result) (f : db_fault) (db : database) : outcome :=
  match net with
  | NetException e =>
      Returned (handle_error e (headers c) (signature c) (date_str c) JNull)
               db
  | NetResponse response =>
      let result := handle_response response (headers c) (signature c)
                                    (date_str c) JNull in
      finish (
        if Response.ok response then
          let api_response := dict_get result "response" (JObj []) in
          local_payment <- first f (has_payment_id (JStr payment_id))
                                 (payments db) ;;
          match local_payment with
          | Some (i, local_payment) =>
              status <- py_get api_response "status"
                               (Payment.status local_payment) ;;
              status_detail <- py_get api_response "status_detail"
                                 (Payment.status_detail local_payment) ;;
              status_code <- py_get api_response "status_code"
                               (Payment.status_code local_payment) ;;
              _ <- commit f ;;
              Ok (result,
                  with_payments
                    (set_row i (Payment.refresh status status_detail
                                  status_code
                                  (JStr (json_dumps api_response))
                                  local_payment) (payments db)) db)
          | None => Ok (result, db)
          end
        else Ok (result, db))
  end.

(** [response_json and isinstance(response_json, dict)] *)
Definition nonempty_dict (v : json) : option dict :=
  match v with
  | JObj [] => None
  | JObj d => Some d
  | _ => None
  end.

(** The provider's id for a payout, under the first of five names that
    holds a true value. *)
Definition api_payout_id_of (response_json : json) : json :=
  match nonempty_dict response_json with
  | Some d =>
      py_or (dict_get d "id" JNull)
        (py_or (dict_get d "payout_id" JNull)
           (py_or (dict_get d "payment_id" JNull)
              (py_or (dict_get d "cashout_id" JNull)
                 (dict_get d "transaction_id" JNull))))
  | None => JNull
  end.

Definition has_external_id (key : json) (p : Payout.t) : bool :=
  json_eqb (Payout.external_id p) key.

(** create_payout, the body of the inner [try]. *)
Definition save_payout (payout_data use_sandbox external_id : json)
    (stored_at : datetime) (response_json : json) (result : dict)
    (f : db_fault) (db : database) : res (dict * database) :=
  let api_payout_id := api_payout_id_of response_json in
  existing <- first f (has_external_id external_id) (payouts db) ;;
  saved <-
    match existing with
    | Some (i, existing) =>
        let existing := if truthy api_payout_id
                        then Payout.set_payout_id api_payout_id existing
                        else existing in
        let existing :=
          match nonempty_dict response_json with
          | Some d =>
              Payout.refresh
                (dict_get d "status" (Payout.status existing))
                (dict_get d "status_detail" (Payout.status_detail existing))
                (JStr (json_dumps response_json)) existing
          | None => existing
          end in
        Ok (existing, set_row i existing (payouts db))
    | None =>
        pget <- bound_get payout_data ;;
        amount <- py_float (pget "amount" (JStr "0.00")) ;;
        let payout :=
          Payout.mk
            (next_id (map Payout.id (payouts db)))
            external_id api_payout_id amount
            (pget "currency" JNull) (pget "country" JNull)
            (pget "bank_account" JNull)
            (match nonempty_dict response_json with
             | Some d => dict_get d "status" (JStr "PENDING")
             | None => JStr "PENDING"
             end)
            (match nonempty_dict response_json with
             | Some d => dict_get d "status_detail" (JStr "")
             | None => JStr ""
             end)
            (pget "remitter_user_id" JNull)
            (pget "beneficiary_user_id" JNull)
            (pget "purpose" JNull)
            (environment_of use_sandbox) stored_at
            (JStr (if truthy response_json then json_dumps response_json
                   else "{}")) in
        Ok (payout, payouts db ++ [payout])
    end ;;
  _ <- commit f ;;
  let result := dict_set "saved_locally" (JBool true) result in
  let result := dict_set "local_id" (JInt (Payout.id (fst saved))) result in
  Ok (result, with_payouts (snd saved) db).

(** create_payout builds its envelope itself. *)
Definition create_payout_result (c : call) (response : Response.t) : dict :=
  [ ("success", JBool (Response.ok response));
    ("status_code", JInt (Response.status_code response));
    ("response", parse_body response);
    ("response_headers", headers_dict (Response.headers response));
    ("body_sent", body_sent c);
    ("url", JStr (url c)) ].

Definition create_payout_respond (c : call) (payout_data use_sandbox : json)
    (stored_at : datetime) (net : net_result) (f : db_fault) (db : database)
  : outcome :=
  match net with
  | NetException e =>
      Returned [ ("success", JBool false);
                 ("error", JStr e);
                 ("body_sent", body_sent c);
                 ("url", JStr (url c)) ] db
  | NetResponse response =>
      let response_json := parse_body response in
      let result := create_payout_result c response in
      finish (
        if Response.ok response then
          external_id <- py_get payout_data "external_id" JNull ;;
          if truthy external_id then
            match save_payout payout_data use_sandbox external_id stored_at
                              response_json result f db with
            | Ok saved => Ok saved
            | Raise e =>
                (* rollback: nothing of this request reaches the ledger *)
                Ok (dict_set "save_error" (JStr (exn_str e)) result, db)
            end
          else Ok (result, db)
        else Ok (result, db))
  end.

(** The second half of any route. *)
Definition respond (p : pending) (stored_at : datetime) (net : net_result)
    (f : db_fault) (db : database) : outcome :=
  match p with
  | PCreateVerification c form_data client_type use_sandbox =>
      create_verification_respond c form_data client_type use_sandbox
                                  stored_at net f db
  | PGetVerification c verification_id =>
      get_verification_respond c verification_id net f db
  | PGetDocuments c verification_id =>
      get_documents_respond c verification_id stored_at net f db
  | PUploadDocument c verification_id document_id =>
      upload_document_respond c verification_id document_id net f db
  | PUpdateVerificationState c verification_id new_status =>
      update_verification_state_respond c verification_id new_status net f db
  | PCreatePayment c payment_data payment_method_id use_sandbox secure
                   body_json message_for_signature =>
      create_payment_respond c payment_data payment_method_id use_sandbox
                             secure body_json message_for_signature
                             stored_at net f db
  | PGetPayment c payment_id => get_payment_respond c payment_id net f db
  | PCreatePayout c payout_data use_sandbox =>
      create_payout_respond c payout_data use_sandbox stored_at net f db
  end.

(** A whole route: validate and compose, call the provider, reconcile. *)
Definition run (first_half : route pending) (stored_at : datetime)
    (net : net_result) (f : db_fault) (db : database) : outcome :=
  match first_half with
  | Proceed p => respond p stored_at net f db
  | Respond400 error => Rejected error
  | Abort e => Raised e
  end.

Definition create_verification (now stored_at : datetime) (data : json) :=
  run (create_verification_prepare now data) stored_at.
Definition get_verification (now stored_at : datetime) (data : json)
    (verification_id : string) :=
  run (get_verification_prepare now data verification_id) stored_at.
Definition get_documents (now stored_at : datetime) (data : json)
    (verification_id : string) :=
  run (get_documents_prepare now data verification_id) stored_at.
Definition upload_document (now stored_at : datetime)
    (form : list (string * string)) (file : option string)
    (verification_id document_id : string) :=
  run (upload_document_prepare now form file verification_id document_id)
      stored_at.
Definition update_verification_state (now stored_at : datetime) (data : json)
    (verification_id : string) :=
  run (update_verification_state_prepare now data verification_id) stored_at.
Definition get_payment (now stored_at : datetime) (data : json)
    (payment_id : string) :=
  run (get_payment_prepare now data payment_id) stored_at.
Definition create_payout (timestamp : string) (stored_at : datetime)
    (data : json) :=
  run (create_payout_prepare timestamp data) stored_at.

End Routes.

(** ** A runtime to run the model on examples

    It agrees with CPython on scalars and on plain decimal literals such
    as [12] or [100.50]; other literals are refused. *)

Definition is_digit (c : ascii) : bool :=
  let n := N_of_ascii c in ((48 <=? n) && (n <=? 57))%N.

Definition digits_value (l : list ascii) : option Z :=
  match l with
  | [] => None
  | _ =>
      if forallb is_digit l
      then Some (fold_left (fun acc c => 10 * acc + (Z.of_N (N_of_ascii c) - 48))
                           l 0)
      else None
  end.

Definition split_sign (l : list ascii) : bool * list ascii :=
  match l with
  | c :: l' => if Ascii.eqb c "-"%char then (true, l') else (false, l)
  | [] => (false, l)
  end.

Definition plain_int (s : string) : option Z :=
  let (neg, l) := split_sign (list_ascii_of_string s) in
  match digits_value l with
  | Some n => Some (if neg then - n else n)
  | None => None
  end.

Fixpoint split_dot (l : list ascii) : list ascii * option (list ascii) :=
  match l with
  | [] => ([], None)
  | c :: l' =>
      if Ascii.eqb c "."%char then ([], Some l')
      else let (a, b) := split_dot l' in (c :: a, b)
  end.

Definition strip_zeros (l : list ascii) : list ascii :=
  (fix go (l : list ascii) : list ascii :=
     match l with
     | c :: l' => if Ascii.eqb c "0"%char then go l' else l
     | [] => []
     end) l.

(** [repr(float(s))] for [digits.digits] *)
Definition plain_float (s : string) : option string :=
  let (neg, l) := split_sign (list_ascii_of_string s) in
  let (whole, frac) := split_dot l in
  let frac := match frac with Some x => x | None => ["0"%char] end in
  match digits_value whole, digits_value frac with
  | Some n, Some _ =>
      let frac' := rev (strip_zeros (rev frac)) in
      Some ((if neg then "-" else "") +++ decimal n +++ "."
            +++ string_of_list_ascii
                  (match frac' with [] => ["0"%char] | _ => frac' end))
  | _, _ => None
  end.

Definition plain_int_of_float (r : string) : res Z :=
  let (neg, l) := split_sign (list_ascii_of_string r) in
  match digits_value (fst (split_dot l)) with
  | Some n => Ok (if neg then - n else n)
  | None => Raise (ValueError "int" (JFloat r))
  end.

Definition plain_str (v : json) : string :=
  match v with
  | JNull => "None"
  | JBool true => "True"
  | JBool false => "False"
  | JFloat r => r
  | JStr s => s
  | _ => json_dumps v
  end.

Definition plain_exn_str (e : exn) : string :=
  match e with
  | AttributeError _ attr => "object has no attribute '" +++ attr +++ "'"
  | TypeError op _ => op +++ "() argument has the wrong type"
  | ValueError op _ => "invalid literal for " +++ op +++ "()"
  | OverflowError op _ => "value too large for " +++ op +++ "()"
  | DatabaseError msg => msg
  end.

Definition plain_runtime : runtime :=
  mkRuntime plain_str plain_float (fun n => Some (decimal n +++ ".0"))
            plain_int plain_int_of_float plain_exn_str.


From Stdlib Require Import Permutation Sorted.

(** ** Routes on the local ledger *)

(** [datetime.isoformat()] *)
Definition isoformat (t : datetime) : string :=
  zero_pad 4 (year t) +++ "-" +++ zero_pad 2 (month t) +++ "-"
  +++ zero_pad 2 (day t) +++ "T" +++ zero_pad 2 (hour t) +++ ":"
  +++ zero_pad 2 (minute t) +++ ":" +++ zero_pad 2 (second t)
  +++ (if microsecond t =? 0 then ""
       else "." +++ zero_pad 6 (microsecond t)).

(** Order of two moments, field by field. *)
Fixpoint lex_leb (a b : list Z) : bool :=
  match a, b with
  | x :: a', y :: b' => (x <? y) || ((x =? y) && lex_leb a' b')
  | _, _ => true
  end.

Definition datetime_fields (t : datetime) : list Z :=
  [year t; month t; day t; hour t; minute t; second t; microsecond t].

Definition datetime_leb (a b : datetime) : bool :=
  lex_leb (datetime_fields a) (datetime_fields b).

(** [order_by(created_at.desc())]; rows of the same moment keep the
    order of the table. *)
Fixpoint insert_desc {A : Type} (created_at : A -> datetime) (x : A)
    (sorted : list A) : list A :=
  match sorted with
  | [] => [x]
  | y :: sorted' =>
      if datetime_leb (created_at x) (created_at y)
      then y :: insert_desc created_at x sorted'
      else x :: sorted
  end.

Definition newest_first {A : Type} (created_at : A -> datetime)
    (rows : list A) : list A :=
  fold_left (fun acc r => insert_desc created_at r acc) rows [].

Fixpoint remove_row {A : Type} (i : nat) (rows : list A) : list A :=
  match rows, i with
  | [], _ => []
  | _ :: t, O => t
  | h :: t, S i' => h :: remove_row i' t
  end.

Inductive local_outcome : Type :=
| LocalJson (body : json) (db' : database)   (* jsonify(...), 200 *)
| LocalNotFound                              (* 404 *)
| LocalRaised (e : exn).

Definition local_finish (m : res (option (json * database)))
  : local_outcome :=
  match m with
  | Ok (Some (body, db')) => LocalJson body db'
  | Ok None => LocalNotFound
  | Raise e => LocalRaised e
  end.

Definition has_verification (key : json) (d : Document.t) : bool :=
  json_eqb (Document.verification_id d) key.

Definition deleted (message : string) : json :=
  JObj [("success", JBool true); ("message", JStr message)].


Definition delete_verification (verification_id : string) (f : db_fault)
    (db : database) : local_outcome :=
  local_finish (
    verification <- first f (has_verification_id (JStr verification_id))
                          (verifications db) ;;
    match verification with
    | None => Ok None
    | Some (i, verification) =>
        let docs :=
          filter (fun d => negb (has_verification (JStr verification_id) d))
                 (documents db) in
        _ <- commit f ;;
        Ok (Some (deleted "Verification deleted",
                  with_documents docs
                    (with_verifications (remove_row i (verifications db))
                                        db)))
    end).



(** [.all()] *)
Definition all_rows {A : Type} (f : db_fault) (rows : list A)
  : res (list A) :=
  match at_query f with
  | Some msg => Raise (DatabaseError msg)
  | None => Ok rows
  end.

Section LocalRoutes.

Variable rt : runtime.

Definition verification_to_dict (v : Verification.t) : dict :=
  [ ("id", JInt (Verification.id v));
    ("verification_id", Verification.verification_id v);
    ("user_id", Verification.user_id v);
    ("client_type", Verification.client_type v);
    ("first_name", Verification.first_name v);
    ("last_name", Verification.last_name v);
    ("document_number", Verification.document_number v);
    ("external_reference", Verification.external_reference v);
    ("status", Verification.status v);
    ("environment", Verification.environment v);
    ("created_at", JStr (isoformat (Verification.created_at v)));
    ("display_name",
     JStr (py_str rt (Verification.first_name v) +++ " "
           +++ py_str rt (Verification.last_name v) +++ " - "
           +++ py_str rt (py_or (Verification.status v) (JStr "N/A")))) ].

Definition payment_to_dict (p : Payment.t) : dict :=
  [ ("id", JInt (Payment.id p));
    ("payment_id", Payment.payment_id p);
    ("order_id", Payment.order_id p);
    ("amount", Payment.amount p);
    ("currency", Payment.currency p);
    ("country", Payment.country p);
    ("payment_method_id", Payment.payment_method_id p);
    ("status", Payment.status p);
    ("status_detail", Payment.status_detail p);
    ("status_code", Payment.status_code p);
    ("remitter_user_id", Payment.remitter_user_id p);
    ("beneficiary_user_id", Payment.beneficiary_user_id p);
    ("environment", Payment.environment p);
    ("created_at", JStr (isoformat (Payment.created_at p)));
    ("display_name",
     JStr (py_str rt (Payment.payment_id p) +++ " - "
           +++ py_str rt (py_or (Payment.status p) (JStr "N/A")) +++ " - "
           +++ py_str rt (Payment.currency p) +++ " "
           +++ py_str rt (Payment.amount p))) ].

Definition payout_to_dict (p : Payout.t) : dict :=
  [ ("id", JInt (Payout.id p));
    ("external_id", Payout.external_id p);
    ("payout_id", Payout.payout_id p);
    ("amount", Payout.amount p);
    ("currency", Payout.currency p);
    ("country", Payout.country p);
    ("bank_account", Payout.bank_account p);
    ("status", Payout.status p);
    ("status_detail", Payout.status_detail p);
    ("remitter_user_id", Payout.remitter_user_id p);
    ("beneficiary_user_id", Payout.beneficiary_user_id p);
    ("purpose", Payout.purpose p);
    ("environment", Payout.environment p);
    ("created_at", JStr (isoformat (Payout.created_at p)));
    ("display_name",
     JStr (py_str rt (Payout.external_id p) +++ " - "
           +++ py_str rt (py_or (Payout.status p) (JStr "N/A")) +++ " - "
           +++ py_str rt (Payout.currency p) +++ " "
           +++ py_str rt (Payout.amount p))) ].

Definition list_verifications (f : db_fault) (db : database)
  : local_outcome :=
  local_finish (
    rows <- all_rows f (newest_first Verification.created_at
                                     (verifications db)) ;;
    Ok (Some (JArr (map (fun v => JObj (verification_to_dict v)) rows), db))).

Definition list_payments (f : db_fault) (db : database) : local_outcome :=
  local_finish (
    rows <- all_rows f (newest_first Payment.created_at (payments db)) ;;
    Ok (Some (JArr (map (fun p => JObj (payment_to_dict p)) rows), db))).

Definition list_payouts (f : db_fault) (db : database) : local_outcome :=
  local_finish (
    rows <- all_rows f (newest_first Payout.created_at (payouts db)) ;;
    Ok (Some (JArr (map (fun p => JObj (payout_to_dict p)) rows), db))).

(** [status == "APPROVED"] and [user_id IS NOT NULL], and the client
    type when the query string names one. *)
Definition is_approved_with_user (client_type : option string)
    (v : Verification.t) : bool :=
  is_str (Verification.status v) "APPROVED"
  && match Verification.user_id v with JNull => false | _ => true end
  && match client_type with
     | Some ct => if String.eqb ct "" then true
                  else is_str (Verification.client_type v) ct
     | None => true
     end.

Definition get_approved_verifications (client_type : option string)
    (f : db_fault) (db : database) : local_outcome :=
  local_finish (
    rows <- all_rows f
              (newest_first Verification.created_at
                 (filter (is_approved_with_user client_type)
                         (verifications db))) ;;
    Ok (Some (JArr (map (fun v => JObj (verification_to_dict v)) rows), db))).

Definition is_approved (client_type : string) (v : Verification.t) : bool :=
  is_str (Verification.client_type v) client_type
  && is_str (Verification.status v) "APPROVED".

(** [data = r.to_dict()] with [payment_user_id] added. *)
Definition with_payment_user_id (v : Verification.t) : json :=
  JObj (dict_set "payment_user_id"
                 (py_or (Verification.user_id v)
                        (Verification.verification_id v))
                 (verification_to_dict v)).

Definition get_approved (client_type : string) (f : db_fault)
    (db : database) : local_outcome :=
  local_finish (
    rows <- all_rows f
              (newest_first Verification.created_at
                 (filter (is_approved client_type) (verifications db))) ;;
    Ok (Some (JArr (map with_payment_user_id rows), db))).

Definition get_approved_remitters := get_approved "REMITTER".
Definition get_approved_beneficiaries := get_approved "BENEFICIARY".

End LocalRoutes.

(** ** Sample requests and answers *)

Module Sample.

Definition now : datetime := mkDatetime 2024 3 5 7 8 9 12345.
Definition timestamp : string := "Tue, 05 Mar 2024 07:08:09 GMT".

Definition creds : json :=
  JObj [ ("login", JStr "merchant"); ("transaction_key", JStr "tk-1");
         ("secret_key", JStr "s3cret") ].

Definition empty_db : database := mkDatabase [] [] [] [].

(** A JSON answer with the given status. *)
Definition answer (status : Z) (body : json) : Response.t :=
  Response.mk status (json_dumps body) (Some body)
              [("Content-Type", "application/json")] [].

(** An answer without a body. *)
Definition bare_answer (status : Z) : Response.t :=
  Response.mk status "" None [] [].

Definition verification_request : json :=
  JObj [ ("credentials", creds);
         ("form_data", JObj [ ("first_name", JStr "Ann");
                              ("last_name", JStr "Lee") ]) ].

Definition get_request : json := JObj [("credentials", creds)].


Definition card_payment_request : json :=
  JObj [ ("credentials", creds);
         ("payment_data",
          JObj [ ("amount", JInt 10);
                 ("payment_method_id", JStr "CARD");
                 ("card", JObj [("number", JStr "4111 1111-1111 1111")]) ])
       ].

Definition payout_request : json :=
  JObj [ ("credentials", creds);
         ("payout_data", JObj [ ("external_id", JStr "EXT-1");
                                ("amount", JStr "100.00") ]) ].

Definition payout_request_without_external_id : json :=
  JObj [ ("credentials", creds);
         ("payout_data", JObj [ ("amount", JStr "100.00") ]) ].


(** An outbound call as the signed GET routes compose it. *)
Definition signed_call : call :=
  mkCall "https://sandbox.dlocal.com/payments/P1/details"
         [ ("X-Date", JStr "2024-03-05T07:08:09.012Z");
           ("X-Login", JStr "merchant");
           ("X-Trans-Key", JStr "tk-1");
           ("Authorization", JStr "V2-HMAC-SHA256, Signature: 00ff") ]
         "00ff" "2024-03-05T07:08:09.012Z" JNull.

(** A verification already in the ledger. *)
Definition stored_verification : Verification.t :=
  Verification.mk 1 (JStr "V1") (JStr "U1") (JStr "REMITTER") (JStr "Ann")
                  (JStr "Lee") (JStr "") (JStr "") (JStr "APPROVED")
                  (JStr "sandbox") now
                  (JStr (json_dumps (JObj [ ("id", JStr "V1");
                                            ("status", JStr "APPROVED") ]))).

Definition db_with_verification : database :=
  mkDatabase [stored_verification] [] [] [].

End Sample.

(** ** Sample ledgers *)

Module Stock.

Definition later : datetime := mkDatetime 2024 3 6 10 0 0 0.

(** A payment already in the ledger. *)
Definition stored_payment : Payment.t :=
  Payment.mk 1 (JStr "P1") (JStr "order-1") (JFloat "10.0") (JStr "USD")
             (JStr "BR") (JStr "CARD") (JStr "PENDING") (JStr "waiting")
             (JStr "100") (JStr "U1") (JStr "U2") (JStr "sandbox")
             Sample.now (JStr "{}").



(** Two verifications, each with a document. *)
Definition other_verification : Verification.t :=
  Verification.mk 2 (JStr "V2") JNull (JStr "BENEFICIARY") (JStr "Bo")
                  (JStr "Ng") (JStr "") (JStr "") (JStr "APPROVED")
                  (JStr "sandbox") later (JStr "{}").

Definition first_document : Document.t :=
  Document.mk 1 (JStr "V1") (JStr "D1") (JStr "PASSPORT") (JStr "PENDING")
              Sample.now.

Definition other_document : Document.t :=
  Document.mk 2 (JStr "V2") (JStr "D2") (JStr "PASSPORT") (JStr "PENDING")
              later.

Definition db_with_documents : database :=
  mkDatabase [Sample.stored_verification; other_verification]
             [first_document; other_document] [stored_payment] [].

End Stock.

(** ** Vocabulary of the statements *)

Definition is_create_payout (p : pending) : bool :=
  match p with PCreatePayout _ _ _ => true | _ => false end.

(** The outbound call a pending route has composed. *)
Definition call_of (p : pending) : call :=
  match p with
  | PCreateVerification c _ _ _ => c
  | PGetVerification c _ => c
  | PGetDocuments c _ => c
  | PUploadDocument c _ _ => c
  | PUpdateVerificationState c _ _ => c
  | PCreatePayment c _ _ _ _ _ _ => c
  | PGetPayment c _ => c
  | PCreatePayout c _ _ => c
  end.

(** What the save steps add to the envelope. *)
Definition marked_saved (local_id : Z) (result : dict) : dict :=
  dict_set "local_id" (JInt local_id)
           (dict_set "saved_locally" (JBool true) result).

(** The ledger a route leaves behind: nothing is committed unless it
    returns. *)
Definition ledger_after (o : outcome) (db : database) : database :=
  match o with Returned _ db' => db' | _ => db end.

(** [attributes.client.id] of the provider's answer, when it can be read. *)
Definition incoming_client_id (net : net_result) : option json :=
  match net with
  | NetResponse response =>
      match (client_data <- client_data_of (parse_body response) ;;
             py_get client_data "id" JNull) with
      | Ok v => Some v
      | Raise _ => None
      end
  | NetException _ => None
  end.




(** The value found by following [path] through nested objects. *)
Fixpoint at_path (path : list string) (v : json) : option json :=
  match path with
  | [] => Some v
  | k :: path' =>
      match v with
      | JObj d => match lookup k d with
                  | Some x => at_path path' x
                  | None => None
                  end
      | _ => None
      end
  end.



(** The routes that take a JSON request and call the provider. *)
Inductive json_route : Type :=
| RCreateVerification
| RGetVerification (verification_id : string)
| RGetDocuments (verification_id : string)
| RUpdateVerificationState (verification_id : string)
| RCreatePayment
| RGetPayment (payment_id : string)
| RCreatePayout.

(** The first half of a JSON route; [timestamp] is the RFC 1123 date
    create_payout reads off the clock. *)
Definition prepare_route (rt : runtime) (now : datetime) (timestamp : string)
    (r : json_route) (data : json) : route pending :=
  match r with
  | RCreateVerification => create_verification_prepare rt now data
  | RGetVerification id => get_verification_prepare rt now data id
  | RGetDocuments id => get_documents_prepare rt now data id
  | RUpdateVerificationState id =>
      update_verification_state_prepare rt now data id
  | RCreatePayment => create_payment_prepare rt now data
  | RGetPayment id => get_payment_prepare rt now data id
  | RCreatePayout => create_payout_prepare timestamp data
  end.

Definition is_payout_route (r : json_route) : bool :=
  match r with RCreatePayout => true | _ => false end.

(** The text a signed route puts after the identity and the timestamp:
    the serialized body, or nothing for a route without one. *)
Definition signed_body_text (p : pending) : string :=
  match p with
  | PCreateVerification c _ _ _ => json_dumps (body_sent c)
  | PUpdateVerificationState c _ _ => json_dumps (body_sent c)
  | PCreatePayment c _ _ _ _ _ _ => json_dumps (body_sent c)
  | _ => ""
  end.

(** The three credentials of a request, read as the routes read them. *)
Definition credential (data : json) (name : string) : json :=
  match data with
  | JObj d =>
      match dict_get d "credentials" (JObj []) with
      | JObj creds => dict_get creds name JNull
      | _ => JNull
      end
  | _ => JNull
  end.

(** The outbound headers apart from [Content-Type]. *)
Definition headers_without_content_type (h : dict) : dict :=
  filter (fun kv => negb (String.eqb (fst kv) "Content-Type")) h.

(** The characters stripped from a card number. *)
Definition is_separator (c : ascii) : bool :=
  Ascii.eqb c " "%char || Ascii.eqb c "-"%char.

(** Where each form field of a verification lands in the body, and what
    stands in for it when the form has none. *)
Definition client_fields : list (string * list string * json) :=
  [ ("notification_url", ["notification_url"], JStr "");
    ("external_reference", ["attributes"; "external_reference"], JStr "");
    ("first_name", ["attributes"; "client"; "first_name"], JStr "");
    ("last_name", ["attributes"; "client"; "last_name"], JStr "");
    ("document_type", ["attributes"; "client"; "document_type"],
     JStr "TAX_ID");
    ("document_number", ["attributes"; "client"; "document_number"],
     JStr "");
    ("document_country", ["attributes"; "client"; "document_country"],
     JStr "");
    ("date_of_birth", ["attributes"; "client"; "date_of_birth"], JStr "");
    ("place_of_birth", ["attributes"; "client"; "place_of_birth"], JStr "");
    ("nationality", ["attributes"; "client"; "nationality"], JStr "");
    ("phone", ["attributes"; "client"; "phone"], JStr "");
    ("email", ["attributes"; "client"; "email"], JStr "");
    ("address_country", ["attributes"; "client"; "address"; "country"],
     JStr "");
    ("address_city", ["attributes"; "client"; "address"; "city"], JStr "");
    ("address_zip_code", ["attributes"; "client"; "address"; "zip_code"],
     JStr "");
    ("address_state", ["attributes"; "client"; "address"; "state"], JStr "");
    ("address_street_name",
     ["attributes"; "client"; "address"; "street_name"], JStr "");
    ("address_street_number",
     ["attributes"; "client"; "address"; "street_number"], JStr "") ].

Definition remitter_only_fields : list (string * list string * json) :=
  [ ("gender", ["attributes"; "client"; "gender"], JStr "MALE");
    ("marital_status", ["attributes"; "client"; "marital_status"], JStr "");
    ("is_pep", ["attributes"; "client"; "is_pep"], JBool false);
    ("is_so", ["attributes"; "client"; "is_so"], JBool false);
    ("profession", ["attributes"; "client"; "profession"], JStr "");
    ("source_of_funds", ["attributes"; "client"; "source_of_funds"],
     JStr "");
    ("consent_accepted", ["attributes"; "client"; "consent"; "accepted"],
     JBool true) ].

Definition bank_fields : list (string * string) :=
  [ ("bank_code", "code"); ("bank_branch", "branch");
    ("bank_account_type", "account_type") ].

(** ** Vocabulary of the ledger invariants *)

(** The columns of a row that are written once, when it is created. *)
Definition verification_frozen (v : Verification.t) :=
  (Verification.id v, Verification.verification_id v,
   Verification.client_type v, Verification.first_name v,
   Verification.last_name v, Verification.document_number v,
   Verification.external_reference v, Verification.environment v,
   Verification.created_at v).

Definition document_frozen (d : Document.t) :=
  (Document.id d, Document.verification_id d, Document.document_id d,
   Document.created_at d).

Definition payment_frozen (p : Payment.t) :=
  (Payment.id p, Payment.payment_id p, Payment.order_id p, Payment.amount p,
   Payment.currency p, Payment.country p, Payment.payment_method_id p,
   Payment.remitter_user_id p, Payment.beneficiary_user_id p,
   Payment.environment p, Payment.created_at p).

Definition payout_frozen (p : Payout.t) :=
  (Payout.id p, Payout.external_id p, Payout.amount p, Payout.currency p,
   Payout.country p, Payout.bank_account p, Payout.remitter_user_id p,
   Payout.beneficiary_user_id p, Payout.purpose p, Payout.environment p,
   Payout.created_at p).

(** The key a row is looked up by. *)
Definition document_key (d : Document.t) : json * json :=
  (Document.verification_id d, Document.document_id d).

(** [rows'] is [rows] after a reconciliation: the old rows are all
    there, in place and with their frozen columns, followed by new rows
    whose keys are new and distinct. *)
Definition evolves {A F K : Type} (frozen : A -> F) (key : A -> K)
    (rows rows' : list A) : Prop :=
  exists kept added,
    rows' = kept ++ added
    /\ map frozen kept = map frozen rows
    /\ (forall k, In k (map key added) -> ~ In k (map key rows))
    /\ NoDup (map key added).

(** No two rows of a table share the key they are looked up by. *)
Definition unique_keys (db : database) : Prop :=
  NoDup (map Verification.verification_id (verifications db))
  /\ NoDup (map document_key (documents db))
  /\ NoDup (map Payment.payment_id (payments db))
  /\ NoDup (map Payout.external_id (payouts db)).

Definition verifications_evolve :=
  evolves verification_frozen Verification.verification_id.
Definition documents_evolve := evolves document_frozen document_key.
Definition payments_evolve := evolves payment_frozen Payment.payment_id.
Definition payouts_evolve := evolves payout_frozen Payout.external_id.

(** A ledger after a reconciliation, table by table. *)
Definition ledger_evolves (db db' : database) : Prop :=
  verifications_evolve (verifications db) (verifications db')
  /\ documents_evolve (documents db) (documents db')
  /\ payments_evolve (payments db) (payments db')
  /\ payouts_evolve (payouts db) (payouts db').

(** The key among the frozen columns. *)
Definition verification_key_of
    (f : Z * json * json * json * json * json * json * json * datetime)
  : json :=
  let '(_, k, _, _, _, _, _, _, _) := f in k.

Definition document_key_of (f : Z * json * json * datetime) : json * json :=
  let '(_, v, d, _) := f in (v, d).

Definition payment_key_of
    (f : Z * json * json * json * json * json * json * json * json * json
         * datetime) : json :=
  let '(_, k, _, _, _, _, _, _, _, _, _) := f in k.

Definition payout_key_of
    (f : Z * json * json * json * json * json * json * json * json * json
         * datetime) : json :=
  let '(_, k, _, _, _, _, _, _, _, _, _) := f in k.

(** The routes that only refresh a row they find. *)
Definition refreshes_only (p : pending) : bool :=
  match p with
  | PGetVerification _ _ | PUploadDocument _ _ _
  | PUpdateVerificationState _ _ _ | PGetPayment _ _ => true
  | _ => false
  end.

(** The row such a route looks for is not in the ledger. *)
Definition local_row_missing (p : pending) (db : database) : Prop :=
  match p with
  | PGetVerification _ verification_id
  | PUpdateVerificationState _ verification_id _ =>
      find_row (has_verification_id (JStr verification_id))
               (verifications db) = None
  | PUploadDocument _ verification_id document_id =>
      find_row (is_document (JStr verification_id) (JStr document_id))
               (documents db) = None
  | PGetPayment _ payment_id =>
      find_row (has_payment_id (JStr payment_id)) (payments db) = None
  | _ => False
  end.

Definition table_sizes (db : database) : nat * nat * nat * nat :=
  (List.length (verifications db), List.length (documents db),
   List.length (payments db), List.length (payouts db)).

(** The tables of a ledger other than the one a route writes. *)
Definition other_tables (p : pending) (db : database) :=
  match p with
  | PCreateVerification _ _ _ _ | PGetVerification _ _
  | PUpdateVerificationState _ _ _ =>
      (([] : list Verification.t), documents db, payments db, payouts db)
  | PGetDocuments _ _ | PUploadDocument _ _ _ =>
      (verifications db, ([] : list Document.t), payments db, payouts db)
  | PCreatePayment _ _ _ _ _ _ _ | PGetPayment _ _ =>
      (verifications db, documents db, ([] : list Payment.t), payouts db)
  | PCreatePayout _ _ _ =>
      (verifications db, documents db, payments db, ([] : list Payout.t))
  end.

(** ** Words about the provider's answer *)

Definition is_object (j : json) : bool :=
  match j with
  | JObj _ => true
  | _ => false
  end.

Definition found {A : Type} (q : A -> bool) (rows : list A) : bool :=
  match find_row q rows with
  | Some _ => true
  | None => false
  end.

(** Does the route call [.get] on a successful answer?  The creating
    routes and get_documents do so at once; the others only after they
    have found the row named by the path. *)
Definition reads_answer (p : pending) (db : database) : bool :=
  match p with
  | PCreateVerification _ _ _ _ => true
  | PGetDocuments _ _ => true
  | PCreatePayment _ _ _ _ _ _ _ => true
  | PGetVerification _ verification_id =>
      found (has_verification_id (JStr verification_id)) (verifications db)
  | PUpdateVerificationState _ verification_id _ =>
      found (has_verification_id (JStr verification_id)) (verifications db)
  | PUploadDocument _ verification_id document_id =>
      found (is_document (JStr verification_id) (JStr document_id))
            (documents db)
  | PGetPayment _ payment_id =>
      found (has_payment_id (JStr payment_id)) (payments db)
  | PCreatePayout _ _ _ => false
  end.

(** The key a creating route files its row under: the answer's [id],
    or for a payout the request's [external_id]. *)
Definition filing_key (p : pending) (net : net_result) : json :=
  match p with
  | PCreatePayout _ payout_data _ =>
      match payout_data with
      | JObj d => dict_get d "external_id" JNull
      | _ => JNull
      end
  | _ =>
      match net with
      | NetResponse response =>
          match parse_body response with
          | JObj d => dict_get d "id" JNull
          | _ => JNull
          end
      | NetException _ => JNull
      end
  end.

(** The local id of the first row of the route's table under a key. *)
Definition local_id_under (p : pending) (key : json) (db : database)
  : option json :=
  match p with
  | PCreateVerification _ _ _ _ =>
      option_map (fun ir => JInt (Verification.id (snd ir)))
                 (find_row (has_verification_id key) (verifications db))
  | PCreatePayment _ _ _ _ _ _ _ =>
      option_map (fun ir => JInt (Payment.id (snd ir)))
                 (find_row (has_payment_id key) (payments db))
  | PCreatePayout _ _ _ =>
      option_map (fun ir => JInt (Payout.id (snd ir)))
                 (find_row (has_external_id key) (payouts db))
  | _ => None
  end.

(** ** Words about the local routes *)

(** [rows'] is [rows] with the one row [x] taken out. *)
Definition cut_out {A : Type} (x : A) (rows rows' : list A) : Prop :=
  exists before after,
    rows = before ++ x :: after /\ rows' = before ++ after.

(** In a listing, [a] may stand before [b]. *)
Definition not_older {A : Type} (created_at : A -> datetime) (a b : A)
  : Prop :=
  datetime_leb (created_at b) (created_at a) = true.


(** [body] lists [table]: one object per row, carrying the row's id,
    newest first. *)
Definition listing_of {A : Type} (created_at : A -> datetime)
    (id_of : A -> Z) (table : list A) (body : json) : Prop :=
  exists rows entries,
    body = JArr (map JObj entries)
    /\ map (lookup "id") entries = map (fun r => Some (JInt (id_of r))) rows
    /\ Permutation rows table
    /\ Sorted (not_older created_at) rows.
(** * Properties *)

(** ** Signer *)








(** Published test vectors (FIPS 180-4, RFC 4231). *)

Example sha256_abc :
  hex_of_bytes (SHA256.digest (encode_utf8 "abc"))
  = "ba7816bf8f01cfea414140de5dae2223b00361a396177a9cb410ff61f20015ad".
Proof. vm_compute. reflexivity. Qed.

Example sha256_empty :
  hex_of_bytes (SHA256.digest [])
  = "e3b0c44298fc1c149afbf4c8996fb92427ae41e4649b934ca495991b7852b855".
Proof. vm_compute. reflexivity. Qed.

Example hmac_rfc4231_case2 :
  HMAC.hexdigest (encode_utf8 "Jefe")
                 (encode_utf8 "what do ya want for nothing?")
  = "5bdcc146bf60754e6a042426089575c75a003f089d2739839dec58b964ec3843".
Proof. vm_compute. reflexivity. Qed.

(** The signer on the same vector, split into identity, timestamp and
    body. *)
Example generate_signature_rfc4231_case2 :
  generate_signature plain_runtime (JStr "what do ya ") (JStr "Jefe")
                     "want for " "nothing?"
  = Ok "5bdcc146bf60754e6a042426089575c75a003f089d2739839dec58b964ec3843".
Proof. vm_compute. reflexivity. Qed.



(** ** Rows of a table *)

Lemma first_ok {A : Type} (f : db_fault) (p : A -> bool) (rows : list A)
    (r : option (nat * A)) :
  first f p rows = Ok r -> r = find_row p rows.
Proof.
  unfold first. destruct (at_query f); [discriminate|].
  intros H. now inversion H.
Qed.

Lemma find_row_some {A : Type} (p : A -> bool) (rows : list A) (i : nat)
    (x : A) :
  find_row p rows = Some (i, x) -> nth_error rows i = Some x /\ p x = true.
Proof.
  revert i. induction rows as [|r rows IH]; intros i; simpl; [discriminate|].
  destruct (p r) eqn:E.
  - intros H. inversion H; subst. auto.
  - destruct (find_row p rows) as [[j y]|]; [|discriminate].
    intros H. inversion H; subst. simpl. apply IH. reflexivity.
Qed.

Lemma find_row_none {A : Type} (p : A -> bool) (rows : list A) :
  find_row p rows = None -> forall x, In x rows -> p x = false.
Proof.
  induction rows as [|r rows IH]; simpl; [intros _ x Hin; destruct Hin|].
  destruct (p r) eqn:E; [discriminate|].
  destruct (find_row p rows) as [[j y]|]; [discriminate|].
  intros _ x [<-|Hin]; auto.
Qed.

Lemma set_row_length {A : Type} (i : nat) (x : A) (rows : list A) :
  List.length (set_row i x rows) = List.length rows.
Proof.
  revert i. induction rows as [|r rows IH]; intros [|i]; simpl; auto.
Qed.




(** ** Dictionaries *)

Lemma lookup_dict_set_same (k : string) (v : json) (d : dict) :
  lookup k (dict_set k v d) = Some v.
Proof.
  induction d as [|[k' v'] d IH]; simpl.
  - now rewrite String.eqb_refl.
  - destruct (String.eqb k k') eqn:E; simpl; rewrite ?E, ?String.eqb_refl;
      auto.
Qed.

Lemma lookup_dict_set_other (k k' : string) (v : json) (d : dict) :
  k <> k' -> lookup k (dict_set k' v d) = lookup k d.
Proof.
  intros N.
  induction d as [|[k0 v0] d IH]; simpl.
  - apply String.eqb_neq in N. now rewrite N.
  - destruct (String.eqb k' k0) eqn:E; simpl.
    + apply String.eqb_eq in E. subst k0.
      apply String.eqb_neq in N. now rewrite N.
    + destruct (String.eqb k k0); auto.
Qed.


(** ** Inversion of the error monad *)

Lemma bind_ok {A B : Type} (m : res A) (k : A -> res B) (b : B) :
  bind m k = Ok b -> exists a, m = Ok a /\ k a = Ok b.
Proof. destruct m as [a|e]; simpl; [eauto | discriminate]. Qed.

Lemma finish_returned (m : res (dict * database)) (result : dict)
    (db' : database) :
  finish m = Returned result db' -> m = Ok (result, db').
Proof.
  destruct m as [[r d]|e]; simpl; [|discriminate].
  intros H. now inversion H.
Qed.

Ltac inv_bind H :=
  let a := fresh "a" in
  let E := fresh "E" in
  apply bind_ok in H; destruct H as (a & E & H).

Ltac inv_ok H := inversion H; subst; clear H.




Ltac crunch0 :=
  repeat match goal with
  | H : finish _ = Returned _ _ |- _ => apply finish_returned in H
  | H : bind _ _ = Ok _ |- _ => inv_bind H
  | H : Ok _ = Ok _ |- _ => inv_ok H
  | H : Raise _ = Ok _ |- _ => discriminate H
  | H : _ = Ok ?a |- _ =>
      is_var a; match type of a with prod _ _ => destruct a as [? ?] end
  | H : (if ?b then _ else _) = Ok _ |- _ => destruct b eqn:?
  | H : match ?x with Some _ => _ | None => _ end = Ok _ |- _ =>
      destruct x as [[? ?]|] eqn:?
  | H : match ?x with Ok _ => _ | Raise _ => _ end = Ok _ |- _ =>
      destruct x as [[? ?]|] eqn:?
  end.


Ltac unfold_respond H :=
  unfold respond in H;
  unfold create_verification_respond, get_verification_respond,
         get_documents_respond, upload_document_respond,
         update_verification_state_respond, create_payment_respond,
         get_payment_respond, create_payout_respond in H;
  cbv zeta in H.

(** What a save step leaves alone. *)

Lemma save_payment_frame (payment_data payment_method_id use_sandbox : json)
    (stored_at : datetime) (api_response : json) (result : dict)
    (f : db_fault) (db : database) (result' : dict) (db' : database) :
  save_payment payment_data payment_method_id use_sandbox stored_at
               api_response result f db = Ok (result', db') ->
  verifications db' = verifications db /\ documents db' = documents db
  /\ payouts db' = payouts db.
Proof.
  unfold save_payment. intros H. do 4 inv_bind H. inv_ok H. auto.
Qed.

Lemma save_payout_frame (rt : runtime)
    (payout_data use_sandbox external_id : json)
    (stored_at : datetime) (response_json : json) (result : dict)
    (f : db_fault) (db : database) (result' : dict) (db' : database) :
  save_payout rt payout_data use_sandbox external_id stored_at response_json
              result f db = Ok (result', db') ->
  verifications db' = verifications db /\ documents db' = documents db
  /\ payments db' = payments db.
Proof.
  unfold save_payout. intros H. do 3 inv_bind H. inv_ok H. auto.
Qed.

Lemma save_verification_frame (form_data client_type use_sandbox : json)
    (stored_at : datetime) (api_response : json) (result : dict)
    (f : db_fault) (db : database) (result' : dict) (db' : database) :
  save_verification form_data client_type use_sandbox stored_at api_response
                    result f db = Ok (result', db') ->
  documents db' = documents db /\ payments db' = payments db
  /\ payouts db' = payouts db.
Proof.
  unfold save_verification. intros H. do 6 inv_bind H. inv_ok H. auto.
Qed.


(** ** Keys *)

Lemma json_eqb_refl : forall a : json, json_eqb a a = true.
Proof.
  fix IH 1. intros [ |b|n|r|s|l|d]; simpl.
  - reflexivity.
  - apply Bool.eqb_reflx.
  - apply Z.eqb_refl.
  - apply String.eqb_refl.
  - apply String.eqb_refl.
  - induction l as [|x l IHl]; [reflexivity|].
    now rewrite IH, IHl.
  - induction d as [|[k x] d IHd]; [reflexivity|].
    now rewrite String.eqb_refl, IH, IHd.
Qed.

Lemma find_row_set_row {A : Type} (p : A -> bool) (rows : list A) (i : nat)
    (old new : A) :
  find_row p rows = Some (i, old) -> p new = true ->
  find_row p (set_row i new rows) = Some (i, new).
Proof.
  revert i. induction rows as [|r rows IH]; intros i; simpl; [discriminate|].
  destruct (p r) eqn:E.
  - intros H Hn. inversion H; subst. simpl. now rewrite Hn.
  - destruct (find_row p rows) as [[j y]|] eqn:F; [|discriminate].
    intros H Hn. inversion H; subst. simpl. rewrite E.
    now rewrite (IH j eq_refl Hn).
Qed.

Lemma find_row_app_new {A : Type} (p : A -> bool) (rows : list A) (new : A) :
  find_row p rows = None -> p new = true ->
  find_row p (rows ++ [new]) = Some (List.length rows, new).
Proof.
  induction rows as [|r rows IH]; simpl; intros H Hn.
  - now rewrite Hn.
  - destruct (p r); [discriminate|].
    destruct (find_row p rows) as [[j y]|]; [discriminate|].
    now rewrite (IH eq_refl Hn).
Qed.



(** ** Requests that reach the provider

    The routes that reconcile with data of the request have read that
    data as an object by the time they call the provider. *)

Lemma bind_route_proceed {A B : Type} (m : route A) (k : A -> route B)
    (b : B) :
  bind_route m k = Proceed b -> exists a, m = Proceed a /\ k a = Proceed b.
Proof. destruct m; simpl; [eauto | discriminate | discriminate]. Qed.

Lemma lift_proceed {A : Type} (m : res A) (a : A) :
  lift m = Proceed a -> m = Ok a.
Proof. destruct m; simpl; [|discriminate]. intros H. now inversion H. Qed.

Ltac inv_route H :=
  let a := fresh "a" in
  let E := fresh "E" in
  apply bind_route_proceed in H; destruct H as (a & E & H);
  try apply lift_proceed in E.

Lemma bound_get_object {A : Type} (v : json)
    (k : (string -> json -> json) -> res A) (a : A) :
  (get <- bound_get v ;; k get) = Ok a -> exists d, v = JObj d.
Proof. destruct v; try discriminate. eauto. Qed.

Lemma create_verification_prepare_reads_form_data (rt : runtime)
    (now : datetime) (data : json) (p : pending) :
  create_verification_prepare rt now data = Proceed p ->
  exists c form_data client_type use_sandbox,
    p = PCreateVerification c (JObj form_data) client_type use_sandbox.
Proof.
  unfold create_verification_prepare. intros H.
  destruct (negb (truthy data)); [discriminate|].
  repeat inv_route H. inversion H; subst; clear H.
  assert (D : exists d, a0 = JObj d).
  { destruct (is_str a2 "BENEFICIARY");
      [unfold create_beneficiary_body in E4
      |unfold create_remitter_body in E4];
      eapply bound_get_object; exact E4. }
  destruct D as [d ->]. eauto.
Qed.

Lemma create_payment_prepare_reads_payment_data (rt : runtime)
    (now : datetime) (data : json) (p : pending) :
  create_payment_prepare rt now data = Proceed p ->
  exists c payment_data payment_method_id use_sandbox secure body_json
         message_for_signature,
    p = PCreatePayment c (JObj payment_data) payment_method_id use_sandbox
                       secure body_json message_for_signature.
Proof.
  unfold create_payment_prepare. intros H.
  destruct (negb (truthy data)); [discriminate|].
  repeat inv_route H. inversion H; subst; clear H.
  assert (D : exists d, a0 = JObj d).
  { unfold create_payment_body in E4. eapply bound_get_object; exact E4. }
  destruct D as [d ->]. do 7 eexists. reflexivity.
Qed.

Lemma create_payout_prepare_reads_payout_data (timestamp : string)
    (data : json) (p : pending) :
  create_payout_prepare timestamp data = Proceed p ->
  exists c payout_data use_sandbox,
    p = PCreatePayout c (JObj payout_data) use_sandbox.
Proof.
  unfold create_payout_prepare. intros H.
  destruct (negb (truthy data)); [discriminate|].
  repeat inv_route H. inversion H; subst; clear H.
  assert (D : exists d, a0 = JObj d).
  { unfold create_payout_body in E3. eapply bound_get_object; exact E3. }
  destruct D as [d ->]. eauto.
Qed.

(** ** Transport failure *)

(** C4 (as amended).  When the call to the provider raises a request
    exception, every route returns an envelope and leaves the ledger as
    it was; the envelope has success false, no status code, and the
    text of the exception under [error].  Its response-header map is
    empty in every route but create_payout, whose envelope has no
    [response_headers] field. *)
Theorem transport_failure_envelope :
  forall (rt : runtime) (p : pending) (stored_at : datetime) (e : string)
         (f : db_fault) (db : database),
  exists result,
    respond rt p stored_at (NetException e) f db = Returned result db
    /\ lookup "success" result = Some (JBool false)
    /\ lookup "status_code" result = None
    /\ lookup "error" result = Some (JStr e)
    /\ lookup "response_headers" result
       = if is_create_payout p then None else Some (JObj []).
Proof.
  intros rt p stored_at e f db.
  destruct p; simpl; eexists; (split; [reflexivity|]); repeat split.
Qed.

(** C4, as stated, fails in create_payout: the envelope of a timed-out
    call has no response-header map at all. *)
Lemma create_payout_transport_failure_has_no_header_map :
  exists result,
    create_payout plain_runtime Sample.timestamp Sample.now
                  Sample.payout_request (NetException "Read timed out.")
                  no_fault Sample.empty_db
    = Returned result Sample.empty_db
    /\ lookup "success" result = Some (JBool false)
    /\ lookup "response_headers" result = None
    /\ lookup "response_headers" result <> Some (JObj []).
Proof.
  eexists. split; [vm_compute; reflexivity|].
  repeat split; discriminate.
Qed.

(** ** Remote rejection *)

Lemma not_ok_of_error_status (response : Response.t) :
  400 <= Response.status_code response < 600 ->
  Response.ok response = false.
Proof.
  intros [Hlo Hhi]. unfold Response.ok.
  apply Z.leb_le in Hlo. apply Z.ltb_lt in Hhi. now rewrite Hlo, Hhi.
Qed.

(** C6 (as amended).  For every completed exchange whose status is in
    400..599, every route returns an envelope with success false, the
    provider's status code and the parsed body, and the ledger is left
    exactly as it was. *)
Theorem error_status_envelope_and_untouched_ledger :
  forall (rt : runtime) (p : pending) (stored_at : datetime)
         (response : Response.t) (f : db_fault) (db : database),
    400 <= Response.status_code response < 600 ->
    exists result,
      respond rt p stored_at (NetResponse response) f db = Returned result db
      /\ lookup "success" result = Some (JBool false)
      /\ lookup "status_code" result
         = Some (JInt (Response.status_code response))
      /\ lookup "response" result = Some (parse_body response).
Proof.
  intros rt p stored_at response f db H.
  apply not_ok_of_error_status in H.
  destruct p; simpl;
    unfold create_verification_respond, get_verification_respond,
           get_documents_respond, upload_document_respond,
           update_verification_state_respond, create_payment_respond,
           get_payment_respond, create_payout_respond, ok_with_id;
    rewrite H; simpl; eexists; (split; [reflexivity|]); repeat split;
    cbn; rewrite ?H; reflexivity.
Qed.

Lemma error_status_envelope_and_untouched_ledger_witness :
  exists result,
    respond plain_runtime
            (PGetVerification (mkCall "" [] "" "" JNull) "V1") Sample.now
            (NetResponse (Sample.bare_answer 404)) no_fault
            Sample.db_with_verification
    = Returned result Sample.db_with_verification
    /\ lookup "success" result = Some (JBool false)
    /\ lookup "status_code" result = Some (JInt 404)
    /\ lookup "response" result
       = Some (parse_body (Sample.bare_answer 404)).
Proof.
  apply (error_status_envelope_and_untouched_ledger
           plain_runtime (PGetVerification (mkCall "" [] "" "" JNull) "V1")
           Sample.now (Sample.bare_answer 404) no_fault
           Sample.db_with_verification).
  simpl. lia.
Defined.

(** C6, as stated, fails outside 400..599: [response.ok] is true for a
    status such as 304 or 300, so the envelope reports success and the
    ledger is written. *)
Lemma redirect_status_counts_as_success :
  (exists result db',
      get_verification plain_runtime Sample.now Sample.now Sample.get_request
                       "V1" (NetResponse (Sample.bare_answer 304)) no_fault
                       Sample.db_with_verification
      = Returned result db'
      /\ ~ (200 <= Response.status_code (Sample.bare_answer 304) <= 299)
      /\ lookup "success" result = Some (JBool true)
      /\ map Verification.raw_response (verifications db')
         <> map Verification.raw_response
                (verifications Sample.db_with_verification))
  /\ (exists result db',
         create_verification plain_runtime Sample.now Sample.now
           Sample.verification_request
           (NetResponse (Sample.answer 300 (JObj [("id", JStr "V9")])))
           no_fault Sample.empty_db
         = Returned result db'
         /\ lookup "success" result = Some (JBool true)
         /\ List.length (verifications db') = 1%nat
         /\ List.length (verifications Sample.empty_db) = 0%nat).
Proof.
  split.
  - eexists. eexists. split; [vm_compute; reflexivity|].
    split; [simpl; lia|]. split; [reflexivity|].
    vm_compute. discriminate.
  - eexists. eexists. split; [vm_compute; reflexivity|].
    repeat split.
Qed.

(** ** Redaction of the outbound headers *)





(** ** The stored user id *)





Ltac fold_parse_body response :=
  repeat match goal with
         | H : context [dict_get ?d "response" ?x] |- _ =>
             change (dict_get d "response" x) with (parse_body response) in H
         end.



(** ** Payouts *)

(** C10.  In create_payout, when the provider's answer counts as
    successful and the caller's payout data has no [external_id] (the
    key is absent, or holds the empty string), the ledger is left as it
    was and the envelope is the plain one: success true, and neither
    [saved_locally] nor [save_error]. *)
Theorem payout_without_external_id_is_not_saved :
  forall (rt : runtime) (c : call) (payout_data : dict) (use_sandbox : json)
         (stored_at : datetime) (response : Response.t) (f : db_fault)
         (db : database),
    Response.ok response = true ->
    lookup "external_id" payout_data = None
    \/ lookup "external_id" payout_data = Some (JStr "") ->
    exists result,
      respond rt (PCreatePayout c (JObj payout_data) use_sandbox) stored_at
              (NetResponse response) f db
      = Returned result db
      /\ result = create_payout_result c response
      /\ lookup "success" result = Some (JBool true)
      /\ lookup "saved_locally" result = None
      /\ lookup "save_error" result = None.
Proof.
  intros rt c payout_data use_sandbox stored_at response f db Hok Hid.
  exists (create_payout_result c response).
  split.
  - unfold respond, create_payout_respond. cbv zeta. rewrite Hok.
    cbn [py_get bind]. unfold dict_get.
    destruct Hid as [-> | ->]; reflexivity.
  - split; [reflexivity|].
    unfold create_payout_result. cbn. rewrite Hok. auto.
Qed.

Lemma payout_without_external_id_is_not_saved_witness :
  Response.ok (Sample.answer 200 (JObj [("status", JStr "PENDING")])) = true
  /\ (lookup "external_id" [("amount", JStr "100.00")] = None
      \/ lookup "external_id" [("amount", JStr "100.00")] = Some (JStr ""))
  /\ exists result,
      respond plain_runtime
              (PCreatePayout Sample.signed_call
                             (JObj [("amount", JStr "100.00")]) (JBool true))
              Sample.now
              (NetResponse
                 (Sample.answer 200 (JObj [("status", JStr "PENDING")])))
              no_fault Sample.empty_db
      = Returned result Sample.empty_db
      /\ result
         = create_payout_result
             Sample.signed_call
             (Sample.answer 200 (JObj [("status", JStr "PENDING")]))
      /\ lookup "success" result = Some (JBool true)
      /\ lookup "saved_locally" result = None
      /\ lookup "save_error" result = None.
Proof.
  split; [reflexivity|]. split; [left; reflexivity|].
  apply (payout_without_external_id_is_not_saved
           plain_runtime Sample.signed_call [("amount", JStr "100.00")]
           (JBool true) Sample.now
           (Sample.answer 200 (JObj [("status", JStr "PENDING")]))
           no_fault Sample.empty_db).
  - reflexivity.
  - left. reflexivity.
Defined.

(** C7.  In create_payout, when saving the payout raises (a conversion
    that fails, or the database on its query or commit), the route still
    returns: the ledger is the one before the call, and the envelope is
    the HTTP-level one (success true, status code, parsed body) with a
    [save_error] field holding the text of the exception and without
    [saved_locally]. *)
Theorem payout_save_failure_is_reported_not_raised :
  forall (rt : runtime) (c : call) (payout_data use_sandbox : json)
         (stored_at : datetime) (response : Response.t) (f : db_fault)
         (db : database) (external_id : json) (e : exn),
    Response.ok response = true ->
    py_get payout_data "external_id" JNull = Ok external_id ->
    truthy external_id = true ->
    save_payout rt payout_data use_sandbox external_id stored_at
                (parse_body response) (create_payout_result c response) f db
    = Raise e ->
    exists result,
      respond rt (PCreatePayout c payout_data use_sandbox) stored_at
              (NetResponse response) f db
      = Returned result db
      /\ result = dict_set "save_error" (JStr (exn_str rt e))
                           (create_payout_result c response)
      /\ lookup "success" result = Some (JBool true)
      /\ lookup "status_code" result
         = Some (JInt (Response.status_code response))
      /\ lookup "response" result = Some (parse_body response)
      /\ lookup "save_error" result = Some (JStr (exn_str rt e))
      /\ lookup "saved_locally" result = None.
Proof.
  intros rt c payout_data use_sandbox stored_at response f db external_id e
         Hok Hid Ht Hsave.
  eexists. split.
  - unfold respond, create_payout_respond. cbv zeta.
    rewrite Hok, Hid. cbn [bind]. rewrite Ht, Hsave. reflexivity.
  - split; [reflexivity|].
    unfold create_payout_result. cbn. rewrite Hok. auto 6.
Qed.

(** The database refusing the commit is one way to get there. *)
Lemma payout_save_failure_is_reported_not_raised_witness :
  exists result,
    respond plain_runtime
            (PCreatePayout Sample.signed_call
                           (JObj [ ("external_id", JStr "EXT-1");
                                   ("amount", JStr "100.00") ]) (JBool true))
            Sample.now
            (NetResponse (Sample.answer 200 (JObj [("id", JStr "PO-1")])))
            (mkFault None (Some "database is locked")) Sample.empty_db
    = Returned result Sample.empty_db
    /\ result
       = dict_set "save_error"
           (JStr (exn_str plain_runtime (DatabaseError "database is locked")))
           (create_payout_result
              Sample.signed_call
              (Sample.answer 200 (JObj [("id", JStr "PO-1")])))
    /\ lookup "success" result = Some (JBool true)
    /\ lookup "status_code" result
       = Some (JInt (Response.status_code
                       (Sample.answer 200 (JObj [("id", JStr "PO-1")]))))
    /\ lookup "response" result
       = Some (parse_body (Sample.answer 200 (JObj [("id", JStr "PO-1")])))
    /\ lookup "save_error" result
       = Some (JStr (exn_str plain_runtime
                             (DatabaseError "database is locked")))
    /\ lookup "saved_locally" result = None.
Proof.
  apply (payout_save_failure_is_reported_not_raised
           plain_runtime Sample.signed_call
           (JObj [ ("external_id", JStr "EXT-1"); ("amount", JStr "100.00") ])
           (JBool true) Sample.now
           (Sample.answer 200 (JObj [("id", JStr "PO-1")]))
           (mkFault None (Some "database is locked")) Sample.empty_db
           (JStr "EXT-1") (DatabaseError "database is locked"));
    reflexivity.
Defined.






(** ** Request bodies *)


Lemma lookup_set_if_present_other (get : string -> json -> json)
    (src key k : string) (t : dict) :
  k <> key -> lookup k (set_if_present get src key t) = lookup k t.
Proof.
  intros N. unfold set_if_present.
  destruct (truthy (get src JNull)); [|reflexivity].
  now apply lookup_dict_set_other.
Qed.


Ltac literal_neq := let H := fresh in intros H; discriminate H.




(** ** Create-or-update, twice *)


Ltac fold_parse_body_goal :=
  repeat match goal with
         | |- context [dict_get (handle_response ?r ?h ?s ?dd ?b)
                                "response" ?x] =>
             change (dict_get (handle_response r h s dd b) "response" x)
               with (parse_body r)
         end.








(** * Further properties *)

(** ** Validation of a request *)

Lemma read_credentials_proceed (creds : json) (cr : credentials) :
  read_credentials creds = Proceed cr ->
  exists d,
    creds = JObj d
    /\ login cr = dict_get d "login" JNull
    /\ transaction_key cr = dict_get d "transaction_key" JNull
    /\ secret_key cr = dict_get d "secret_key" JNull
    /\ truthy (login cr) = true
    /\ truthy (transaction_key cr) = true
    /\ truthy (secret_key cr) = true.
Proof.
  unfold read_credentials. intros H.
  destruct creds; try discriminate. cbn [py_get lift bind_route] in H.
  destruct (truthy (dict_get fields "login" JNull)) eqn:T1;
    [|discriminate].
  destruct (truthy (dict_get fields "transaction_key" JNull)) eqn:T2;
    [|discriminate].
  destruct (truthy (dict_get fields "secret_key" JNull)) eqn:T3;
    [|discriminate].
  cbn in H. inversion H; subst; clear H. cbn. eauto 10.
Qed.

Lemma read_credentials_missing (d : dict) :
  truthy (dict_get d "login" JNull)
  && truthy (dict_get d "transaction_key" JNull)
  && truthy (dict_get d "secret_key" JNull) = false ->
  read_credentials (JObj d) = Respond400 "Missing required credentials".
Proof.
  intros H. unfold read_credentials. cbn [py_get lift bind_route].
  now rewrite H.
Qed.

Lemma py_get_ok (v : json) (k : string) (default a : json) :
  py_get v k default = Ok a -> exists d, v = JObj d /\ a = dict_get d k default.
Proof.
  destruct v; try discriminate. cbn. intros H. inversion H. eauto.
Qed.

Lemma make_headers_ok (rt : runtime) (login transaction_key secret_key : json)
    (date_str body_str : string) (h : dict) :
  make_headers rt login transaction_key secret_key date_str body_str = Ok h ->
  exists sig,
    generate_signature rt login secret_key date_str body_str = Ok sig
    /\ h = [ ("X-Date", JStr date_str);
             ("X-Login", login);
             ("X-Trans-Key", transaction_key);
             ("Authorization", JStr ("V2-HMAC-SHA256, Signature: " +++ sig)) ].
Proof.
  unfold make_headers. intros H. inv_bind H. inv_ok H. eauto.
Qed.

Ltac inv_request :=
  repeat match goal with
  | H : (if negb ?b then _ else _) = Proceed _ |- _ =>
      destruct b eqn:?; cbn [negb] in H; [|discriminate H]
  | H : bind_route _ _ = Proceed _ |- _ => inv_route H
  | H : py_get ?v _ _ = Ok _ |- _ =>
      apply py_get_ok in H; destruct H as (? & ? & ?); subst
  | H : JObj _ = JObj _ |- _ => inversion H; subst; clear H
  | H : read_credentials _ = Proceed _ |- _ =>
      apply read_credentials_proceed in H;
      destruct H as (? & ? & ? & ? & ? & ? & ? & ?); subst
  | H : make_headers _ _ _ _ _ _ = Ok _ |- _ =>
      apply make_headers_ok in H; destruct H as (? & ? & ?); subst
  | H : Proceed _ = Proceed _ |- _ => injection H as H; subst
  end.

(** X1.  A JSON route answers 400 without composing or sending anything
    when the request is empty ([null], [{}], [[]], [0], the empty
    string, [false]): "No data provided"; and when the request is an
    object whose [credentials] object (an absent one counts as empty)
    lacks a non-empty login, transaction key or secret key: "Missing
    required credentials". *)
Theorem request_without_data_or_credentials_is_rejected :
  forall (rt : runtime) (now : datetime) (timestamp : string)
         (r : json_route) (data : json),
    (truthy data = false ->
     prepare_route rt now timestamp r data = Respond400 "No data provided")
    /\ (forall d creds,
           data = JObj d ->
           truthy data = true ->
           dict_get d "credentials" (JObj []) = JObj creds ->
           truthy (dict_get creds "login" JNull)
           && truthy (dict_get creds "transaction_key" JNull)
           && truthy (dict_get creds "secret_key" JNull) = false ->
           prepare_route rt now timestamp r data
           = Respond400 "Missing required credentials").
Proof.
  intros rt now timestamp r data. split.
  - intros H.
    destruct r; cbn [prepare_route];
      unfold create_verification_prepare, get_verification_prepare,
             get_documents_prepare, update_verification_state_prepare,
             create_payment_prepare, get_payment_prepare,
             create_payout_prepare, prepare_get;
      now rewrite H.
  - intros d creds -> Ht Hc Hmiss.
    apply read_credentials_missing in Hmiss.
    destruct r; cbn [prepare_route];
      unfold create_verification_prepare, get_verification_prepare,
             get_documents_prepare, update_verification_state_prepare,
             create_payment_prepare, get_payment_prepare,
             create_payout_prepare, prepare_get;
      rewrite Ht; cbn [negb py_get lift bind_route]; rewrite Hc;
      now rewrite Hmiss.
Qed.

Lemma request_without_data_or_credentials_is_rejected_witness :
  prepare_route plain_runtime Sample.now Sample.timestamp RCreatePayment
    (JObj [("credentials", JObj [ ("login", JStr "merchant");
                                  ("secret_key", JStr "") ])])
  = Respond400 "Missing required credentials"
  /\ prepare_route plain_runtime Sample.now Sample.timestamp
       (RGetPayment "P1") (JObj [])
     = Respond400 "No data provided".
Proof.
  split.
  - apply (proj2 (request_without_data_or_credentials_is_rejected
                    plain_runtime Sample.now Sample.timestamp RCreatePayment
                    (JObj [("credentials",
                            JObj [ ("login", JStr "merchant");
                                   ("secret_key", JStr "") ])]))
             _ [ ("login", JStr "merchant"); ("secret_key", JStr "") ]
             eq_refl eq_refl eq_refl eq_refl).
  - apply (proj1 (request_without_data_or_credentials_is_rejected
                    plain_runtime Sample.now Sample.timestamp
                    (RGetPayment "P1") (JObj [])) eq_refl).
Defined.

(** X4.  update_verification_state reaches the provider only with the
    sandbox flag on and with a non-empty status and status detail: the
    URL is then the sandbox base followed by
    [/kyc/sanbox-tools/verifications/<id>], the body is exactly
    [{status, status_detail}] and it is sent as JSON.  A request whose
    [use_sandbox] is false is answered 400 once its credentials, status
    and detail are in order. *)
Theorem update_verification_state_is_sandbox_only :
  forall (rt : runtime) (now : datetime) (data : json)
         (verification_id : string),
    (forall p,
        update_verification_state_prepare rt now data verification_id
        = Proceed p ->
        exists c d,
          p = PUpdateVerificationState c verification_id
                                       (dict_get d "status" JNull)
          /\ data = JObj d
          /\ truthy (dict_get d "use_sandbox" (JBool true)) = true
          /\ truthy (dict_get d "status" JNull) = true
          /\ truthy (dict_get d "status_detail" (JStr "")) = true
          /\ url c = DLOCAL_SANDBOX_URL +++ "/kyc/sanbox-tools/verifications/"
                     +++ verification_id
          /\ body_sent c
             = JObj [ ("status", dict_get d "status" JNull);
                      ("status_detail", dict_get d "status_detail" (JStr ""))
                    ]
          /\ lookup "Content-Type" (headers c)
             = Some (JStr "application/json"))
    /\ (forall d cr,
           data = JObj d ->
           truthy data = true ->
           read_credentials (dict_get d "credentials" (JObj [])) = Proceed cr ->
           truthy (dict_get d "status" JNull) = true ->
           truthy (dict_get d "status_detail" (JStr "")) = true ->
           truthy (dict_get d "use_sandbox" (JBool true)) = false ->
           update_verification_state_prepare rt now data verification_id
           = Respond400 "This endpoint only works in sandbox environment").
Proof.
  intros rt now data verification_id. split.
  - intros p H. unfold update_verification_state_prepare in H.
    inv_request.
    do 2 eexists. split; [reflexivity|].
    cbn [url body_sent headers]. unfold get_base_url.
    match goal with H : truthy (dict_get _ "use_sandbox" _) = true |- _ =>
      rewrite H end.
    repeat split; assumption.
  - intros d cr -> Ht Hcr Hs Hd Hu.
    unfold update_verification_state_prepare.
    rewrite Ht. cbn [negb py_get lift bind_route]. rewrite Hcr.
    cbn [bind_route]. now rewrite Hs, Hd, Hu.
Qed.

Lemma update_verification_state_is_sandbox_only_witness :
  update_verification_state_prepare plain_runtime Sample.now
    (JObj [ ("credentials", Sample.creds); ("use_sandbox", JBool false);
            ("status", JStr "APPROVED"); ("status_detail", JStr "ok") ])
    "V1"
  = Respond400 "This endpoint only works in sandbox environment".
Proof.
  apply (proj2 (update_verification_state_is_sandbox_only
                  plain_runtime Sample.now
                  (JObj [ ("credentials", Sample.creds);
                          ("use_sandbox", JBool false);
                          ("status", JStr "APPROVED");
                          ("status_detail", JStr "ok") ]) "V1")
           _ (mkCredentials (JStr "merchant") (JStr "tk-1") (JStr "s3cret"))
           eq_refl eq_refl eq_refl eq_refl eq_refl eq_refl).
Defined.

(** ** The signed call *)

Lemma signed_call_of_prepare_get (rt : runtime) (now : datetime)
    (data : json) (path : string) (k : call -> pending) (p : pending) :
  prepare_get rt now data path k = Proceed p ->
  exists c,
    p = k c
    /\ date_str c = get_iso_date now
    /\ body_sent c = JNull
    /\ headers c
       = [ ("X-Date", JStr (date_str c));
           ("X-Login", credential data "login");
           ("X-Trans-Key", credential data "transaction_key");
           ("Authorization",
            JStr ("V2-HMAC-SHA256, Signature: " +++ signature c)) ]
    /\ generate_signature rt (credential data "login")
                          (credential data "secret_key") (date_str c) ""
       = Ok (signature c).
Proof.
  unfold prepare_get. intros H. inv_request.
  eexists. split; [reflexivity|]. cbn [date_str body_sent headers signature].
  unfold credential.
  match goal with H : dict_get _ "credentials" _ = JObj _ |- _ =>
    rewrite H end.
  match goal with
  | H1 : generate_signature _ _ _ _ _ = Ok ?a,
    H2 : generate_signature _ _ _ _ _ = Ok ?b |- _ =>
      rewrite H1 in H2; inversion H2; subst
  end.
  repeat match goal with
         | H : _ ?cr = dict_get _ _ JNull |- _ => rewrite <- H; clear H
         end.
  auto.
Qed.

(** X2.  Whenever a signed route (every JSON route but create_payout)
    goes on to call the provider, the timestamp it signed is the one it
    sends: [X-Date] holds [get_iso_date] of the moment of the request,
    [X-Login] and [X-Trans-Key] hold the caller's credentials, and
    [Authorization] is "V2-HMAC-SHA256, Signature: " followed by the
    signature of the login, that same timestamp and the serialized body
    (nothing for a route without a body) under the caller's secret. *)
Theorem signed_call_headers_agree_with_signature :
  forall (rt : runtime) (now : datetime) (timestamp : string)
         (r : json_route) (data : json) (p : pending),
    is_payout_route r = false ->
    prepare_route rt now timestamp r data = Proceed p ->
    date_str (call_of p) = get_iso_date now
    /\ headers_without_content_type (headers (call_of p))
       = [ ("X-Date", JStr (date_str (call_of p)));
           ("X-Login", credential data "login");
           ("X-Trans-Key", credential data "transaction_key");
           ("Authorization",
            JStr ("V2-HMAC-SHA256, Signature: "
                  +++ signature (call_of p))) ]
    /\ generate_signature rt (credential data "login")
                          (credential data "secret_key")
                          (date_str (call_of p)) (signed_body_text p)
       = Ok (signature (call_of p)).
Proof.
  intros rt now timestamp r data p Hr H.
  destruct r; try discriminate Hr; cbn [prepare_route] in H.
  - (* create_verification *)
    unfold create_verification_prepare in H. inv_request.
    cbn [call_of date_str headers signature signed_body_text body_sent].
    unfold credential.
    match goal with H : dict_get _ "credentials" _ = JObj _ |- _ =>
      rewrite H end.
    match goal with
    | H1 : generate_signature _ _ _ _ _ = Ok ?a,
      H2 : generate_signature _ _ _ _ _ = Ok ?b |- _ =>
        rewrite H1 in H2; inversion H2; subst
    end.
    repeat match goal with
           | H : _ ?cr = dict_get _ _ JNull |- _ => rewrite <- H; clear H
           end.
    auto.
  - (* get_verification *)
    apply signed_call_of_prepare_get in H.
    destruct H as (c & -> & Hd & Hb & Hh & Hs).
    cbn [call_of signed_body_text]. rewrite Hh. auto.
  - (* get_documents *)
    apply signed_call_of_prepare_get in H.
    destruct H as (c & -> & Hd & Hb & Hh & Hs).
    cbn [call_of signed_body_text]. rewrite Hh. auto.
  - (* update_verification_state *)
    unfold update_verification_state_prepare in H. inv_request.
    cbn [call_of date_str headers signature signed_body_text body_sent].
    unfold credential.
    match goal with H : dict_get _ "credentials" _ = JObj _ |- _ =>
      rewrite H end.
    match goal with
    | H1 : generate_signature _ _ _ _ _ = Ok ?a,
      H2 : generate_signature _ _ _ _ _ = Ok ?b |- _ =>
        rewrite H1 in H2; inversion H2; subst
    end.
    repeat match goal with
           | H : _ ?cr = dict_get _ _ JNull |- _ => rewrite <- H; clear H
           end.
    auto.
  - (* create_payment *)
    unfold create_payment_prepare in H. inv_request.
    cbn [call_of date_str headers signature signed_body_text body_sent].
    unfold credential.
    match goal with H : dict_get _ "credentials" _ = JObj _ |- _ =>
      rewrite H end.
    repeat match goal with
           | H : _ ?cr = dict_get _ _ JNull |- _ => rewrite <- H; clear H
           end.
    auto.
  - (* get_payment *)
    apply signed_call_of_prepare_get in H.
    destruct H as (c & -> & Hd & Hb & Hh & Hs).
    cbn [call_of signed_body_text]. rewrite Hh. auto.
Qed.

Lemma signed_call_headers_agree_with_signature_witness :
  exists p,
    prepare_route plain_runtime Sample.now Sample.timestamp
                  (RGetPayment "P1") Sample.get_request = Proceed p
    /\ date_str (call_of p) = get_iso_date Sample.now
    /\ headers_without_content_type (headers (call_of p))
       = [ ("X-Date", JStr (date_str (call_of p)));
           ("X-Login", credential Sample.get_request "login");
           ("X-Trans-Key", credential Sample.get_request "transaction_key");
           ("Authorization",
            JStr ("V2-HMAC-SHA256, Signature: "
                  +++ signature (call_of p))) ]
    /\ generate_signature plain_runtime
         (credential Sample.get_request "login")
         (credential Sample.get_request "secret_key")
         (date_str (call_of p)) (signed_body_text p)
       = Ok (signature (call_of p)).
Proof.
  eexists. split; [vm_compute; reflexivity|].
  apply (signed_call_headers_agree_with_signature
           plain_runtime Sample.now Sample.timestamp (RGetPayment "P1")
           Sample.get_request _ eq_refl).
  vm_compute. reflexivity.
Defined.

(** X3.  create_payout signs in its own way.  When it goes on to call
    the provider, the headers are exactly [Content-Type], [X-Date] (the
    RFC 1123 date), [X-Login], [X-Trans-Key] and [payload-signature];
    there is no [Authorization]; and the payload signature is the
    HMAC-SHA256, under the caller's secret, of the serialized body
    alone, without identity or timestamp.  The body carries the login
    and, as [pass], the transaction key. *)
Theorem payout_call_signs_the_body_alone :
  forall (timestamp : string) (data : json) (p : pending),
    create_payout_prepare timestamp data = Proceed p ->
    exists secret,
      credential data "secret_key" = JStr secret
      /\ signature (call_of p)
         = HMAC.hexdigest (encode_utf8 secret)
                          (encode_utf8 (json_dumps (body_sent (call_of p))))
      /\ headers (call_of p)
         = [ ("Content-Type", JStr "application/json");
             ("X-Date", JStr timestamp);
             ("X-Login", credential data "login");
             ("X-Trans-Key", credential data "transaction_key");
             ("payload-signature", JStr (signature (call_of p))) ]
      /\ lookup "Authorization" (headers (call_of p)) = None
      /\ at_path ["login"] (body_sent (call_of p))
         = Some (credential data "login")
      /\ at_path ["pass"] (body_sent (call_of p))
         = Some (credential data "transaction_key").
Proof.
  intros timestamp data p H.
  unfold create_payout_prepare in H. inv_request.
  match goal with H : py_encode _ = Ok _ |- _ =>
    unfold py_encode in H;
    destruct (secret_key _) as [ | | | |secret| | ] eqn:S;
    try discriminate H; injection H as H; subst end.
  match goal with H : create_payout_body _ _ ?pd = Ok _ |- _ =>
    unfold create_payout_body in H; destruct pd; try discriminate H;
    cbn [bound_get bind] in H; cbv zeta in H; injection H as H; subst end.
  exists secret.
  cbn [call_of signature headers body_sent at_path].
  unfold credential.
  match goal with H : dict_get _ "credentials" _ = JObj _ |- _ =>
    rewrite H end.
  repeat match goal with
         | H : _ ?cr = dict_get _ _ JNull |- _ => rewrite <- H; clear H
         end.
  rewrite ?S.
  rewrite !lookup_set_if_present_other by literal_neq.
  repeat split.
Qed.

Lemma payout_call_signs_the_body_alone_witness :
  exists p secret,
    create_payout_prepare Sample.timestamp Sample.payout_request = Proceed p
    /\ credential Sample.payout_request "secret_key" = JStr secret
    /\ signature (call_of p)
       = HMAC.hexdigest (encode_utf8 secret)
                        (encode_utf8 (json_dumps (body_sent (call_of p))))
    /\ lookup "Authorization" (headers (call_of p)) = None.
Proof.
  eexists.
  destruct (payout_call_signs_the_body_alone
              Sample.timestamp Sample.payout_request _
              ltac:(vm_compute; reflexivity))
    as (secret & Hs & Hsig & _ & Hauth & _).
  exists secret. repeat split; assumption.
Defined.

(** ** Composition of a payment *)

Lemma remove_char_chars (c : ascii) (s : string) :
  list_ascii_of_string (remove_char c s)
  = filter (fun x => negb (Ascii.eqb x c)) (list_ascii_of_string s).
Proof. unfold remove_char. apply list_ascii_of_string_of_list_ascii. Qed.

Lemma filter_filter {A : Type} (p q : A -> bool) (l : list A) :
  filter p (filter q l) = filter (fun x => q x && p x) l.
Proof.
  induction l as [|x l IH]; simpl; [reflexivity|].
  destruct (q x); simpl; [destruct (p x)|]; now rewrite IH.
Qed.

Lemma filter_all {A : Type} (p : A -> bool) (l : list A) :
  (forall x, In x l -> p x = true) -> filter p l = l.
Proof.
  induction l as [|x l IH]; simpl; intros H; [reflexivity|].
  rewrite (H x (or_introl eq_refl)). f_equal. apply IH. auto.
Qed.

Lemma sanitized_chars (s : string) :
  list_ascii_of_string (remove_char "-" (remove_char " " s))
  = filter (fun x => negb (is_separator x)) (list_ascii_of_string s).
Proof.
  rewrite !remove_char_chars, filter_filter.
  apply filter_ext. intros x. unfold is_separator.
  now rewrite negb_orb.
Qed.

(** X5.  On the raw-card path the card number is sent with its spaces
    and dashes stripped and nothing else changed: the number in the
    body has no space and no dash, it is the input with exactly those
    characters dropped (so its digits are the input's, in order), and
    an input without them goes out as it came.  The number was a
    string: with any other value the route raises before it gets here. *)
Theorem raw_card_number_is_sanitized :
  forall (rt : runtime) (cd card : dict),
    truthy (dict_get cd "token" JNull) = false ->
    create_payment_card rt (JObj cd) = Ok card ->
    exists s s',
      dict_get cd "number" (JStr "") = JStr s
      /\ lookup "number" card = Some (JStr s')
      /\ list_ascii_of_string s'
         = filter (fun x => negb (is_separator x)) (list_ascii_of_string s)
      /\ (forall x, In x (list_ascii_of_string s') -> is_separator x = false)
      /\ filter is_digit (list_ascii_of_string s')
         = filter is_digit (list_ascii_of_string s)
      /\ ((forall x, In x (list_ascii_of_string s) -> is_separator x = false)
          -> s' = s).
Proof.
  intros rt cd card Htok H.
  unfold create_payment_card in H. cbn [bound_get bind] in H.
  rewrite Htok in H. cbv zeta in H.
  do 4 inv_bind H. inv_ok H.
  destruct (dict_get cd "number" (JStr "")) as [ | | | |s| | ];
    try discriminate E.
  cbn in E. inv_ok E. cbn in E0. inv_ok E0.
  exists s, (remove_char "-" (remove_char " " s)).
  split; [reflexivity|]. split; [reflexivity|].
  split; [apply sanitized_chars|].
  split; [|split].
  - intros x Hx. rewrite sanitized_chars in Hx.
    apply filter_In in Hx. destruct Hx as [_ Hx].
    now apply negb_true_iff in Hx.
  - rewrite sanitized_chars, filter_filter.
    apply filter_ext. intros x. unfold is_separator, is_digit.
    destruct (Ascii.eqb_spec x " "%char) as [->|]; [reflexivity|].
    destruct (Ascii.eqb_spec x "-"%char) as [->|]; reflexivity.
  - intros Hs.
    rewrite <- (string_of_list_ascii_of_string
                  (remove_char "-" (remove_char " " s))).
    rewrite sanitized_chars, filter_all.
    + apply string_of_list_ascii_of_string.
    + intros x Hx. now rewrite (Hs x Hx).
Qed.

Lemma raw_card_number_is_sanitized_witness :
  exists card s s',
    create_payment_card plain_runtime
      (JObj [("number", JStr "4111 1111-1111 1111"); ("cvv", JStr "123")])
    = Ok card
    /\ dict_get [("number", JStr "4111 1111-1111 1111"); ("cvv", JStr "123")]
                "number" (JStr "") = JStr s
    /\ lookup "number" card = Some (JStr s')
    /\ (forall x, In x (list_ascii_of_string s') -> is_separator x = false).
Proof.
  eexists.
  destruct (raw_card_number_is_sanitized
              plain_runtime
              [("number", JStr "4111 1111-1111 1111"); ("cvv", JStr "123")]
              _ eq_refl ltac:(vm_compute; reflexivity))
    as (s & s' & Hs & Hn & _ & Hsep & _).
  exists s, s'. repeat split; assumption.
Defined.

Lemma card_number_that_is_not_a_string_raises (rt : runtime) (cd : dict)
    (n : Z) :
  truthy (dict_get cd "token" JNull) = false ->
  dict_get cd "number" (JStr "") = JInt n ->
  create_payment_card rt (JObj cd) = Raise (AttributeError (JInt n) "replace").
Proof.
  intros Htok Hn. unfold create_payment_card. cbn [bound_get bind].
  rewrite Htok, Hn. reflexivity.
Qed.

Lemma payment_body_card (rt : runtime) (d body : dict) :
  create_payment_body rt (JObj d) = Ok body ->
  lookup "card" body
  = if is_str (dict_get d "payment_method_id" (JStr "IO")) "CARD"
       && truthy (dict_get d "card" JNull)
    then match create_payment_card rt (dict_get d "card" JNull) with
         | Ok card => Some (JObj card)
         | Raise _ => None
         end
    else None.
Proof.
  intros H. unfold create_payment_body in H. cbn [bound_get bind] in H.
  cbv zeta in H. inv_bind H. inv_ok H.
  rewrite lookup_dict_set_other by literal_neq.
  rewrite lookup_set_if_present_other by literal_neq.
  destruct (is_str _ "CARD" && truthy _).
  - inv_bind E. inv_ok E. rewrite E0. apply lookup_dict_set_same.
  - inv_ok E. now rewrite lookup_set_if_present_other by literal_neq.
Qed.

(** X6.  The card object and the endpoint go together.  A payment that
    reaches the provider is posted to [/secure_payments] exactly when
    its method is CARD and its card data has a number, no token and no
    card id; it then carries a raw-card object (with [number], without
    [token]).  With a token in the card data the body's card object is
    exactly [{token, capture}], whatever number or CVV came along, and
    the endpoint is [/payments].  When the method is not CARD, or there
    is no card data, the body has no [card] key and the endpoint is
    [/payments]. *)
Theorem card_object_and_endpoint_go_together :
  forall (rt : runtime) (now : datetime) (data : json) (c : call)
         (payment_data payment_method_id use_sandbox : json) (secure : bool)
         (body_json message_for_signature : string),
    create_payment_prepare rt now data
    = Proceed (PCreatePayment c payment_data payment_method_id use_sandbox
                              secure body_json message_for_signature) ->
    exists d body,
      payment_data = JObj d
      /\ body_sent c = JObj body
      /\ url c = (if truthy use_sandbox then "https://sandbox.dlocal.com"
                  else "https://api.dlocal.com")
                 +++ (if secure then "/secure_payments" else "/payments")
      /\ (is_str (dict_get d "payment_method_id" (JStr "IO")) "CARD"
          && truthy (dict_get d "card" JNull) = false ->
          secure = false /\ lookup "card" body = None)
      /\ (forall cd,
             is_str (dict_get d "payment_method_id" (JStr "IO")) "CARD"
             = true ->
             dict_get d "card" JNull = JObj cd ->
             truthy (JObj cd) = true ->
             (secure = truthy (dict_get cd "number" JNull)
                       && negb (truthy (dict_get cd "token" JNull))
                       && negb (truthy (dict_get cd "card_id" JNull)))
             /\ (truthy (dict_get cd "token" JNull) = true ->
                 secure = false
                 /\ lookup "card" body
                    = Some (JObj [ ("token", dict_get cd "token" JNull);
                                   ("capture",
                                    capture_flag
                                      (dict_get cd "capture" (JStr "true")))
                                 ]))
             /\ (secure = true ->
                 exists card number,
                   lookup "card" body = Some (JObj card)
                   /\ lookup "number" card = Some (JStr number)
                   /\ lookup "token" card = None)).
Proof.
  intros rt now data c payment_data payment_method_id use_sandbox secure
         body_json message_for_signature H.
  unfold create_payment_prepare in H. inv_request.
  match goal with H : create_payment_body _ ?pd = Ok _ |- _ =>
    destruct pd as [ | | | | | |d] eqn:PD; try discriminate H;
    rename H into Hbody end.
  match goal with H : use_secure_endpoint _ = Ok _ |- _ =>
    rename H into Hsec end.
  pose proof (payment_body_card rt d _ Hbody) as Hcard.
  unfold use_secure_endpoint in Hsec. cbn [bound_get bind] in Hsec.
  do 2 eexists. split; [reflexivity|]. split; [reflexivity|].
  cbn [url]. split; [destruct secure; reflexivity|].
  split.
  - intros Hno. rewrite Hno in Hsec, Hcard. inv_ok Hsec. auto.
  - intros cd Hm Hc Ht. rewrite Hm, Hc, Ht in Hsec, Hcard.
    cbn [andb bound_get bind] in Hsec, Hcard. inv_ok Hsec.
    split; [reflexivity|]. split.
    + intros Htok. rewrite Htok. split; [now rewrite andb_false_r|].
      rewrite Hcard. unfold create_payment_card. cbn [bound_get bind].
      now rewrite Htok.
    + intros Hs.
      apply andb_true_iff in Hs. destruct Hs as [Hs _].
      apply andb_true_iff in Hs. destruct Hs as [Hnum Htok].
      apply negb_true_iff in Htok.
      destruct (create_payment_card rt (JObj cd)) as [card|e] eqn:C.
      * destruct (raw_card_number_is_sanitized rt cd card Htok C)
          as (s & s' & _ & Hn & _).
        exists card, s'. split; [exact Hcard|]. split; [exact Hn|].
        unfold create_payment_card in C. cbn [bound_get bind] in C.
        rewrite Htok in C. cbv zeta in C. do 4 inv_bind C. now inv_ok C.
      * exfalso.
        unfold create_payment_body in Hbody. cbn [bound_get bind] in Hbody.
        cbv zeta in Hbody. rewrite Hm, Hc, Ht in Hbody.
        cbn [andb] in Hbody. rewrite C in Hbody. discriminate Hbody.
Qed.

Lemma card_object_and_endpoint_go_together_witness :
  exists c pd pm us secure bj msg d body,
    create_payment_prepare plain_runtime Sample.now
                           Sample.card_payment_request
    = Proceed (PCreatePayment c pd pm us secure bj msg)
    /\ pd = JObj d
    /\ body_sent c = JObj body
    /\ url c = (if truthy us then "https://sandbox.dlocal.com"
                else "https://api.dlocal.com")
               +++ (if secure then "/secure_payments" else "/payments").
Proof.
  do 7 eexists.
  refine (let H := _ in
          match card_object_and_endpoint_go_together
                  plain_runtime Sample.now Sample.card_payment_request
                  _ _ _ _ _ _ _ H with
          | ex_intro _ d (ex_intro _ body (conj H1 (conj H2 (conj H3 _)))) =>
              ex_intro _ d (ex_intro _ body
                              (conj H (conj H1 (conj H2 H3))))
          end).
  vm_compute. reflexivity.
Defined.

(** ** Composition of a verification *)

Lemma lookup_set_if_present_same (get : string -> json -> json)
    (src key : string) (t : dict) :
  truthy (get src JNull) = true ->
  lookup key (set_if_present get src key t) = Some (get src JNull).
Proof.
  intros H. unfold set_if_present. rewrite H. apply lookup_dict_set_same.
Qed.

Ltac each_in H :=
  repeat (destruct H as [H|H];
          [injection H as <- <- <-; reflexivity|]);
  destruct H.

(** X7.  What goes into a verification body comes out of it unchanged:
    every form field sits at its own place in the composed body with
    the value the form gave, and a field the form lacks is filled with
    its default ([TAX_ID] for the document type, [MALE] for the gender
    of a remitter, [true] for the consent, [false] for the two flags,
    the empty string otherwise).  A beneficiary's bank object always
    has the account number, and the code, branch and account type when
    they are given. *)
Theorem verification_body_keeps_the_form_values :
  forall d : dict,
    exists remitter beneficiary,
      create_remitter_body (JObj d) = Ok remitter
      /\ create_beneficiary_body (JObj d) = Ok beneficiary
      /\ at_path ["attributes"; "client"; "type"] remitter
         = Some (JStr "REMITTER")
      /\ at_path ["attributes"; "client"; "type"] beneficiary
         = Some (JStr "BENEFICIARY")
      /\ (forall src path default,
             In (src, path, default) (client_fields ++ remitter_only_fields)
             -> at_path path remitter = Some (dict_get d src default))
      /\ (forall src path default,
             In (src, path, default) client_fields ->
             at_path path beneficiary = Some (dict_get d src default))
      /\ at_path ["attributes"; "client"; "bank"; "account_number"]
                 beneficiary
         = Some (dict_get d "bank_account_number" (JStr ""))
      /\ (forall src key,
             In (src, key) bank_fields ->
             truthy (dict_get d src JNull) = true ->
             at_path ["attributes"; "client"; "bank"; key] beneficiary
             = Some (dict_get d src JNull)).
Proof.
  intros d. do 2 eexists.
  split; [reflexivity|]. split; [reflexivity|].
  split; [reflexivity|]. split; [reflexivity|].
  split; [|split; [|split]].
  - intros src path default H. cbn [app client_fields remitter_only_fields] in H.
    each_in H.
  - intros src path default H. cbn [client_fields] in H. each_in H.
  - cbn [at_path lookup String.eqb Ascii.eqb Bool.eqb].
    unfold beneficiary_bank.
    now rewrite !lookup_set_if_present_other by literal_neq.
  - intros src key H Ht.
    cbn [at_path lookup String.eqb Ascii.eqb Bool.eqb].
    unfold beneficiary_bank.
    destruct H as [H|[H|[H|[]]]]; injection H as <- <-.
    + rewrite !lookup_set_if_present_other by literal_neq.
      now rewrite lookup_set_if_present_same.
    + rewrite lookup_set_if_present_other by literal_neq.
      now rewrite lookup_set_if_present_same.
    + now rewrite lookup_set_if_present_same.
Qed.

Lemma verification_body_keeps_the_form_values_witness :
  exists remitter,
    create_remitter_body (JObj [("first_name", JStr "Ann")]) = Ok remitter
    /\ at_path ["attributes"; "client"; "first_name"] remitter
       = Some (JStr "Ann")
    /\ at_path ["attributes"; "client"; "gender"] remitter
       = Some (JStr "MALE").
Proof.
  destruct (verification_body_keeps_the_form_values
              [("first_name", JStr "Ann")])
    as (remitter & beneficiary & Hr & _ & _ & _ & Hf & _).
  exists remitter. split; [exact Hr|]. split.
  - apply (Hf "first_name" ["attributes"; "client"; "first_name"] (JStr "")).
    cbn. auto.
  - apply (Hf "gender" ["attributes"; "client"; "gender"] (JStr "MALE")).
    cbn. auto 25.
Defined.

Lemma form_that_is_not_an_object_raises (v : json) :
  (forall d, v <> JObj d) ->
  create_remitter_body v = Raise (AttributeError v "get")
  /\ create_beneficiary_body v = Raise (AttributeError v "get").
Proof.
  intros H. destruct v; try (split; reflexivity).
  exfalso. now apply (H fields).
Qed.

(** ** How a table evolves *)

Section Evolves.

Context {A F K : Type} (frozen : A -> F) (key : A -> K) (key_of : F -> K).
Hypothesis key_frozen : forall r, key r = key_of (frozen r).

Lemma map_key_of_frozen (rows rows' : list A) :
  map frozen rows' = map frozen rows -> map key rows' = map key rows.
Proof.
  intros H.
  assert (E : forall l, map key l = map key_of (map frozen l)).
  { intros l. rewrite map_map. apply map_ext. exact key_frozen. }
  now rewrite !E, H.
Qed.

Lemma evolves_refl (rows : list A) : evolves frozen key rows rows.
Proof.
  exists rows, []. rewrite app_nil_r.
  split; [reflexivity|]. split; [reflexivity|].
  split; [intros k []|constructor].
Qed.

Lemma evolves_set_row (rows : list A) (i : nat) (old new : A) :
  nth_error rows i = Some old ->
  frozen new = frozen old ->
  evolves frozen key rows (set_row i new rows).
Proof.
  intros Hold Hf. exists (set_row i new rows), []. rewrite app_nil_r.
  split; [reflexivity|]. split; [|split; [intros k []|constructor]].
  revert i Hold. induction rows as [|r rows IH]; intros [|i] Hold; simpl;
    try discriminate; auto.
  - simpl in Hold. inversion Hold; subst. now rewrite Hf.
  - simpl in Hold. now rewrite (IH i Hold).
Qed.

Lemma evolves_app_new (has_key : A -> bool) (rows : list A) (new : A) :
  find_row has_key rows = None ->
  (forall r, key r = key new -> has_key r = true) ->
  evolves frozen key rows (rows ++ [new]).
Proof.
  intros Hnone Hk. exists rows, [new].
  split; [reflexivity|]. split; [reflexivity|]. split.
  - intros k [<-|[]] Hin. apply in_map_iff in Hin.
    destruct Hin as (r & Hr & Hin).
    specialize (Hk r Hr).
    rewrite (find_row_none _ _ Hnone r Hin) in Hk. discriminate.
  - constructor; [intros []|constructor].
Qed.

Lemma evolves_trans (rows rows' rows'' : list A) :
  evolves frozen key rows rows' -> evolves frozen key rows' rows'' ->
  evolves frozen key rows rows''.
Proof.
  intros (k1 & a1 & -> & F1 & N1 & D1) (k2 & a2 & -> & F2 & N2 & D2).
  rewrite map_app in F2.
  assert (L : List.length k2 = (List.length k1 + List.length a1)%nat).
  { rewrite <- length_app, <- (length_map frozen (k1 ++ a1)), map_app, <- F2.
    now rewrite length_map. }
  exists (firstn (List.length k1) k2), (skipn (List.length k1) k2 ++ a2).
  assert (Fk : map frozen (firstn (List.length k1) k2) = map frozen k1
               /\ map frozen (skipn (List.length k1) k2) = map frozen a1).
  { rewrite <- firstn_map, <- skipn_map, F2.
    rewrite <- (length_map frozen k1).
    rewrite firstn_app, skipn_app, Nat.sub_diag, firstn_all, skipn_all.
    simpl. now rewrite app_nil_r. }
  destruct Fk as [Fk Fs].
  apply map_key_of_frozen in Fs as Ks.
  pose proof (map_key_of_frozen _ _ F1) as K1.
  split; [now rewrite app_assoc, firstn_skipn|].
  split; [now rewrite Fk|].
  split.
  - intros k Hin. rewrite map_app in Hin. apply in_app_or in Hin.
    destruct Hin as [Hin|Hin].
    + rewrite Ks in Hin. now apply N1.
    + intros Hr. apply (N2 k Hin). rewrite map_app. apply in_or_app.
      left. now rewrite K1.
  - rewrite map_app, Ks.
    apply NoDup_app; auto. intros k H1 H2.
    apply (N2 k H2). rewrite map_app. apply in_or_app. now right.
Qed.

Lemma evolves_unique (rows rows' : list A) :
  evolves frozen key rows rows' ->
  NoDup (map key rows) -> NoDup (map key rows').
Proof.
  intros (kept & added & -> & Fk & N & D) H.
  rewrite map_app, (map_key_of_frozen _ _ Fk).
  apply NoDup_app; auto. intros k H1 H2. now apply (N k H2).
Qed.

Lemma evolves_keeps_rows (rows rows' : list A) (i : nat) (r : A) :
  evolves frozen key rows rows' ->
  nth_error rows i = Some r ->
  exists r', nth_error rows' i = Some r' /\ frozen r' = frozen r.
Proof.
  intros (kept & added & -> & Fk & _) H.
  assert (M : nth_error (map frozen kept) i = Some (frozen r)).
  { rewrite Fk. now apply map_nth_error. }
  rewrite nth_error_map in M.
  destruct (nth_error kept i) as [r'|] eqn:E; [|discriminate].
  exists r'. split.
  - rewrite nth_error_app1; [exact E|]. apply nth_error_Some. congruence.
  - simpl in M. now inversion M.
Qed.

End Evolves.

Lemma verifications_evolve_refl rows : verifications_evolve rows rows.
Proof. apply evolves_refl. Qed.
Lemma documents_evolve_refl rows : documents_evolve rows rows.
Proof. apply evolves_refl. Qed.
Lemma payments_evolve_refl rows : payments_evolve rows rows.
Proof. apply evolves_refl. Qed.
Lemma payouts_evolve_refl rows : payouts_evolve rows rows.
Proof. apply evolves_refl. Qed.

Lemma ledger_evolves_refl (db : database) : ledger_evolves db db.
Proof.
  repeat split; apply evolves_refl.
Qed.

Lemma save_verification_evolves (form_data client_type use_sandbox : json)
    (stored_at : datetime) (api_response : json) (result : dict)
    (f : db_fault) (db : database) (result' : dict) (db' : database) :
  save_verification form_data client_type use_sandbox stored_at api_response
                    result f db = Ok (result', db') ->
  verifications_evolve (verifications db) (verifications db').
Proof.
  unfold save_verification. intros H.
  do 4 inv_bind H. apply first_ok in E2. subst.
  inv_bind H. inv_bind H. inv_ok H. cbn [verifications with_verifications].
  destruct (find_row _ _) as [[j old]|] eqn:Fd.
  - inv_bind E2. inv_ok E2. cbn [snd].
    apply find_row_some in Fd. destruct Fd as [Fd _].
    eapply evolves_set_row; [exact Fd|].
    now destruct (truthy a1).
  - do 5 inv_bind E2. inv_ok E2. cbn [snd].
    eapply evolves_app_new; [exact Fd|].
    intros r Hr. unfold has_verification_id. rewrite Hr.
    apply json_eqb_refl.
Qed.

Lemma save_payment_evolves (payment_data payment_method_id use_sandbox : json)
    (stored_at : datetime) (api_response : json) (result : dict)
    (f : db_fault) (db : database) (result' : dict) (db' : database) :
  save_payment payment_data payment_method_id use_sandbox stored_at
               api_response result f db = Ok (result', db') ->
  payments_evolve (payments db) (payments db').
Proof.
  unfold save_payment. intros H.
  do 2 inv_bind H. apply first_ok in E0. subst.
  inv_bind H. inv_bind H. inv_ok H. cbn [payments with_payments].
  destruct (find_row _ _) as [[j old]|] eqn:Fd.
  - do 3 inv_bind E0. inv_ok E0. cbn [snd].
    apply find_row_some in Fd. destruct Fd as [Fd _].
    eapply evolves_set_row; [exact Fd | reflexivity].
  - do 2 inv_bind E0. inv_ok E0. cbn [snd].
    eapply evolves_app_new; [exact Fd|].
    intros r Hr. unfold has_payment_id. rewrite Hr.
    apply json_eqb_refl.
Qed.

Lemma save_payout_evolves (rt : runtime)
    (payout_data use_sandbox external_id : json)
    (stored_at : datetime) (response_json : json) (result : dict)
    (f : db_fault) (db : database) (result' : dict) (db' : database) :
  save_payout rt payout_data use_sandbox external_id stored_at response_json
              result f db = Ok (result', db') ->
  payouts_evolve (payouts db) (payouts db').
Proof.
  unfold save_payout. cbv zeta. intros H.
  inv_bind H. apply first_ok in E. subst.
  inv_bind H. inv_bind H. inv_ok H. cbn [payouts with_payouts].
  destruct (find_row _ _) as [[j old]|] eqn:Fd.
  - inv_ok E. cbn [snd].
    apply find_row_some in Fd. destruct Fd as [Fd _].
    eapply evolves_set_row; [exact Fd|].
    destruct (nonempty_dict response_json),
             (truthy (api_payout_id_of response_json)); reflexivity.
  - do 2 inv_bind E. inv_ok E. cbn [snd].
    eapply evolves_app_new; [exact Fd|].
    intros r Hr. unfold has_external_id. rewrite Hr.
    apply json_eqb_refl.
Qed.

Lemma save_documents_evolves (verification_id : string)
    (stored_at : datetime) (items : list json) (f : db_fault)
    (docs docs' : list Document.t) :
  save_documents verification_id stored_at items f docs = Ok docs' ->
  documents_evolve docs docs'.
Proof.
  revert docs. induction items as [|item items IH]; intros docs H.
  - cbn in H. inv_ok H. apply evolves_refl.
  - cbn [save_documents] in H. do 2 inv_bind H.
    apply IH in H.
    eapply (evolves_trans document_frozen document_key document_key_of);
      [reflexivity| |exact H].
    destruct (truthy a).
    + inv_bind E0. apply first_ok in E1. subst.
      destruct (find_row _ _) as [[j old]|] eqn:Fd.
      * do 2 inv_bind E0. inv_ok E0.
        apply find_row_some in Fd. destruct Fd as [Fd _].
        eapply evolves_set_row; [exact Fd | reflexivity].
      * do 2 inv_bind E0. inv_ok E0.
        eapply evolves_app_new; [exact Fd|].
        intros r Hr. unfold is_document, document_key in *.
        cbn in Hr. injection Hr as -> ->.
        now rewrite !json_eqb_refl.
    + inv_ok E0. apply evolves_refl.
Qed.

Lemma respond_evolves (rt : runtime) (p : pending) (stored_at : datetime)
    (net : net_result) (f : db_fault) (db : database) :
  ledger_evolves db (ledger_after (respond rt p stored_at net f db) db).
Proof.
  destruct (respond rt p stored_at net f db) as [err|result db'|e] eqn:H;
    cbn [ledger_after]; try apply ledger_evolves_refl.
  destruct net as [response|msg].
  2:{ destruct p; cbn in H; inv_ok H; apply ledger_evolves_refl. }
  destruct p; unfold_respond H; crunch0; try apply ledger_evolves_refl.
  - (* create_verification *)
    pose proof (save_verification_frame _ _ _ _ _ _ _ _ _ _ H)
      as (Hd & Hp & Ho).
    apply save_verification_evolves in H.
    unfold ledger_evolves. rewrite Hd, Hp, Ho.
    repeat split; try apply evolves_refl. exact H.
  - (* get_verification *)
    apply first_ok in E. symmetry in E. apply find_row_some in E.
    destruct E as [E _].
    repeat split; try apply evolves_refl.
    cbn [verifications with_verifications].
    eapply evolves_set_row; [exact E|]. now destruct (truthy a2).
  - (* get_documents *)
    apply save_documents_evolves in E1.
    repeat split; try apply evolves_refl. exact E1.
  - (* upload_document *)
    apply first_ok in E. symmetry in E. apply find_row_some in E.
    destruct E as [E _].
    repeat split; try apply evolves_refl.
    cbn [documents with_documents].
    eapply evolves_set_row; [exact E | reflexivity].
  - (* update_verification_state *)
    apply first_ok in E. symmetry in E. apply find_row_some in E.
    destruct E as [E _].
    repeat split; try apply evolves_refl.
    cbn [verifications with_verifications].
    eapply evolves_set_row; [exact E | reflexivity].
  - (* create_payment *)
    cbn [fst snd].
    pose proof (save_payment_frame _ _ _ _ _ _ _ _ _ _ E0) as (Hv & Hd & Ho).
    apply save_payment_evolves in E0.
    unfold ledger_evolves. rewrite Hv, Hd, Ho.
    repeat split; try apply evolves_refl. exact E0.
  - (* get_payment *)
    apply first_ok in E. symmetry in E. apply find_row_some in E.
    destruct E as [E _].
    repeat split; try apply evolves_refl.
    cbn [payments with_payments].
    eapply evolves_set_row; [exact E | reflexivity].
  - (* create_payout *)
    pose proof (save_payout_frame _ _ _ _ _ _ _ _ _ _ _ Heqr)
      as (Hv & Hd & Hp).
    apply save_payout_evolves in Heqr.
    unfold ledger_evolves. rewrite Hv, Hd, Hp.
    repeat split; try apply evolves_refl. exact Heqr.
Qed.

(** X8.  No route ever gives a key a second row.  If every verification
    id, every (verification id, document id) pair, every payment id and
    every external id of the ledger belongs to one row only, the same
    holds after any route has dealt with any answer of the provider,
    whatever the database does. *)
Theorem keys_stay_unique :
  forall (rt : runtime) (p : pending) (stored_at : datetime)
         (net : net_result) (f : db_fault) (db : database),
    unique_keys db ->
    unique_keys (ledger_after (respond rt p stored_at net f db) db).
Proof.
  intros rt p stored_at net f db (Hv & Hd & Hp & Ho).
  destruct (respond_evolves rt p stored_at net f db) as (Ev & Ed & Ep & Eo).
  split; [|split; [|split]].
  - eapply (evolves_unique verification_frozen _ verification_key_of);
      [reflexivity | exact Ev | exact Hv].
  - eapply (evolves_unique document_frozen _ document_key_of);
      [reflexivity | exact Ed | exact Hd].
  - eapply (evolves_unique payment_frozen _ payment_key_of);
      [reflexivity | exact Ep | exact Hp].
  - eapply (evolves_unique payout_frozen _ payout_key_of);
      [reflexivity | exact Eo | exact Ho].
Qed.

(** X9.  The outbound routes never delete or move a row, and never
    rewrite what was fixed when it was created.  Each row of the ledger
    is at the same place afterwards with the same local id, key,
    environment and creation time, and the same descriptive columns
    (names, document number and reference of a verification; order,
    amount, currency, country, method and the two user ids of a
    payment; amount, currency, country, bank account, user ids and
    purpose of a payout): only statuses, [user_id], [payout_id], the
    document type and the raw response can change. *)
Theorem rows_keep_their_place_and_frozen_columns :
  forall (rt : runtime) (p : pending) (stored_at : datetime)
         (net : net_result) (f : db_fault) (db : database) (i : nat),
    let db' := ledger_after (respond rt p stored_at net f db) db in
    (forall v, nth_error (verifications db) i = Some v ->
               exists v', nth_error (verifications db') i = Some v'
                          /\ verification_frozen v' = verification_frozen v)
    /\ (forall d, nth_error (documents db) i = Some d ->
                  exists d', nth_error (documents db') i = Some d'
                             /\ document_frozen d' = document_frozen d)
    /\ (forall x, nth_error (payments db) i = Some x ->
                  exists x', nth_error (payments db') i = Some x'
                             /\ payment_frozen x' = payment_frozen x)
    /\ (forall x, nth_error (payouts db) i = Some x ->
                  exists x', nth_error (payouts db') i = Some x'
                             /\ payout_frozen x' = payout_frozen x).
Proof.
  intros rt p stored_at net f db i db'.
  destruct (respond_evolves rt p stored_at net f db) as (Ev & Ed & Ep & Eo).
  split; [|split; [|split]]; intros r H.
  - exact (evolves_keeps_rows _ _ _ _ i r Ev H).
  - exact (evolves_keeps_rows _ _ _ _ i r Ed H).
  - exact (evolves_keeps_rows _ _ _ _ i r Ep H).
  - exact (evolves_keeps_rows _ _ _ _ i r Eo H).
Qed.

Lemma keys_stay_unique_witness :
  unique_keys Sample.db_with_verification
  /\ unique_keys
       (ledger_after
          (respond plain_runtime
                   (PCreateVerification Sample.signed_call
                      (JObj [("first_name", JStr "Bob")]) (JStr "REMITTER")
                      (JBool true))
                   Sample.now
                   (NetResponse (Sample.answer 200 (JObj [("id", JStr "V1")])))
                   no_fault Sample.db_with_verification)
          Sample.db_with_verification).
Proof.
  assert (U : unique_keys Sample.db_with_verification).
  { repeat split; cbn; repeat constructor; intros []. }
  split; [exact U|].
  apply (keys_stay_unique
           plain_runtime
           (PCreateVerification Sample.signed_call
              (JObj [("first_name", JStr "Bob")]) (JStr "REMITTER")
              (JBool true))
           Sample.now
           (NetResponse (Sample.answer 200 (JObj [("id", JStr "V1")])))
           no_fault Sample.db_with_verification U).
Defined.

Lemma rows_keep_their_place_and_frozen_columns_witness :
  exists v',
    nth_error
      (verifications
         (ledger_after
            (respond plain_runtime
                     (PGetVerification Sample.signed_call "V1") Sample.now
                     (NetResponse
                        (Sample.answer 200 (JObj [("status", JStr "REJECTED")])))
                     no_fault Sample.db_with_verification)
            Sample.db_with_verification)) 0
    = Some v'
    /\ verification_frozen v'
       = verification_frozen Sample.stored_verification.
Proof.
  apply (proj1 (rows_keep_their_place_and_frozen_columns
                  plain_runtime (PGetVerification Sample.signed_call "V1")
                  Sample.now
                  (NetResponse
                     (Sample.answer 200 (JObj [("status", JStr "REJECTED")])))
                  no_fault Sample.db_with_verification 0%nat)
               Sample.stored_verification eq_refl).
Defined.

(** ** What a route leaves alone *)

(** X10.  Each route writes one table only: the verifications for
    create_verification, get_verification and
    update_verification_state; the documents for get_documents and
    upload_document; the payments for create_payment and get_payment;
    the payouts for create_payout.  The other three tables come out as
    they went in. *)
Theorem route_writes_its_own_table_only :
  forall (rt : runtime) (p : pending) (stored_at : datetime)
         (net : net_result) (f : db_fault) (db : database),
    other_tables p (ledger_after (respond rt p stored_at net f db) db)
    = other_tables p db.
Proof.
  intros rt p stored_at net f db.
  destruct (respond rt p stored_at net f db) as [err|result db'|e] eqn:H;
    cbn [ledger_after]; try reflexivity.
  destruct net as [response|msg].
  2:{ destruct p; cbn in H; inv_ok H; reflexivity. }
  destruct p; unfold_respond H; crunch0; try reflexivity;
    cbn [other_tables fst snd].
  - apply save_verification_frame in H. destruct H as (-> & -> & ->).
    reflexivity.
  - apply save_payment_frame in E0.
    destruct E0 as (-> & -> & ->). reflexivity.
  - apply save_payout_frame in Heqr. destruct Heqr as (-> & -> & ->).
    reflexivity.
Qed.

(** X11.  get_verification, upload_document, update_verification_state
    and get_payment never add a row: the four tables keep their sizes
    whatever the answer.  And when the row they look for is not in the
    ledger and the query goes through, they return the envelope of the
    answer and the ledger exactly as it was, even for an answer whose
    body is not an object. *)
Theorem refresh_routes_create_nothing :
  forall (rt : runtime) (p : pending) (stored_at : datetime)
         (net : net_result) (f : db_fault) (db : database),
    refreshes_only p = true ->
    table_sizes (ledger_after (respond rt p stored_at net f db) db)
    = table_sizes db
    /\ (forall response,
           net = NetResponse response ->
           local_row_missing p db ->
           at_query f = None ->
           exists result,
             respond rt p stored_at net f db = Returned result db
             /\ lookup "success" result = Some (JBool (Response.ok response))
             /\ lookup "status_code" result
                = Some (JInt (Response.status_code response))
             /\ lookup "response" result = Some (parse_body response)).
Proof.
  intros rt p stored_at net f db Hp. split.
  - destruct (respond rt p stored_at net f db) as [err|result db'|e] eqn:H;
      cbn [ledger_after]; try reflexivity.
    destruct net as [response|msg].
    2:{ destruct p; cbn in H; inv_ok H; reflexivity. }
    destruct p; try discriminate Hp; unfold_respond H; crunch0;
      try reflexivity; unfold table_sizes;
      cbn [verifications documents payments payouts with_verifications
           with_documents with_payments];
      now rewrite set_row_length.
  - intros response -> Hmiss Hq.
    destruct p; try discriminate Hp; cbn [local_row_missing] in Hmiss;
      unfold respond, get_verification_respond, upload_document_respond,
             update_verification_state_respond, get_payment_respond;
      cbv zeta; unfold first; rewrite Hq, Hmiss; cbn [bind];
      destruct (Response.ok response) eqn:Hok; cbn [finish];
      eexists; (split; [reflexivity|]); cbn; rewrite ?Hok; auto.
Qed.

Lemma refresh_routes_create_nothing_witness :
  exists result,
    respond plain_runtime (PGetPayment Sample.signed_call "P1") Sample.now
            (NetResponse (Sample.answer 200 (JArr [JInt 1]))) no_fault
            Sample.db_with_verification
    = Returned result Sample.db_with_verification
    /\ lookup "success" result = Some (JBool true)
    /\ lookup "response" result = Some (JArr [JInt 1]).
Proof.
  destruct (proj2 (refresh_routes_create_nothing
                     plain_runtime (PGetPayment Sample.signed_call "P1")
                     Sample.now
                     (NetResponse (Sample.answer 200 (JArr [JInt 1])))
                     no_fault Sample.db_with_verification eq_refl)
                  _ eq_refl eq_refl eq_refl)
    as (result & H & Hs & _ & Hr).
  exists result. repeat split; assumption.
Defined.

(** ** Answers a route can live with *)


Lemma parse_body_unreadable (response : Response.t) :
  Response.text response = "" \/ Response.json response = None ->
  parse_body response = JObj []
  \/ parse_body response = JObj [("raw", JStr (Response.text response))].
Proof.
  unfold parse_body. intros [H|H].
  - rewrite H. now left.
  - rewrite H. destruct (String.eqb _ ""); auto.
Qed.

(** X13.  An answer whose body is empty or is not JSON never makes a
    route raise.  With a database that raises nothing, every route but
    create_payout returns the envelope, whose [response] is the empty
    object (empty body) or the text wrapped under [raw], and no row is
    added to any table. *)
Theorem unreadable_body_is_tolerated :
  forall (rt : runtime) (p : pending) (stored_at : datetime)
         (response : Response.t) (db : database),
    is_create_payout p = false ->
    Response.text response = "" \/ Response.json response = None ->
    exists result db',
      respond rt p stored_at (NetResponse response) no_fault db
      = Returned result db'
      /\ table_sizes db' = table_sizes db
      /\ lookup "response" result = Some (parse_body response)
      /\ (parse_body response = JObj []
          \/ parse_body response
             = JObj [("raw", JStr (Response.text response))]).
Proof.
  intros rt p stored_at response db Hp Hbody.
  apply parse_body_unreadable in Hbody.
  assert (Hsizes : forall A (i : nat) (x : A) rows,
             List.length (set_row i x rows) = List.length rows)
    by (intros; apply set_row_length).
  destruct p; try discriminate Hp;
    unfold respond, create_verification_respond, get_verification_respond,
           get_documents_respond, upload_document_respond,
           update_verification_state_respond, create_payment_respond,
           get_payment_respond, ok_with_id;
    cbv zeta; fold_parse_body_goal;
    change (dict_get (dict_set "request_url" (JStr (url c))
                        (handle_response response (headers c) (signature c)
                                         (date_str c) JNull))
                     "response" (JObj []))
      with (parse_body response);
    unfold first, commit, no_fault; cbn [at_query at_commit];
    destruct (Response.ok response);
    destruct Hbody as [Hb|Hb]; rewrite ?Hb;
    repeat match goal with
           | |- context [find_row ?q ?rows] =>
               destruct (find_row q rows) as [[? ?]|]
           end;
    cbn [py_get py_iter bind finish fst snd dict_get lookup String.eqb
         Ascii.eqb Bool.eqb truthy client_data_of save_documents];
    do 2 eexists; (split; [reflexivity|]);
    (split; [unfold table_sizes;
             cbn [verifications documents payments payouts
                  with_verifications with_documents with_payments];
             now rewrite ?Hsizes|]);
    (split; [unfold handle_response; cbn -[parse_body]; now rewrite ?Hb
            | auto]).
Qed.

Lemma unreadable_body_is_tolerated_witness :
  exists result db',
    respond plain_runtime (PGetVerification Sample.signed_call "V1")
            Sample.now
            (NetResponse (Response.mk 200 "<html>busy</html>" None [] []))
            no_fault Sample.db_with_verification
    = Returned result db'
    /\ table_sizes db' = table_sizes Sample.db_with_verification
    /\ lookup "response" result
       = Some (JObj [("raw", JStr "<html>busy</html>")]).
Proof.
  destruct (unreadable_body_is_tolerated
              plain_runtime (PGetVerification Sample.signed_call "V1")
              Sample.now (Response.mk 200 "<html>busy</html>" None [] [])
              Sample.db_with_verification eq_refl (or_intror eq_refl))
    as (result & db' & H & Hs & Hr & _).
  exists result, db'. repeat split; assumption.
Defined.

(** X14.  A successful answer whose JSON body is not an object (a list,
    a string, a number, null) is fatal to every route that reads it:
    the creating routes and get_documents raise AttributeError at once,
    the routes that refresh a row raise it exactly when the row is in
    the ledger, and otherwise return the envelope and leave the ledger
    alone.  (create_payout is the exception, see X12.) *)
Theorem answer_that_is_not_an_object_raises :
  forall (rt : runtime) (p : pending) (stored_at : datetime)
         (response : Response.t) (db : database),
    is_create_payout p = false ->
    Response.ok response = true ->
    is_object (parse_body response) = false ->
    (reads_answer p db = true ->
     respond rt p stored_at (NetResponse response) no_fault db
     = Raised (AttributeError (parse_body response) "get"))
    /\ (reads_answer p db = false ->
        exists result,
          respond rt p stored_at (NetResponse response) no_fault db
          = Returned result db).
Proof.
  intros rt p stored_at response db Hp Hok Hobj.
  destruct p; try discriminate Hp;
    unfold respond, create_verification_respond, get_verification_respond,
           get_documents_respond, upload_document_respond,
           update_verification_state_respond, create_payment_respond,
           get_payment_respond, ok_with_id, reads_answer, found;
    cbv zeta; fold_parse_body_goal;
    change (dict_get (dict_set "request_url" (JStr (url c))
                        (handle_response response (headers c) (signature c)
                                         (date_str c) JNull))
                     "response" (JObj []))
      with (parse_body response);
    rewrite Hok; unfold first, commit, no_fault; cbn [at_query at_commit];
    repeat match goal with
           | |- context [find_row ?q ?rows] =>
               destruct (find_row q rows) as [[? ?]|]
           end;
    destruct (parse_body response); try discriminate Hobj;
    (split; intros Hr; try discriminate Hr;
     first [reflexivity | eexists; reflexivity]).
Qed.

Lemma answer_that_is_not_an_object_raises_witness :
  respond plain_runtime (PGetVerification Sample.signed_call "V1")
          Sample.now
          (NetResponse (Response.mk 200 "[]" (Some (JArr [])) [] []))
          no_fault Sample.db_with_verification
  = Raised (AttributeError (JArr []) "get").
Proof.
  apply (answer_that_is_not_an_object_raises
           plain_runtime (PGetVerification Sample.signed_call "V1")
           Sample.now (Response.mk 200 "[]" (Some (JArr [])) [] [])
           Sample.db_with_verification eq_refl eq_refl eq_refl).
  reflexivity.
Defined.

(** ** What a refresh writes *)





(** ** The local id in the envelope *)

Lemma found_after_upsert {A : Type} (q : A -> bool) (rows rows' : list A)
    (existing : option (nat * A)) (saved : A) :
  existing = find_row q rows ->
  q saved = true ->
  rows' = match existing with
          | Some (i, _) => set_row i saved rows
          | None => rows ++ [saved]
          end ->
  exists i, find_row q rows' = Some (i, saved).
Proof.
  intros He Hq ->. destruct existing as [[i old]|]; symmetry in He.
  - exists i. now apply find_row_set_row with (old := old).
  - exists (List.length rows). now apply find_row_app_new.
Qed.

Lemma save_verification_files (form_data client_type use_sandbox : json)
    (stored_at : datetime) (api_response : json) (result : dict)
    (f : db_fault) (db : database) (result' : dict) (db' : database) :
  save_verification form_data client_type use_sandbox stored_at api_response
                    result f db = Ok (result', db') ->
  exists key i row,
    py_get api_response "id" JNull = Ok key
    /\ find_row (has_verification_id key) (verifications db') = Some (i, row)
    /\ result' = marked_saved (Verification.id row) result.
Proof.
  unfold save_verification. intros H.
  apply bind_ok in H. destruct H as (key & Hkey & H).
  apply bind_ok in H. destruct H as (client_data & Hcd & H).
  apply bind_ok in H. destruct H as (user_id & Huid & H).
  apply bind_ok in H. destruct H as (existing & E2 & H).
  apply bind_ok in H. destruct H as ([saved rows'] & E3 & H).
  inv_bind H. inv_ok H. apply first_ok in E2.
  cbn [fst snd verifications with_verifications].
  assert (Hq : has_verification_id key saved = true /\
               rows' = match existing with
                       | Some (i, _) => set_row i saved (verifications db)
                       | None => verifications db ++ [saved]
                       end).
  { destruct existing as [[i old]|].
    - inv_bind E3. inv_ok E3. split; [|reflexivity].
      symmetry in E2. apply find_row_some in E2. destruct E2 as [_ E2].
      unfold has_verification_id in *. now destruct (truthy user_id).
    - do 5 inv_bind E3. inv_ok E3. split; [|reflexivity].
      apply json_eqb_refl. }
  destruct Hq as [Hq Hrows].
  destruct (found_after_upsert _ _ _ _ _ E2 Hq Hrows) as [i Hi].
  exists key, i, saved. auto.
Qed.

Lemma save_payment_files (payment_data payment_method_id use_sandbox : json)
    (stored_at : datetime) (api_response : json) (result : dict)
    (f : db_fault) (db : database) (result' : dict) (db' : database) :
  save_payment payment_data payment_method_id use_sandbox stored_at
               api_response result f db = Ok (result', db') ->
  exists key i row,
    py_get api_response "id" JNull = Ok key
    /\ find_row (has_payment_id key) (payments db') = Some (i, row)
    /\ result' = marked_saved (Payment.id row) result.
Proof.
  unfold save_payment. intros H.
  apply bind_ok in H. destruct H as (key & Hkey & H).
  apply bind_ok in H. destruct H as (existing & E0 & H).
  apply bind_ok in H. destruct H as ([saved rows'] & E1 & H).
  inv_bind H. inv_ok H. apply first_ok in E0.
  cbn [fst snd payments with_payments].
  assert (Hq : has_payment_id key saved = true /\
               rows' = match existing with
                       | Some (i, _) => set_row i saved (payments db)
                       | None => payments db ++ [saved]
                       end).
  { destruct existing as [[i old]|].
    - do 3 inv_bind E1. inv_ok E1. split; [|reflexivity].
      symmetry in E0. apply find_row_some in E0. now destruct E0 as [_ E0].
    - do 2 inv_bind E1. inv_ok E1. split; [|reflexivity].
      apply json_eqb_refl. }
  destruct Hq as [Hq Hrows].
  destruct (found_after_upsert _ _ _ _ _ E0 Hq Hrows) as [i Hi].
  exists key, i, saved. auto.
Qed.

Lemma save_payout_files (rt : runtime)
    (payout_data use_sandbox external_id : json)
    (stored_at : datetime) (response_json : json) (result : dict)
    (f : db_fault) (db : database) (result' : dict) (db' : database) :
  save_payout rt payout_data use_sandbox external_id stored_at response_json
              result f db = Ok (result', db') ->
  exists i row,
    find_row (has_external_id external_id) (payouts db') = Some (i, row)
    /\ result' = marked_saved (Payout.id row) result.
Proof.
  unfold save_payout. intros H.
  apply bind_ok in H. destruct H as (existing & E & H).
  apply bind_ok in H. destruct H as ([saved rows'] & E0 & H).
  inv_bind H. inv_ok H. apply first_ok in E.
  cbn [fst snd payouts with_payouts].
  assert (Hq : has_external_id external_id saved = true /\
               rows' = match existing with
                       | Some (i, _) => set_row i saved (payouts db)
                       | None => payouts db ++ [saved]
                       end).
  { destruct existing as [[i old]|].
    - inv_ok E0. split; [|reflexivity].
      symmetry in E. apply find_row_some in E. destruct E as [_ E].
      unfold has_external_id in *.
      destruct (truthy (api_payout_id_of response_json));
        destruct (nonempty_dict response_json); exact E.
    - do 2 inv_bind E0. inv_ok E0. split; [|reflexivity].
      apply json_eqb_refl. }
  destruct Hq as [Hq Hrows].
  destruct (found_after_upsert _ _ _ _ _ E Hq Hrows) as [i Hi].
  exists i, saved. auto.
Qed.

(** X17.  Whenever an envelope carries a [local_id], whatever the
    provider answered and whatever the database did, the route was a
    creating one, the key it files under (the answer's [id]; for a
    payout the request's [external_id]) is non-empty, and looking that
    key up in the ledger the route leaves behind finds a row whose id is
    that [local_id]. *)
Theorem local_id_names_the_filed_row :
  forall (rt : runtime) (p : pending) (stored_at : datetime)
         (net : net_result) (f : db_fault) (db : database)
         (result : dict) (db' : database) (v : json),
    respond rt p stored_at net f db = Returned result db' ->
    lookup "local_id" result = Some v ->
    truthy (filing_key p net) = true
    /\ local_id_under p (filing_key p net) db' = Some v.
Proof.
  intros rt p stored_at net f db result db' v H Hv.
  destruct p; unfold_respond H; destruct net as [response|e];
    try (inv_ok H; cbn in Hv; discriminate Hv).
  - (* create_verification *)
    unfold ok_with_id in H. fold_parse_body response.
    crunch0; try (cbn in Hv; discriminate Hv);
      try match goal with
          | Hf : truthy (JBool false) = true |- _ => discriminate Hf
          end.
    destruct (parse_body response) as [ | | | | | |d] eqn:Hbody;
      try discriminate E.
    cbn [py_get] in E. inv_ok E.
    apply save_verification_files in H.
    destruct H as (key & i & row & Hkey & Hrow & ->).
    cbn [py_get] in Hkey. inv_ok Hkey.
    unfold filing_key, local_id_under. rewrite Hbody, Hrow.
    split; [assumption|].
    unfold marked_saved in Hv. rewrite lookup_dict_set_same in Hv.
    now inv_ok Hv.
  - (* get_verification *)
    fold_parse_body response. crunch0;
      try (cbn in Hv; discriminate Hv);
      try (destruct (truthy _); cbn in Hv; discriminate Hv).
  - (* get_documents *)
    crunch0; cbn in Hv; discriminate Hv.
  - (* upload_document *)
    crunch0; cbn in Hv; discriminate Hv.
  - (* update_verification_state *)
    crunch0; cbn in Hv; discriminate Hv.
  - (* create_payment *)
    unfold ok_with_id in H. fold_parse_body response.
    crunch0; try (cbn in Hv; discriminate Hv);
      try match goal with
          | Hf : truthy (JBool false) = true |- _ => discriminate Hf
          end.
    destruct (parse_body response) as [ | | | | | |body] eqn:Hbody;
      try discriminate E.
    cbn [py_get] in E. inv_ok E.
    apply save_payment_files in E0.
    destruct E0 as (key & i & row & Hkey & Hrow & ->).
    cbn [py_get] in Hkey. inv_ok Hkey.
    unfold filing_key, local_id_under. cbn [snd]. rewrite Hbody, Hrow.
    split; [assumption|].
    cbn [fst] in Hv.
    rewrite lookup_dict_set_other in Hv by discriminate.
    unfold marked_saved in Hv. rewrite lookup_dict_set_same in Hv.
    now inv_ok Hv.
  - (* get_payment *)
    crunch0; cbn in Hv; discriminate Hv.
  - (* create_payout *)
    crunch0; try (cbn in Hv; discriminate Hv).
    destruct payout_data as [ | | | | | |pd]; try discriminate E.
    cbn [py_get] in E. inv_ok E.
    apply save_payout_files in Heqr.
    destruct Heqr as (i & row & Hrow & ->).
    unfold filing_key, local_id_under. rewrite Hrow.
    split; [assumption|].
    unfold marked_saved in Hv. rewrite lookup_dict_set_same in Hv.
    now inv_ok Hv.
Qed.

Lemma local_id_names_the_filed_row_witness :
  exists result db',
    respond plain_runtime
            (PCreateVerification Sample.signed_call
               (JObj [("first_name", JStr "Bob")]) (JStr "REMITTER")
               (JBool true))
            Stock.later
            (NetResponse (Sample.answer 200 (JObj [("id", JStr "V9")])))
            no_fault Sample.db_with_verification
    = Returned result db'
    /\ lookup "local_id" result = Some (JInt 2)
    /\ local_id_under
         (PCreateVerification Sample.signed_call
            (JObj [("first_name", JStr "Bob")]) (JStr "REMITTER")
            (JBool true))
         (JStr "V9") db'
       = Some (JInt 2).
Proof.
  do 2 eexists.
  split; [vm_compute; reflexivity|].
  split; [reflexivity|].
  apply (local_id_names_the_filed_row
           plain_runtime
           (PCreateVerification Sample.signed_call
              (JObj [("first_name", JStr "Bob")]) (JStr "REMITTER")
              (JBool true))
           Stock.later
           (NetResponse (Sample.answer 200 (JObj [("id", JStr "V9")])))
           no_fault Sample.db_with_verification _ _ (JInt 2)
           eq_refl eq_refl).
Defined.

(** ** Routes on the local ledger *)

Lemma find_row_cut {A : Type} (q : A -> bool) (rows : list A) (i : nat)
    (x : A) :
  find_row q rows = Some (i, x) ->
  exists before after,
    rows = before ++ x :: after
    /\ remove_row i rows = before ++ after
    /\ q x = true
    /\ (forall y, In y before -> q y = false).
Proof.
  revert i. induction rows as [|r rows IH]; intros i; simpl; [discriminate|].
  destruct (q r) eqn:E.
  - intros H. inversion H; subst. exists [], rows. simpl.
    repeat split; auto. intros y [].
  - destruct (find_row q rows) as [[j y]|]; [|discriminate].
    intros H. inversion H; subst.
    destruct (IH j eq_refl) as (before & after & -> & Hr & Hq & Hb).
    exists (r :: before), after. simpl. rewrite Hr.
    repeat split; auto. intros z [<-|Hz]; auto.
Qed.

Lemma find_row_none_iff {A : Type} (q : A -> bool) (rows : list A) :
  find_row q rows = None <-> (forall y, In y rows -> q y = false).
Proof.
  induction rows as [|r rows IH]; simpl.
  - split; [intros _ y [] | reflexivity].
  - destruct (q r) eqn:E.
    + split; [discriminate|]. intros H. rewrite (H r) in E; [discriminate|].
      now left.
    + destruct (find_row q rows) as [[j y]|].
      * split; [discriminate|]. intros H.
        assert (K : Some (j, y) = None :> option (nat * A)).
        { apply IH. intros z Hz. apply H. now right. }
        discriminate K.
      * split; [|reflexivity]. intros _ y [<-|Hy]; [assumption|].
        now apply IH.
Qed.

(** Taking out the row found under a key that no other row has. *)
Lemma remove_found {A K : Type} (key : A -> K) (k : K) (q : A -> bool)
    (rows : list A) (i : nat) (x : A) :
  (forall y, q y = true <-> key y = k) ->
  NoDup (map key rows) ->
  find_row q rows = Some (i, x) ->
  cut_out x rows (remove_row i rows)
  /\ find_row q (remove_row i rows) = None
  /\ (forall y, In y (remove_row i rows) <-> In y rows /\ q y = false)
  /\ NoDup (map key (remove_row i rows)).
Proof.
  intros Hq Hnd Hfind.
  destruct (find_row_cut q rows i x Hfind)
    as (before & after & -> & -> & Hx & Hb).
  rewrite map_app in Hnd. cbn [map] in Hnd.
  pose proof (NoDup_remove_1 _ _ _ Hnd) as Hnd'.
  pose proof (NoDup_remove_2 _ _ _ Hnd) as Hnot.
  rewrite <- map_app in Hnd', Hnot.
  assert (Hrest : forall y, In y (before ++ after) -> q y = false).
  { intros y Hy. destruct (q y) eqn:E; [|reflexivity].
    exfalso. apply Hnot.
    apply Hq in E. apply Hq in Hx. rewrite Hx, <- E. now apply in_map. }
  split; [now exists before, after|].
  split; [now apply find_row_none_iff|].
  split; [|assumption].
  intros y. split.
  - intros Hy. split; [|now apply Hrest].
    apply in_app_or in Hy. apply in_or_app.
    destruct Hy; [now left | right; now right].
  - intros [Hy Hqy]. apply in_app_or in Hy. apply in_or_app.
    destruct Hy as [Hy|[<-|Hy]]; auto. congruence.
Qed.

Lemma has_verification_id_str (s : string) (v : Verification.t) :
  has_verification_id (JStr s) v = true
  <-> Verification.verification_id v = JStr s.
Proof.
  unfold has_verification_id.
  destruct (Verification.verification_id v); simpl;
    try (split; [discriminate | intros H; discriminate H]).
  rewrite String.eqb_eq. split; congruence.
Qed.

Lemma NoDup_map_filter {A K : Type} (key : A -> K) (q : A -> bool)
    (rows : list A) :
  NoDup (map key rows) -> NoDup (map key (filter q rows)).
Proof.
  induction rows as [|r rows IH]; simpl; [auto|].
  intros H. inversion H as [|? ? Hn Hd]; subst.
  destruct (q r); simpl; [|auto].
  constructor; [|auto].
  intros Hin. apply Hn. apply in_map_iff in Hin.
  destruct Hin as (y & Hy & Hin). apply filter_In in Hin.
  rewrite <- Hy. apply in_map. tauto.
Qed.

Lemma has_verification_str (s : string) (d : Document.t) :
  has_verification (JStr s) d = true <-> Document.verification_id d = JStr s.
Proof.
  unfold has_verification.
  destruct (Document.verification_id d); simpl;
    try (split; [discriminate | intros H; discriminate H]).
  rewrite String.eqb_eq. split; congruence.
Qed.

Lemma not_true_iff_neq {P : Prop} (b : bool) :
  (b = true <-> P) -> (b = false <-> ~ P).
Proof.
  intros H. destruct b; split; intros K; try discriminate; try reflexivity.
  - exfalso. apply K. now apply H.
  - intros HP. apply H in HP. discriminate.
Qed.

(** X18.  delete_verification, with a database that raises nothing and
    a ledger whose keys are unique.  Without a row under the id the
    route answers 404.  With one it answers success and leaves exactly
    the verifications and the documents filed under other ids, the
    payments and payouts as they were, and keys unique; a second call
    with the same id answers 404. *)
Theorem delete_verification_takes_the_row_and_its_documents :
  forall (verification_id : string) (db : database),
    unique_keys db ->
    (found (has_verification_id (JStr verification_id)) (verifications db)
     = false ->
     delete_verification verification_id no_fault db = LocalNotFound)
    /\ (found (has_verification_id (JStr verification_id))
              (verifications db) = true ->
        exists db',
          delete_verification verification_id no_fault db
          = LocalJson (deleted "Verification deleted") db'
          /\ (forall v, In v (verifications db')
                        <-> In v (verifications db)
                            /\ Verification.verification_id v
                               <> JStr verification_id)
          /\ (forall d, In d (documents db')
                        <-> In d (documents db)
                            /\ Document.verification_id d
                               <> JStr verification_id)
          /\ payments db' = payments db
          /\ payouts db' = payouts db
          /\ unique_keys db'
          /\ delete_verification verification_id no_fault db'
             = LocalNotFound).
Proof.
  intros verification_id db (Uv & Ud & Up & Uo).
  unfold found, delete_verification, first, commit, no_fault.
  cbn [at_query at_commit bind].
  destruct (find_row (has_verification_id (JStr verification_id))
                     (verifications db)) as [[i row]|] eqn:Hrow;
    (split; intros Hf; try discriminate Hf); [|reflexivity].
  cbn [bind local_finish]. eexists. split; [reflexivity|].
  cbn [verifications documents payments payouts with_documents
       with_verifications].
  destruct (remove_found Verification.verification_id
              (JStr verification_id) _ _ _ _
              (has_verification_id_str verification_id) Uv Hrow)
    as (_ & Hnone & Hin & Hnd).
  split.
  { intros v. rewrite Hin.
    now rewrite (not_true_iff_neq _ (has_verification_id_str _ v)). }
  split.
  { intros d. rewrite filter_In, Bool.negb_true_iff.
    now rewrite (not_true_iff_neq _ (has_verification_str _ d)). }
  do 2 (split; [reflexivity|]).
  split.
  { repeat split; auto. now apply NoDup_map_filter. }
  now rewrite Hnone.
Qed.

Lemma delete_verification_takes_the_row_and_its_documents_witness :
  exists db',
    delete_verification "V1" no_fault Stock.db_with_documents
    = LocalJson (deleted "Verification deleted") db'
    /\ verifications db' = [Stock.other_verification]
    /\ documents db' = [Stock.other_document]
    /\ delete_verification "V1" no_fault db' = LocalNotFound.
Proof.
  assert (U : unique_keys Stock.db_with_documents).
  { repeat split; cbn; repeat constructor; cbn; intuition discriminate. }
  destruct (proj2 (delete_verification_takes_the_row_and_its_documents
                     "V1" Stock.db_with_documents U) eq_refl)
    as (db' & H & _ & _ & _ & _ & _ & Hagain).
  exists db'. split; [exact H|].
  vm_compute in H. injection H as <-.
  split; [reflexivity|]. split; [reflexivity | exact Hagain].
Defined.



(** ** Listings *)

Lemma lex_leb_total (a b : list Z) :
  lex_leb a b = false -> lex_leb b a = true.
Proof.
  revert b. induction a as [|x a IH]; intros [|y b]; simpl;
    try discriminate.
  intros H. apply Bool.orb_false_iff in H. destruct H as [Hlt H].
  apply Z.ltb_ge in Hlt.
  destruct (Z.eqb_spec x y) as [->|Hne].
  - simpl in H. rewrite (IH b H), Z.eqb_refl.
    now rewrite Bool.orb_true_r.
  - assert (Hyx : (y <? x) = true) by (apply Z.ltb_lt; lia).
    now rewrite Hyx.
Qed.

Lemma insert_desc_perm {A : Type} (created_at : A -> datetime) (x : A)
    (rows : list A) :
  Permutation (x :: rows) (insert_desc created_at x rows).
Proof.
  induction rows as [|y rows IH]; simpl; [apply Permutation_refl|].
  destruct (datetime_leb (created_at x) (created_at y)).
  - eapply perm_trans; [apply perm_swap|]. now apply perm_skip.
  - apply Permutation_refl.
Qed.

Lemma insert_desc_sorted {A : Type} (created_at : A -> datetime) (x : A)
    (rows : list A) :
  Sorted (not_older created_at) rows ->
  Sorted (not_older created_at) (insert_desc created_at x rows).
Proof.
  induction rows as [|y rows IH]; simpl; intros H.
  - repeat constructor.
  - destruct (datetime_leb (created_at x) (created_at y)) eqn:E.
    + inversion H as [|? ? Hs Hh]; subst.
      constructor; [now apply IH|].
      destruct rows as [|z rows]; simpl.
      * constructor. exact E.
      * destruct (datetime_leb (created_at x) (created_at z));
          constructor; [|exact E].
        now inversion Hh.
    + constructor; [exact H|]. constructor.
      unfold not_older. now apply lex_leb_total.
Qed.

Lemma newest_first_perm {A : Type} (created_at : A -> datetime)
    (rows : list A) :
  Permutation (newest_first created_at rows) rows.
Proof.
  unfold newest_first.
  assert (G : forall acc,
             Permutation (fold_left (fun acc r => insert_desc created_at r acc)
                                    rows acc) (rows ++ acc)).
  { induction rows as [|r rows IH]; intros acc; simpl;
      [apply Permutation_refl|].
    eapply perm_trans; [apply IH|].
    eapply perm_trans;
      [apply Permutation_app_head; apply Permutation_sym;
       apply insert_desc_perm|].
    apply Permutation_sym, Permutation_middle. }
  specialize (G []). now rewrite app_nil_r in G.
Qed.

Lemma newest_first_sorted {A : Type} (created_at : A -> datetime)
    (rows : list A) :
  Sorted (not_older created_at) (newest_first created_at rows).
Proof.
  unfold newest_first.
  assert (G : forall acc,
             Sorted (not_older created_at) acc ->
             Sorted (not_older created_at)
                    (fold_left (fun acc r => insert_desc created_at r acc)
                               rows acc)).
  { induction rows as [|r rows IH]; intros acc Hs; simpl; [exact Hs|].
    apply IH. now apply insert_desc_sorted. }
  apply G. constructor.
Qed.

Lemma listing_of_map {A : Type} (created_at : A -> datetime) (id_of : A -> Z)
    (to_dict : A -> dict) (table : list A) :
  (forall r, lookup "id" (to_dict r) = Some (JInt (id_of r))) ->
  listing_of created_at id_of table
             (JArr (map (fun r => JObj (to_dict r))
                        (newest_first created_at table))).
Proof.
  intros Hid.
  exists (newest_first created_at table),
         (map to_dict (newest_first created_at table)).
  split; [now rewrite map_map|].
  split; [rewrite map_map; apply map_ext; exact Hid|].
  split; [apply newest_first_perm | apply newest_first_sorted].
Qed.

(** X20.  The listing routes read and never write.  With a database
    that raises nothing, list_verifications, list_payments and
    list_payouts each answer one object per row of their table, carrying
    the row's id, newest first; get_approved_remitters and
    get_approved_beneficiaries do so for the verifications of that
    client type whose status is APPROVED, and get_approved_verifications
    for those that are APPROVED with a user_id (and of the asked type,
    when one is asked).  The ledger is returned as it was. *)
Theorem listings_are_complete_and_newest_first :
  forall (rt : runtime) (asked : option string) (db : database),
    exists vs ps os rs bs avs,
      list_verifications rt no_fault db = LocalJson vs db
      /\ listing_of Verification.created_at Verification.id
                    (verifications db) vs
      /\ list_payments rt no_fault db = LocalJson ps db
      /\ listing_of Payment.created_at Payment.id (payments db) ps
      /\ list_payouts rt no_fault db = LocalJson os db
      /\ listing_of Payout.created_at Payout.id (payouts db) os
      /\ get_approved_remitters rt no_fault db = LocalJson rs db
      /\ listing_of Verification.created_at Verification.id
                    (filter (is_approved "REMITTER") (verifications db)) rs
      /\ get_approved_beneficiaries rt no_fault db = LocalJson bs db
      /\ listing_of Verification.created_at Verification.id
                    (filter (is_approved "BENEFICIARY") (verifications db))
                    bs
      /\ get_approved_verifications rt asked no_fault db = LocalJson avs db
      /\ listing_of Verification.created_at Verification.id
                    (filter (is_approved_with_user asked) (verifications db))
                    avs.
Proof.
  intros rt asked db. do 6 eexists.
  unfold list_verifications, list_payments, list_payouts,
         get_approved_remitters, get_approved_beneficiaries, get_approved,
         get_approved_verifications, all_rows, no_fault.
  cbn [at_query bind local_finish].
  repeat match goal with
         | |- _ /\ _ => split
         | |- LocalJson _ _ = LocalJson _ _ => reflexivity
         end;
    apply listing_of_map; intros r; reflexivity.
Qed.

(** X21.  A verification the provider has approved is offered for
    payments.  When create_verification files a new verification whose
    answer carries a string id and the status APPROVED, the approved
    list of its client type (remitters or beneficiaries), read from the
    ledger the route leaves behind, has an entry for it.  The entry's
    [payment_user_id] is never empty: it is the client id of the answer
    when that is a non-empty string, and the verification id when the
    answer carries no client id. *)
Theorem approved_verification_is_offered_for_payments :
  forall (rt : runtime) (c : call) (form_data : json)
         (client_type : string) (use_sandbox : json) (stored_at : datetime)
         (response : Response.t) (d : dict) (vid : string) (f : db_fault)
         (db : database) (result : dict) (db' : database),
    client_type = "REMITTER" \/ client_type = "BENEFICIARY" ->
    parse_body response = JObj d ->
    lookup "id" d = Some (JStr vid) ->
    lookup "status" d = Some (JStr "APPROVED") ->
    found (has_verification_id (JStr vid)) (verifications db) = false ->
    respond rt (PCreateVerification c form_data (JStr client_type)
                                    use_sandbox)
            stored_at (NetResponse response) f db
    = Returned result db' ->
    lookup "saved_locally" result = Some (JBool true) ->
    exists entries entry cid v,
      get_approved rt client_type no_fault db'
      = LocalJson (JArr entries) db'
      /\ In (JObj entry) entries
      /\ lookup "verification_id" entry = Some (JStr vid)
      /\ incoming_client_id (NetResponse response) = Some cid
      /\ lookup "payment_user_id" entry = Some v
      /\ truthy v = true
      /\ (truthy cid = true -> v = cid)
      /\ (truthy cid = false -> v = JStr vid).
Proof.
  intros rt c form_data client_type use_sandbox stored_at response d vid f
         db result db' Hct Hbody Hid Hstatus Hnew H Hsaved.
  assert (Hidv : dict_get d "id" JNull = JStr vid)
    by (unfold dict_get; now rewrite Hid).
  assert (Hst : forall dflt, dict_get d "status" dflt = JStr "APPROVED")
    by (intros dflt; unfold dict_get; now rewrite Hstatus).
  unfold found in Hnew.
  destruct (find_row (has_verification_id (JStr vid)) (verifications db))
    as [[? ?]|] eqn:Hnone; [discriminate Hnew|]. clear Hnew.
  unfold_respond H. unfold ok_with_id in H. fold_parse_body response.
  rewrite Hbody in H. cbn [py_get] in H.
  crunch0; try (cbn in Hsaved; discriminate Hsaved);
    try match goal with
        | Hf : truthy (JBool false) = true |- _ => discriminate Hf
        end.
  unfold save_verification in H. cbn [py_get bind] in H.
  rewrite Hidv in H.
  apply bind_ok in H. destruct H as (client_data & Hcd & H).
  apply bind_ok in H. destruct H as (cid & Hcid & H).
  apply bind_ok in H. destruct H as (existing & Hex & H).
  apply first_ok in Hex. rewrite Hnone in Hex. subst existing.
  apply bind_ok in H. destruct H as ([saved rows'] & Hsaving & H).
  apply bind_ok in H. destruct H as (? & _ & H).
  cbn [fst snd] in H. injection H as <- <-.
  do 4 (apply bind_ok in Hsaving; destruct Hsaving as (? & ? & Hsaving)).
  cbn [py_get bind] in Hsaving. rewrite Hst in Hsaving.
  injection Hsaving as <- <-.
  set (row := Verification.mk _ _ _ _ _ _ _ _ _ _ _ _) in *.
  assert (Happroved : is_approved client_type row = true).
  { unfold is_approved. cbn. now rewrite String.eqb_refl. }
  assert (Hin : In row (newest_first Verification.created_at
                          (filter (is_approved client_type)
                                  (verifications db ++ [row])))).
  { eapply Permutation_in;
      [apply Permutation_sym, newest_first_perm|].
    apply filter_In. split; [|exact Happroved].
    apply in_or_app. right. now left. }
  unfold get_approved, all_rows, no_fault. cbn [at_query bind local_finish].
  cbn [verifications with_verifications].
  do 2 eexists. exists cid, (py_or cid (JStr vid)).
  split; [reflexivity|].
  split.
  { apply in_map_iff. exists row. split; [reflexivity | exact Hin]. }
  split; [reflexivity|].
  split.
  { unfold incoming_client_id. rewrite Hbody, Hcd. cbn [bind].
    now rewrite Hcid. }
  split.
  { unfold dict_set. cbn. reflexivity. }
  unfold py_or. rewrite Hidv in Heqb.
  destruct (truthy cid) eqn:Ht; repeat split; auto; discriminate.
Qed.
